(** * Cultural recommendation engine (qloo-client.ts): a shallow embedding

    The TypeScript module [qloo-client.ts] holds an HTTP gateway
    ([QlooClient]) and three orchestrators built on it
    ([CulturalGoalArchitect], [SmartProjectComponentGenerator],
    [CrossDomainDiscoveryEngine]).  The tools of [qloo-integration.ts]
    and the helpers of [qloo-usage-examples.ts] and [test-api-key.ts]
    are built on these.  The file has three parts: the embedding of the
    code, the properties stated by the specification, and further
    properties of the code.

    Conventions of the embedding:
    - a JavaScript [number] is an IEEE-754 binary64 value, here Rocq's
      primitive [float];
    - a value of type [any] (a parsed JSON body, a query parameter) is a
      [JSValue].  The orchestrators are modelled on the declared
      interfaces: an entity is a [QlooEntity] whose [name] and [type]
      are strings, as [searchEntities] and [getInsights] declare to
      return.  Nothing checks this at run time; what the gateway makes
      of any JSON body is stated on [JSValue]s;
    - [table[key] || fallback] on an object literal finds the own
      property, else the member of [Object.prototype] of that name
      (['constructor'], ['toString'], ...), else the fallback;
    - an [async] method is a function from the log of client calls made so
      far to a result (a value or a thrown error) and the extended log;
      the methods that run under [Promise.all] are tasks, which stop at
      each [await];
    - calls to [logger] have no effect on any result and are left out. *)

From Stdlib Require Import List String Ascii Bool ZArith Lia.
From Stdlib Require Import Floats Uint63 DecimalString Zpower.
From Stdlib Require Import Permutation Sorted.
Import ListNotations.

Set Warnings "-inexact-float,-register-all".
Open Scope list_scope.

(* ================================================================== *)
(** * Part I: the embedding                                            *)
(* ================================================================== *)

(** ** JavaScript values, truthiness, thrown errors *)
Module JS.

(** What a [throw] carries.  [ApiError] is the [Error] that [makeRequest]
    builds for a non-2xx response; the others come from the runtime. *)
Inductive JSError : Type :=
| TypeError (msg : string)
| SyntaxError (msg : string)
| NetworkError (msg : string)
| ApiError (msg : string).

Inductive Result (A : Type) : Type :=
| Ok (a : A)
| Err (e : JSError).
Arguments Ok {A} a.
Arguments Err {A} e.

Inductive JSValue : Type :=
| JUndefined
| JNull
| JBool (b : bool)
| JNum (n : float)
| JStr (s : string)
| JArr (items : list JSValue)
| JObj (fields : list (string * JSValue)).

(** [ToBoolean] on a number: [0], [-0] and [NaN] are falsy. *)
Definition truthyNumber (n : float) : bool :=
  (negb (n =? 0) && (n =? n))%float.

Definition truthyString (s : string) : bool :=
  match s with EmptyString => false | _ => true end.

Definition truthy (v : JSValue) : bool :=
  match v with
  | JUndefined | JNull => false
  | JBool b => b
  | JNum n => truthyNumber n
  | JStr s => truthyString s
  | JArr _ | JObj _ => true
  end.

(** [a || b] *)
Definition orElse (a b : JSValue) : JSValue := if truthy a then a else b.

(** [n || d] on an optional number (an absent field reads [undefined]). *)
Definition numberOr (n : option float) (d : float) : float :=
  match n with
  | Some x => if truthyNumber x then x else d
  | None => d
  end.

Fixpoint lookup (key : string) (fields : list (string * JSValue)) : JSValue :=
  match fields with
  | [] => JUndefined
  | (k, v) :: rest => if String.eqb k key then v else lookup key rest
  end.

(** [v.key] for a [v] that is neither [null] nor [undefined].  Every key
    the client reads ([results], [entities], [entity_id], [id], [name],
    [subtype], [type], [query], [affinity], [properties]) is a name that
    arrays, strings, numbers and booleans do not carry, so reading it
    from one of them gives [undefined]. *)
Definition prop (v : JSValue) (key : string) : JSValue :=
  match v with
  | JObj fields => lookup key fields
  | _ => JUndefined
  end.

Definition isNullish (v : JSValue) : bool :=
  match v with
  | JUndefined | JNull => true
  | _ => false
  end.

(** The [TypeError] of reading [key] from [null] or from [undefined],
    worded as V8 words it. *)
Definition cannotRead (v : JSValue) (key : string) : JSError :=
  TypeError ("Cannot read properties of "
               ++ match v with JNull => "null" | _ => "undefined" end
               ++ " (reading '" ++ key ++ "')").

(** [v.key]: reading a property of [null] or [undefined] throws. *)
Definition getProp (v : JSValue) (key : string) : Result JSValue :=
  if isNullish v then Err (cannotRead v key) else Ok (prop v key).

(** [v?.key] *)
Definition optProp (v : JSValue) (key : string) : JSValue :=
  if isNullish v then JUndefined else prop v key.

(** [v?.[0]]: the first element of an array, the first character of a
    string, the property ["0"] of an object. *)
Definition optFirst (v : JSValue) : JSValue :=
  match v with
  | JArr (x :: _) => x
  | JStr (String c _) => JStr (String c EmptyString)
  | JObj fields => lookup "0" fields
  | _ => JUndefined
  end.

Definition isArray (v : JSValue) : bool :=
  match v with
  | JArr _ => true
  | _ => false
  end.

(** [items.map(f)] for an [f] that may throw: the first throw ends the map. *)
Fixpoint mapResult {A B : Type} (f : A -> Result B) (items : list A) : Result (list B) :=
  match items with
  | [] => Ok []
  | x :: rest =>
      match f x with
      | Err e => Err e
      | Ok y =>
          match mapResult f rest with
          | Err e => Err e
          | Ok ys => Ok (y :: ys)
          end
      end
  end.

End JS.
Export JS.

(** ** The interfaces of the integration (lines 8-66 and the option
       objects of [searchEntities] and [getInsights]) *)
Module Types.

Definition ARTIST : string := "urn:entity:artist".
Definition BOOK : string := "urn:entity:book".
Definition BRAND : string := "urn:entity:brand".
Definition DESTINATION : string := "urn:entity:destination".
Definition MOVIE : string := "urn:entity:movie".
Definition PERSON : string := "urn:entity:person".
Definition PLACE : string := "urn:entity:place".
Definition PODCAST : string := "urn:entity:podcast".
Definition TV_SHOW : string := "urn:entity:tv_show".
Definition VIDEO_GAME : string := "urn:entity:video_game".

Record QlooEntity : Type := {
  id : string;
  name : string;
  type : string;
  affinity : option float;
  properties : option JSValue
}.

Record Pagination : Type := {
  pageNumber : float;
  pageTake : float;
  total : option float
}.

Record QlooInsightResponse : Type := {
  results : list QlooEntity;
  explainabilityInfo : option JSValue;
  localityInfo : option JSValue;
  pagination : option Pagination
}.

Record Range : Type := {
  min : option float;
  max : option float
}.

Record ProfileDemographics : Type := {
  age : option string;
  gender : option string
}.

Record ProfileLocation : Type := {
  query : option string;
  coordinates : option string
}.

Record Preferences : Type := {
  prefPriceLevel : option Range;
  prefPopularity : option Range
}.

Record UserTasteProfile : Type := {
  interests : list string;
  demographics : option ProfileDemographics;
  location : option ProfileLocation;
  preferences : option Preferences
}.

Record ProjectContext : Type := {
  projectType : string;
  goalCategory : string;
  userLocation : option string;
  timeframe : option string;
  budget : option string
}.

(** The [options] object of [searchEntities]. *)
Record SearchOptions : Type := {
  searchLocation : option string;
  searchRadius : option float;
  searchTake : option float;
  searchPage : option float
}.

(** The [options] object of [getInsights]. *)
Record SignalDemographics : Type := {
  signalAge : option string;
  signalGender : option string;
  audiences : option (list string)
}.

Record SignalLocation : Type := {
  signalQuery : option string;
  signalCoordinates : option string;
  signalRadius : option float
}.

Record Signals : Type := {
  signalEntities : option (list string);
  signalTags : option (list string);
  signalDemographics : option SignalDemographics;
  signalLocation : option SignalLocation
}.

Record Filters : Type := {
  filterLocation : option string;
  filterTags : option (list string);
  priceLevel : option Range;
  popularity : option Range;
  rating : option Range
}.

Record InsightOptions : Type := {
  filterType : string;
  signals : option Signals;
  filters : option Filters;
  take : option float;
  page : option float;
  explainability : option bool
}.

(** A [UserTasteProfile]'s demographics and location, passed where the
    wider signal objects are expected: the extra fields are absent. *)
Definition asSignalDemographics (d : ProfileDemographics) : SignalDemographics :=
  {| signalAge := age d; signalGender := gender d; audiences := None |}.

Definition asSignalLocation (l : ProfileLocation) : SignalLocation :=
  {| signalQuery := query l; signalCoordinates := coordinates l; signalRadius := None |}.

(** [xs.slice(0, n)] *)
Definition slice0 {A : Type} (n : nat) (xs : list A) : list A := firstn n xs.

(** [xs?.length] as a condition: the array is present and not empty. *)
Definition hasLength {A : Type} (xs : option (list A)) : bool :=
  match xs with
  | Some (_ :: _) => true
  | _ => false
  end.

(** An optional string as a condition: present and not empty. *)
Definition truthyText (s : option string) : bool :=
  match s with
  | Some t => truthyString t
  | None => false
  end.

End Types.
Export Types.

(** ** [QlooClient]: building a request and reading its response
       (lines 69-118 and 168-304) *)
Module Gateway.

Definition QLOO_BASE_URL : string := "https://hackathon.api.qloo.com".

(** The request that [fetch] receives: the endpoint resolved against the
    base URL, and the pairs appended to [url.searchParams], in order. *)
Record Url : Type := {
  base : string;
  endpoint : string;
  searchParams : list (string * string)
}.

(** What [fetch] resolves to.  [json] is the outcome of
    [response.json()]: the parsed body, or the [SyntaxError] of a body
    that is not JSON. *)
Record Response : Type := {
  ok : bool;
  status : nat;
  statusText : string;
  text : string;
  json : Result JSValue
}.

(** The body of a successful [getInsights], after
    [response.results = ...]: the new [results] and the object as it was
    received. *)
Record InsightResponse : Type := {
  resultItems : list JSValue;
  body : JSValue
}.

(** A [Record<string, any>] under construction: its entries in the order
    [Object.entries] lists them (the keys used are not integer-like, so
    this is insertion order). *)
Definition Params : Type := list (string * JSValue).

(** [params[key] = value] *)
Definition assign (key : string) (value : JSValue) (params : Params) : Params :=
  if existsb (fun kv => String.eqb (fst kv) key) params
  then map (fun kv => if String.eqb (fst kv) key then (key, value) else kv) params
  else params ++ [(key, value)].

Definition assignIf (cond : bool) (key : string) (value : JSValue) (params : Params) : Params :=
  if cond then assign key value params else params.

Definition strings (xs : list string) : JSValue := JArr (map JStr xs).

Definition showStatus (n : nat) : string :=
  NilEmpty.string_of_uint (Nat.to_uint n).

Section Client.

(** [Number.prototype.toString], which the runtime provides. *)
Variable numberToString : float -> string.

(** The network: what [fetch(url, ...)] resolves to, or the error it
    rejects with. *)
Variable fetch : Url -> Result Response.

(** [value.toString()] for a value that is neither [null] nor
    [undefined]; an array prints as its [join(',')], in which [null] and
    [undefined] elements print as the empty string. *)
Fixpoint toString (v : JSValue) : string :=
  match v with
  | JUndefined => "undefined"
  | JNull => "null"
  | JBool true => "true"
  | JBool false => "false"
  | JNum n => numberToString n
  | JStr s => s
  | JArr items =>
      String.concat ","
        (map (fun x => if isNullish x then ""%string else toString x) items)
  | JObj _ => "[object Object]"
  end.

(** The [TypeError] of assigning to a property of a number, a string or
    a boolean in strict-mode code, worded as V8 words it. *)
Definition cannotCreate (v : JSValue) (key : string) : JSError :=
  TypeError ("Cannot create property '" ++ key ++ "' on "
               ++ match v with
                  | JNum _ => "number"
                  | JStr _ => "string"
                  | _ => "boolean"
                  end
               ++ " '" ++ toString v ++ "'").

(** [items.join(',')] *)
Definition join (items : list JSValue) : string :=
  String.concat "," (map (fun x => if isNullish x then ""%string else toString x) items).

(** The body of the [forEach] of lines 86-94, on the pairs appended so
    far: nothing for [undefined] and [null], the [join] of an array, the
    [toString] of anything else. *)
Definition appendParam (appended : list (string * string)) (entry : string * JSValue)
  : list (string * string) :=
  let (key, value) := entry in
  match value with
  | JUndefined | JNull => appended
  | JArr items => appended ++ [(key, join items)]
  | _ => appended ++ [(key, toString value)]
  end.

(** Lines 83-94: the URL of a request. *)
Definition buildUrl (endpoint : string) (params : Params) : Url :=
  {| base := QLOO_BASE_URL;
     endpoint := endpoint;
     searchParams := fold_left appendParam params [] |}.

(** Lines 82-118.  The [catch] logs and rethrows. *)
Definition makeRequest (endpoint : string) (params : Params) : Result JSValue :=
  match fetch (buildUrl endpoint params) with
  | Err error => Err error
  | Ok response =>
      if negb (ok response) then
        Err (ApiError ("Qloo API error: " ++ showStatus (status response) ++ " "
                         ++ statusText response ++ " - " ++ text response))
      else json response
  end.

Definition rangeParams (prefix : string) (r : option Range) (params : Params) : Params :=
  match r with
  | None => params
  | Some range =>
      let params :=
        match min range with
        | Some v => assign (prefix ++ ".min") (JNum v) params
        | None => params
        end in
      match max range with
      | Some v => assign (prefix ++ ".max") (JNum v) params
      | None => params
      end
  end.

(** Lines 196-284: the parameters of an insight query. *)
Definition insightParams (options : InsightOptions) : Params :=
  let params : Params :=
    [ ("filter.type"%string, JStr (filterType options));
      ("take"%string, JNum (numberOr (take options) 20));
      ("page"%string, JNum (numberOr (page options) 1)) ] in
  let params :=
    match signals options with
    | None => params
    | Some s =>
        let params :=
          match signalEntities s with
          | Some (e :: es) => assign "signal.interests.entities" (strings (e :: es)) params
          | _ => params
          end in
        let params :=
          match signalTags s with
          | Some (t :: ts) => assign "signal.interests.tags" (strings (t :: ts)) params
          | _ => params
          end in
        let params :=
          match signalDemographics s with
          | None => params
          | Some d =>
              let params :=
                match signalAge d with
                | Some a => assignIf (truthyString a) "signal.demographics.age" (JStr a) params
                | None => params
                end in
              let params :=
                match signalGender d with
                | Some g => assignIf (truthyString g) "signal.demographics.gender" (JStr g) params
                | None => params
                end in
              match audiences d with
              | Some (a :: l) => assign "signal.demographics.audiences" (strings (a :: l)) params
              | _ => params
              end
          end in
        match signalLocation s with
        | None => params
        | Some l =>
            let params :=
              if truthyText (signalQuery l) then
                match signalQuery l with
                | Some q => assign "signal.location.query" (JStr q) params
                | None => params
                end
              else if truthyText (signalCoordinates l) then
                match signalCoordinates l with
                | Some c => assign "signal.location" (JStr c) params
                | None => params
                end
              else params in
            match signalRadius l with
            | Some r => assignIf (truthyNumber r) "signal.location.radius" (JNum r) params
            | None => params
            end
        end
    end in
  let params :=
    match filters options with
    | None => params
    | Some f =>
        let params :=
          match filterLocation f with
          | Some l => assignIf (truthyString l) "filter.location.query" (JStr l) params
          | None => params
          end in
        let params :=
          match filterTags f with
          | Some (t :: ts) => assign "filter.tags" (strings (t :: ts)) params
          | _ => params
          end in
        let params := rangeParams "filter.price_level" (priceLevel f) params in
        let params := rangeParams "filter.popularity" (popularity f) params in
        rangeParams "filter.rating" (rating f) params
    end in
  match explainability options with
  | Some true => assign "feature.explainability" (JBool true) params
  | _ => params
  end.

(** Line 164: [/^-?\d+\.?\d*,-?\d+\.?\d*$/.test(location)].  After the
    digits of a number only [.], [,] or the end can follow, so reading
    each part greedily decides the match. *)
Definition isDigit (c : ascii) : bool :=
  let n := nat_of_ascii c in (48 <=? n)%nat && (n <=? 57)%nat.

Fixpoint skipDigits (s : string) : string :=
  match s with
  | String c rest => if isDigit c then skipDigits rest else s
  | EmptyString => s
  end.

(** [-?\d+\.?\d*] at the start of [s]: what follows it, if it matches. *)
Definition skipNumber (s : string) : option string :=
  let s := match s with
           | String "-" rest => rest
           | _ => s
           end in
  match s with
  | String c rest =>
      if isDigit c then
        let s := skipDigits rest in
        let s := match s with
                 | String "." rest => rest
                 | _ => s
                 end in
        Some (skipDigits s)
      else None
  | EmptyString => None
  end.

Definition isCoordinates (location : string) : bool :=
  match skipNumber location with
  | Some (String "," rest) =>
      match skipNumber rest with
      | Some EmptyString => true
      | _ => false
      end
  | _ => false
  end.

(** Lines 127-145: the parameters of a search. *)
Definition searchRequestParams (query : string) (types : option (list string))
    (options : SearchOptions) : Params :=
  let params : Params :=
    [ ("query"%string, JStr query);
      ("take"%string, JNum (numberOr (searchTake options) 20));
      ("page"%string, JNum (numberOr (searchPage options) 1)) ] in
  let params :=
    match types with
    | Some (t :: ts) => assign "types" (strings (t :: ts)) params
    | _ => params
    end in
  let params :=
    match searchLocation options with
    | Some l => assignIf (truthyString l && isCoordinates l) "filter.location" (JStr l) params
    | None => params
    end in
  match searchRadius options with
  | Some r => assignIf (truthyNumber r) "filter.radius" (JNum r) params
  | None => params
  end.

(** Lines 150-156: one item of the search [results] as an entity. *)
Definition searchEntity (item : JSValue) : Result JSValue :=
  if isNullish item
  then Err (cannotRead item "entity_id")
  else Ok (JObj
    [ ("id"%string, prop item "entity_id");
      ("name"%string, prop item "name");
      ("type"%string, orElse (optFirst (prop item "types")) (JStr "unknown"));
      ("affinity"%string, prop item "affinity");
      ("properties"%string, prop item "properties") ]).

(** Lines 121-159.  [(response.results || []).map(...)]: a truthy
    [results] that is not an array has no [map] to call. *)
Definition searchEntities (query : string) (types : option (list string))
    (options : SearchOptions) : Result (list JSValue) :=
  match makeRequest "/search" (searchRequestParams query types options) with
  | Err e => Err e
  | Ok response =>
      match getProp response "results" with
      | Err e => Err e
      | Ok results =>
          match orElse results (JArr []) with
          | JArr items => mapResult searchEntity items
          | _ => Err (TypeError "(response.results || []).map is not a function")
          end
      end
  end.

(** Lines 291-297: one item of [results.entities] as an entity.  Reading
    a property of a [null] item throws. *)
Definition insightEntity (item : JSValue) : Result JSValue :=
  if isNullish item
  then Err (cannotRead item "entity_id")
  else Ok (JObj
    [ ("id"%string, orElse (prop item "entity_id") (prop item "id"));
      ("name"%string, prop item "name");
      ("type"%string, orElse (orElse (prop item "subtype") (prop item "type")) (JStr "unknown"));
      ("affinity"%string, orElse (optProp (prop item "query") "affinity") (prop item "affinity"));
      ("properties"%string, prop item "properties") ]).

(** Lines 288-303, on the parsed body.  [entities] below is the value of
    [response.results && response.results.entities]; the condition of
    line 290 holds exactly when it is an array (an array is truthy).
    The module is strict-mode code: [response.results = []] on a number,
    string or boolean throws; on an object or an array it sets the
    property. *)
Definition transformInsights (response : JSValue) : Result InsightResponse :=
  match getProp response "results" with
  | Err e => Err e
  | Ok results =>
      let entities := if truthy results then prop results "entities" else results in
      match entities with
      | JArr items =>
          match mapResult insightEntity items with
          | Err e => Err e
          | Ok normalized => Ok {| resultItems := normalized; body := response |}
          end
      | _ =>
          match response with
          | JObj _ | JArr _ => Ok {| resultItems := []; body := response |}
          | _ => Err (cannotCreate response "results")
          end
      end
  end.

(** Lines 169-304. *)
Definition getInsights (options : InsightOptions) : Result InsightResponse :=
  match makeRequest "/v2/insights" (insightParams options) with
  | Err e => Err e
  | Ok response => transformInsights response
  end.

End Client.

(** A printer for the whole numbers used in the examples below
    ([take], [page]): the decimal digits of the integer part. *)
Definition showWhole (n : float) : string :=
  match Prim2SF n with
  | S754_finite false m e =>
      NilEmpty.string_of_uint (N.to_uint (Z.to_N (Z.shiftl (Zpos m) e)))
  | _ => "0"
  end.

End Gateway.

(** ** Arrays: [sort] with a comparator *)
Module JSArray.

(** [Array.prototype.sort(compare)] is a stable sort: [a] stays before
    [b] unless [compare(a, b) > 0] (a [NaN] result counts as [0]).
    Insertion from the right realises it. *)
Fixpoint insertBy {A : Type} (compare : A -> A -> float) (x : A) (sorted : list A) : list A :=
  match sorted with
  | [] => [x]
  | y :: rest =>
      if (0 <? compare x y)%float
      then y :: insertBy compare x rest
      else x :: sorted
  end.

Definition sort {A : Type} (compare : A -> A -> float) (xs : list A) : list A :=
  fold_right (insertBy compare) [] xs.

(** [xs.length] as a number. *)
Definition lengthOf {A : Type} (xs : list A) : float :=
  PrimFloat.of_uint63 (Uint63.of_Z (Z.of_nat (List.length xs))).

(** [s.startsWith(prefix)] *)
Definition startsWith (s prefix : string) : bool := String.prefix prefix s.

(** [c.toUpperCase()] on one ASCII character. *)
Definition upper (c : ascii) : ascii :=
  let n := nat_of_ascii c in
  if (97 <=? n)%nat && (n <=? 122)%nat then ascii_of_nat (n - 32) else c.

(** [s.charAt(0).toUpperCase() + s.slice(1)] *)
Definition capitalize (s : string) : string :=
  match s with
  | EmptyString => EmptyString
  | String c rest => String (upper c) rest
  end.

End JSArray.
Export JSArray.

(** ** Shapes of binary64 numbers, through their specification *)
Module Binary64.

(** A number that is not zero and not [NaN], with sign [s] ([true] for
    negative): a finite non-zero number or an infinity. *)
Definition signedNonzero (s : bool) (x : spec_float) : Prop :=
  match x with
  | S754_finite s' _ _ => s' = s
  | S754_infinity s' => s' = s
  | _ => False
  end.

Definition positiveNumber (x : float) : Prop := signedNonzero false (Prim2SF x).


End Binary64.
Export Binary64.

(** ** The client as the orchestrators see it, and [async] code *)
Module Client.

(** One item of the search endpoint's [results], with the fields that
    lines 150-156 read and the types that [QlooEntity] declares for
    them ([types] a list of strings). *)
Record SearchItem : Type := {
  entity_id : string;
  itemName : string;
  types : option (list string);
  itemAffinity : option float;
  itemProperties : option JSValue
}.

(** A call of a client method, with its arguments.  The orchestrators
    call [searchEntities] and [getInsights]; the client also offers tag
    search, audiences, comparison of two entity groups and trends. *)
Inductive Call : Type :=
| SearchEntities (query : string) (types : option (list string)) (options : SearchOptions)
| GetInsights (options : InsightOptions)
| SearchTags (query : option string)
| FindAudiences
| CompareEntities (groupA groupB : list string)
| GetTrendingEntities (entityType : string).

Definition Log : Type := list Call.

(** The taste-graph service behind the client.  A reply may depend on
    everything asked before, so equal calls may get different replies.
    [searchReply] is the outcome of the search request and of reading
    the [results] of its body: the error thrown, or the items ([None]
    when [results] is missing or falsy);
    [insightsReply] is the outcome of [getInsights]; [otherReply] is the
    outcome of any other call. *)
Record Upstream : Type := {
  searchReply : Log -> string -> option (list string) -> SearchOptions
                -> Result (option (list SearchItem));
  insightsReply : Log -> InsightOptions -> Result QlooInsightResponse;
  otherReply : Log -> Call -> Result JSValue
}.

Definition Async (A : Type) : Type := Log -> Result A * Log.

Definition ret {A : Type} (a : A) : Async A := fun log => (Ok a, log).

Definition throw {A : Type} (e : JSError) : Async A := fun log => (Err e, log).

Definition bind {A B : Type} (m : Async A) (k : A -> Async B) : Async B :=
  fun log =>
    match m log with
    | (Ok a, log') => k a log'
    | (Err e, log') => (Err e, log')
    end.

(** [try { m } catch (error) { handler(error) }] *)
Definition tryCatch {A : Type} (m : Async A) (handler : JSError -> Async A) : Async A :=
  fun log =>
    match m log with
    | (Ok a, log') => (Ok a, log')
    | (Err e, log') => handler e log'
    end.

(** [for (const x of xs) { ... }] over a local array that the body
    extends: the body maps the array so far to the array after. *)
Fixpoint forOf {A S : Type} (xs : list A) (body : S -> A -> Async S) (acc : S) : Async S :=
  match xs with
  | [] => ret acc
  | x :: rest => bind (body acc x) (forOf rest body)
  end.

Declare Scope async_scope.
Delimit Scope async_scope with async.
Notation "x <- m ;; k" := (bind m (fun x => k))
  (at level 61, m at next level, right associativity) : async_scope.

(** An [async] method as the runtime runs it, one step at a time: it
    runs until it awaits an insight query, and goes on with the outcome
    of that query.  [Settled] is a method that has returned or thrown. *)
Inductive Task (A : Type) : Type :=
| Settled (outcome : Result A)
| Awaiting (options : InsightOptions) (resume : Result QlooInsightResponse -> Task A).
Arguments Settled {A} outcome.
Arguments Awaiting {A} options resume.

(** [await this.qloo.getInsights(options)] *)
Definition awaitInsights (options : InsightOptions) : Task QlooInsightResponse :=
  Awaiting options (fun reply => Settled reply).

(** Sequencing, [try]/[catch] and [for]/[of] on tasks. *)
Fixpoint andThen {A B : Type} (t : Task A) (k : A -> Task B) : Task B :=
  match t with
  | Settled (Ok a) => k a
  | Settled (Err e) => Settled (Err e)
  | Awaiting options resume => Awaiting options (fun reply => andThen (resume reply) k)
  end.

Fixpoint guarded {A : Type} (t : Task A) (handler : JSError -> Task A) : Task A :=
  match t with
  | Settled (Ok a) => Settled (Ok a)
  | Settled (Err e) => handler e
  | Awaiting options resume => Awaiting options (fun reply => guarded (resume reply) handler)
  end.

Fixpoint eachOf {A S : Type} (xs : list A) (body : S -> A -> Task S) (acc : S) : Task S :=
  match xs with
  | [] => Settled (Ok acc)
  | x :: rest => andThen (body acc x) (eachOf rest body)
  end.

(** A task run alone, to its end: each query is issued when the task
    reaches it, and answered by the service as the log then stands. *)
Fixpoint perform {A : Type} (qloo : Upstream) (t : Task A) (log : Log) : Result A * Log :=
  match t with
  | Settled outcome => (outcome, log)
  | Awaiting options resume =>
      perform qloo (resume (insightsReply qloo log options)) (log ++ [GetInsights options])
  end.

(** Calling an [async] method: it runs to its first [await], which
    issues the query. *)
Definition start {A : Type} (qloo : Upstream) (t : Task A) (log : Log) : Task A * Log :=
  match t with
  | Settled outcome => (Settled outcome, log)
  | Awaiting options resume =>
      (resume (insightsReply qloo log options), log ++ [GetInsights options])
  end.

(** [await Promise.all([a, b, c, d])].  The array is built first: the
    four methods are called in turn, and each runs to its first [await],
    so the first query of each is issued, in the order of the array,
    before any method goes on.  A method goes on when the reply to its
    query arrives, and issues its later queries one after the other.
    The methods are continued here in the order of the array; when at
    most one of them awaits more than once (as in the one use below,
    where only the content method does), this is the order of the
    runtime whatever the order of arrival.  The result is the four
    results by position; a rejection rejects the whole (the methods of
    the one use never reject). *)
Definition promiseAll4 {A B C D : Type} (qloo : Upstream)
    (a : Task A) (b : Task B) (c : Task C) (d : Task D) : Async (A * B * C * D) :=
  fun log =>
    let '(a, log) := start qloo a log in
    let '(b, log) := start qloo b log in
    let '(c, log) := start qloo c log in
    let '(d, log) := start qloo d log in
    let '(x, log) := perform qloo a log in
    let '(y, log) := perform qloo b log in
    let '(z, log) := perform qloo c log in
    let '(w, log) := perform qloo d log in
    (match x, y, z, w with
     | Ok x, Ok y, Ok z, Ok w => Ok (x, y, z, w)
     | Err e, _, _, _ | _, Err e, _, _ | _, _, Err e, _ | _, _, _, Err e => Err e
     end,
     log).

(** Lines 150-156: a search result as an entity. *)
Definition searchEntity (item : SearchItem) : QlooEntity :=
  {| id := entity_id item;
     name := itemName item;
     type := match types item with
             | Some (t :: _) => if truthyString t then t else "unknown"%string
             | _ => "unknown"%string
             end;
     affinity := itemAffinity item;
     properties := itemProperties item |}.

(** [qloo.searchEntities(query, types, options)]: the call is logged, and
    the reply's [results || []] are mapped to entities. *)
Definition searchEntities (qloo : Upstream) (query : string)
    (types : option (list string)) (options : SearchOptions) : Async (list QlooEntity) :=
  fun log =>
    (match searchReply qloo log query types options with
     | Err e => Err e
     | Ok None => Ok []
     | Ok (Some items) => Ok (map searchEntity items)
     end,
     log ++ [SearchEntities query types options]).

(** [qloo.getInsights(options)] *)
Definition getInsights (qloo : Upstream) (options : InsightOptions)
  : Async QlooInsightResponse :=
  fun log => (insightsReply qloo log options, log ++ [GetInsights options]).

(** [{ take: n }] *)
Definition takeOnly (n : float) : SearchOptions :=
  {| searchLocation := None; searchRadius := None;
     searchTake := Some n; searchPage := None |}.

(** An insight query with nothing but a type and a [take]. *)
Definition plainQuery (filterType : string) (n : float) : InsightOptions :=
  {| filterType := filterType; signals := None; filters := None;
     take := Some n; page := None; explainability := None |}.

Definition noSignals : Signals :=
  {| signalEntities := None; signalTags := None;
     signalDemographics := None; signalLocation := None |}.

(** The properties that every object literal inherits from
    [Object.prototype]: eleven functions and [__proto__], the prototype
    itself. *)
Definition objectPrototypeMembers : list string :=
  [ "constructor"; "__defineGetter__"; "__defineSetter__"; "hasOwnProperty";
    "__lookupGetter__"; "__lookupSetter__"; "isPrototypeOf"; "propertyIsEnumerable";
    "toString"; "valueOf"; "__proto__"; "toLocaleString" ]%string.

(** What [table[key] || fallback] evaluates to: a value of the table's
    type, or the member of [Object.prototype] named [key]. *)
Inductive Looked (V : Type) : Type :=
| Found (value : V)
| Inherited (member : string).
Arguments Found {V} value.
Arguments Inherited {V} member.

Fixpoint ownProperty {V : Type} (table : list (string * V)) (key : string) : option V :=
  match table with
  | [] => None
  | (k, v) :: rest => if String.eqb k key then Some v else ownProperty rest key
  end.

(** [table[key] || fallback] on an object literal whose values are
    non-empty strings or arrays (all truthy): the value of the own
    property [key]; else, when [key] names a member of
    [Object.prototype], that member (a function or an object: truthy
    too); else the fallback. *)
Definition tableLookup {V : Type} (table : list (string * V)) (key : string) (fallback : V)
  : Looked V :=
  match ownProperty table key with
  | Some v => Found v
  | None =>
      if existsb (String.eqb key) objectPrototypeMembers then Inherited key
      else Found fallback
  end.

(** [String(Object.prototype[member])], as V8 prints it: the source text
    of a built-in function, and ['[object Object]'] for the prototype. *)
Definition memberText (member : string) : string :=
  if String.eqb member "__proto__" then "[object Object]"%string
  else if String.eqb member "constructor" then "function Object() { [native code] }"%string
  else ("function " ++ member ++ "() { [native code] }")%string.

(** A looked-up value in a place that is declared a string and is read
    through [toString()] only (a query parameter) or not at all: an
    inherited member stands there as its text. *)
Definition textOf (found : Looked string) : string :=
  match found with
  | Found value => value
  | Inherited member => memberText member
  end.

End Client.
Export Client.

(** ** [CulturalGoalArchitect] (lines 387-559) *)
Module CulturalGoalArchitect.

Record Project : Type := {
  projectName : string;
  culturalAlignment : list QlooEntity;
  affinityScore : float
}.

Record Connection : Type := {
  from : string;
  to : string;
  connection : list QlooEntity;
  strength : float
}.

Record Enhancement : Type := {
  culturalRecommendations : list QlooEntity;
  personalizedProjects : list Project;
  crossDomainConnections : list Connection
}.

(** Lines 554-558. *)
Definition calculateAverageAffinity (entities : list QlooEntity) : float :=
  if Nat.eqb (List.length entities) 0 then 0%float
  else
    let total :=
      fold_left (fun sum entity => (sum + numberOr (affinity entity) 0)%float)
                entities 0%float in
    (total / lengthOf entities)%float.

Definition goalEntityMapping : list (string * list string) :=
  [ ("fitness"%string, [PLACE; BRAND; BOOK]);
    ("business"%string, [BRAND; BOOK; PERSON]);
    ("travel"%string, [DESTINATION; PLACE; BOOK]);
    ("learning"%string, [BOOK; PODCAST; PERSON]);
    ("creative"%string, [ARTIST; BOOK; MOVIE]);
    ("social"%string, [PLACE; BRAND; DESTINATION]) ].

Definition projectTypes : list string :=
  [ "discovery"; "execution"; "community"; "learning" ]%string.

Section WithClient.

Variable qloo : Upstream.

Local Open Scope async_scope.

(** Lines 441-451. *)
Definition resolveUserInterests (interests : list string) : Async (list QlooEntity) :=
  forOf interests
    (fun resolvedEntities interest =>
       searchResults <- searchEntities qloo interest None (takeOnly 5) ;;
       ret (resolvedEntities ++ searchResults))
    [].

(** Lines 453-473.  A goal category that names a member of
    [Object.prototype] makes [relevantTypes] that member, which the
    [for]/[of] cannot iterate. *)
Definition getGoalRelevantEntities (goal : string) (context : ProjectContext)
  : Async (list QlooEntity) :=
  match tableLookup goalEntityMapping (goalCategory context) [PLACE] with
  | Found relevantTypes =>
      forOf relevantTypes
        (fun entities entityType =>
           results <- searchEntities qloo goal (Some [entityType]) (takeOnly 10) ;;
           ret (entities ++ results))
        []
  | Inherited member => throw (TypeError "relevantTypes is not iterable")
  end.

(** Lines 475-509.  The [push] inside the [try] cannot throw. *)
Definition findCrossDomainConnections (userEntities goalEntities : list QlooEntity)
    (context : ProjectContext) : Async (list Connection) :=
  let connections : list Connection := [] in
  if Nat.ltb 0 (List.length userEntities) && Nat.ltb 0 (List.length goalEntities)
  then ret (connections ++
              [ {| from := "user_interests";
                   to := "goal_domain";
                   connection := slice0 5 goalEntities;
                   strength := 0.8 |} ])
  else ret connections.

(** The query of lines 532-539. *)
Definition projectQuery (userEntities : list QlooEntity) (context : ProjectContext)
  : InsightOptions :=
  {| filterType := PLACE;
     signals := Some
       {| signalEntities := Some (map id (slice0 3 userEntities));
          signalTags := None;
          signalDemographics := None;
          signalLocation :=
            if truthyText (userLocation context)
            then Some {| signalQuery := userLocation context;
                         signalCoordinates := None;
                         signalRadius := None |}
            else None |};
     filters := None;
     take := Some 10%float;
     page := None;
     explainability := None |}.

(** Lines 511-552: one [try]/[catch] around each project type. *)
Definition generateCulturallyAwareProjects (goal : string)
    (userEntities goalEntities : list QlooEntity) (context : ProjectContext)
  : Async (list Project) :=
  forOf projectTypes
    (fun projects projectType =>
       tryCatch
         (insights <- getInsights qloo (projectQuery userEntities context) ;;
          ret (projects ++
                 [ {| projectName := (capitalize projectType ++ " Project")%string;
                      culturalAlignment := results insights;
                      affinityScore := calculateAverageAffinity (results insights) |} ]))
         (fun error => ret projects))
    [].

(** Lines 390-439.  The outer [catch] logs and rethrows. *)
Definition enhanceGoalWithCulturalInsights (goal : string)
    (userProfile : UserTasteProfile) (context : ProjectContext) : Async Enhancement :=
  tryCatch
    (userEntities <- resolveUserInterests (interests userProfile) ;;
     goalEntities <- getGoalRelevantEntities goal context ;;
     crossDomainConnections <-
       findCrossDomainConnections userEntities goalEntities context ;;
     personalizedProjects <-
       generateCulturallyAwareProjects goal userEntities goalEntities context ;;
     ret {| culturalRecommendations := goalEntities;
            personalizedProjects := personalizedProjects;
            crossDomainConnections := crossDomainConnections |})
    (fun error => throw error).

End WithClient.

End CulturalGoalArchitect.

(** ** [SmartProjectComponentGenerator] (lines 561-682) *)
Module SmartProjectComponentGenerator.

Record Components : Type := {
  venues : list QlooEntity;
  content : list QlooEntity;
  tools : list QlooEntity;
  communities : list QlooEntity
}.

Definition contentTypes : list string := [BOOK; PODCAST; MOVIE].

(** [o?.field] for an optional object and an optional field. *)
Definition optField {A B : Type} (f : A -> option B) (o : option A) : option B :=
  match o with
  | Some a => f a
  | None => None
  end.

(** The queries of lines 590-603, 621-628, 644-651 and 667-674. *)
Definition venueQuery (userProfile : UserTasteProfile) (context : ProjectContext)
  : InsightOptions :=
  {| filterType := PLACE;
     signals := Some
       {| signalEntities := Some (slice0 5 (interests userProfile));
          signalTags := None;
          signalDemographics := option_map asSignalDemographics (demographics userProfile);
          signalLocation := option_map asSignalLocation (location userProfile) |};
     filters := Some
       {| filterLocation := userLocation context;
          filterTags := None;
          priceLevel := optField prefPriceLevel (preferences userProfile);
          popularity := optField prefPopularity (preferences userProfile);
          rating := None |};
     take := Some 15%float;
     page := None;
     explainability := None |}.

Definition contentQuery (contentType : string) (userProfile : UserTasteProfile)
  : InsightOptions :=
  {| filterType := contentType;
     signals := Some
       {| signalEntities := Some (slice0 5 (interests userProfile));
          signalTags := None;
          signalDemographics := option_map asSignalDemographics (demographics userProfile);
          signalLocation := None |};
     filters := None;
     take := Some 5%float;
     page := None;
     explainability := None |}.

Definition toolQuery (userProfile : UserTasteProfile) : InsightOptions :=
  {| filterType := BRAND;
     signals := Some
       {| signalEntities := Some (slice0 5 (interests userProfile));
          signalTags := None;
          signalDemographics := option_map asSignalDemographics (demographics userProfile);
          signalLocation := None |};
     filters := None;
     take := Some 10%float;
     page := None;
     explainability := None |}.

Definition communityQuery (userProfile : UserTasteProfile) : InsightOptions :=
  {| filterType := DESTINATION;
     signals := Some
       {| signalEntities := Some (slice0 5 (interests userProfile));
          signalTags := None;
          signalDemographics := None;
          signalLocation := option_map asSignalLocation (location userProfile) |};
     filters := None;
     take := Some 10%float;
     page := None;
     explainability := None |}.

(** Lines 584-610. *)
Definition getVenueRecommendations (projectType : string)
    (userProfile : UserTasteProfile) (context : ProjectContext) : Task (list QlooEntity) :=
  guarded
    (andThen (awaitInsights (venueQuery userProfile context))
             (fun insights => Settled (Ok (results insights))))
    (fun error => Settled (Ok [])).

(** Lines 612-637: one [try]/[catch] around each content type. *)
Definition getContentRecommendations (projectType : string)
    (userProfile : UserTasteProfile) : Task (list QlooEntity) :=
  eachOf contentTypes
    (fun allContent contentType =>
       guarded
         (andThen (awaitInsights (contentQuery contentType userProfile))
                  (fun insights => Settled (Ok (allContent ++ results insights))))
         (fun error => Settled (Ok allContent)))
    [].

(** Lines 639-658. *)
Definition getToolRecommendations (projectType : string)
    (userProfile : UserTasteProfile) : Task (list QlooEntity) :=
  guarded
    (andThen (awaitInsights (toolQuery userProfile))
             (fun insights => Settled (Ok (results insights))))
    (fun error => Settled (Ok [])).

(** Lines 660-681. *)
Definition getCommunityRecommendations (projectType : string)
    (userProfile : UserTasteProfile) (context : ProjectContext) : Task (list QlooEntity) :=
  guarded
    (andThen (awaitInsights (communityQuery userProfile))
             (fun insights => Settled (Ok (results insights))))
    (fun error => Settled (Ok [])).

Section WithClient.

Variable qloo : Upstream.

Local Open Scope async_scope.

(** Lines 564-582.  The four methods run under [Promise.all]: the venue,
    book, brand and destination queries are issued first, in this
    order, then the podcast and the movie query. *)
Definition generateComponentRecommendations (projectType : string)
    (userProfile : UserTasteProfile) (context : ProjectContext) : Async Components :=
  joined <- promiseAll4 qloo
              (getVenueRecommendations projectType userProfile context)
              (getContentRecommendations projectType userProfile)
              (getToolRecommendations projectType userProfile)
              (getCommunityRecommendations projectType userProfile context) ;;
  let '(venues, content, tools, communities) := joined in
  ret {| venues := venues; content := content;
         tools := tools; communities := communities |}.

End WithClient.

End SmartProjectComponentGenerator.

(** ** [CrossDomainDiscoveryEngine] (lines 684-896) *)
Module CrossDomainDiscoveryEngine.

Record SurpriseConnection : Type := {
  fromInterest : string;
  toRecommendation : QlooEntity;
  connectionStrength : float;
  explanation : string
}.

Record DomainBridge : Type := {
  domain1 : string;
  domain2 : string;
  bridgeEntities : list QlooEntity;
  insights : list string
}.

Record Discovery : Type := {
  surpriseConnections : list SurpriseConnection;
  domainBridges : list DomainBridge;
  trendingCrossOvers : list QlooEntity
}.

Definition domainTypeMapping : list (string * string) :=
  [ ("fitness"%string, PLACE);
    ("food"%string, PLACE);
    ("travel"%string, DESTINATION);
    ("entertainment"%string, MOVIE);
    ("music"%string, ARTIST);
    ("business"%string, PLACE);
    ("creative"%string, PLACE);
    ("learning"%string, BOOK) ].

(** The three queries of [getTargetDomainEntities]
    (lines 768-774, 784-791, 795-798). *)
Definition locationQuery (targetType : string) : InsightOptions :=
  {| filterType := targetType;
     signals := Some
       {| signalEntities := None;
          signalTags := None;
          signalDemographics := None;
          signalLocation := Some {| signalQuery := Some "Brooklyn, NY"%string;
                                    signalCoordinates := None;
                                    signalRadius := None |} |};
     filters := None;
     take := Some 20%float;
     page := None;
     explainability := None |}.

Definition tagQuery (targetType : string) (tagIds : list string) : InsightOptions :=
  {| filterType := targetType;
     signals := Some
       {| signalEntities := None;
          signalTags := Some (slice0 5 tagIds);
          signalDemographics := None;
          signalLocation := None |};
     filters := None;
     take := Some 20%float;
     page := None;
     explainability := Some true |}.

(** [e.type && !e.type.startsWith('urn:tag')] *)
Definition isRealEntity (e : QlooEntity) : bool :=
  truthyString (type e) && negb (startsWith (type e) "urn:tag").

(** [e.type && e.type.startsWith('urn:tag')] *)
Definition isTagEntity (e : QlooEntity) : bool :=
  truthyString (type e) && startsWith (type e) "urn:tag".

(** The comparator of line 834. *)
Definition byStrength (a b : SurpriseConnection) : float :=
  (connectionStrength b - connectionStrength a)%float.

Section WithClient.

Variable qloo : Upstream.

Local Open Scope async_scope.

(** Lines 737-746. *)
Definition resolveInterests (interests : list string) : Async (list QlooEntity) :=
  forOf interests
    (fun entities interest =>
       results <- searchEntities qloo interest None (takeOnly 3) ;;
       ret (entities ++ results))
    [].

(** Lines 748-801.  [targetType] is read by [getInsights] only, which
    sends its [toString()] as [filter.type]. *)
Definition getTargetDomainEntities (domain : string) (userEntities : list QlooEntity)
  : Async (list QlooEntity) :=
  let targetType := textOf (tableLookup domainTypeMapping domain PLACE) in
  let realEntities := filter isRealEntity userEntities in
  if Nat.eqb (List.length realEntities) 0 then
    insights <- getInsights qloo (locationQuery targetType) ;;
    ret (results insights)
  else
    let tagEntities := filter isTagEntity userEntities in
    let tagIds := map id tagEntities in
    if Nat.ltb 0 (List.length tagIds) then
      insights <- getInsights qloo (tagQuery targetType tagIds) ;;
      ret (results insights)
    else
      insights <- getInsights qloo (plainQuery targetType 20) ;;
      ret (results insights).

(** Lines 823-830: the body of the inner loop. *)
Definition considerPair (userEntity : QlooEntity)
    (connections : list SurpriseConnection) (targetEntity : QlooEntity)
  : list SurpriseConnection :=
  match affinity targetEntity with
  | Some a =>
      if truthyNumber a && (0.7 <? a)%float then
        connections ++
          [ {| fromInterest := name userEntity;
               toRecommendation := targetEntity;
               connectionStrength := a;
               explanation := ("People who like " ++ name userEntity
                                 ++ " often also enjoy " ++ name targetEntity)%string |} ]
      else connections
  | None => connections
  end.

(** Lines 803-835. *)
Definition findSurpriseConnections (userEntities targetEntities : list QlooEntity)
    (context : ProjectContext) : Async (list SurpriseConnection) :=
  let connections :=
    fold_left
      (fun connections userEntity =>
         fold_left (considerPair userEntity) (slice0 5 targetEntities) connections)
      (slice0 3 userEntities) [] in
  ret (sort byStrength connections).

(** Lines 837-871.  The [push] inside the [try] cannot throw. *)
Definition findDomainBridges (userInterests : list string) (targetDomain : string)
  : Async (list DomainBridge) :=
  let bridges : list DomainBridge := [] in
  ret (bridges ++
         [ {| domain1 := "user_interests";
              domain2 := targetDomain;
              bridgeEntities := [];
              insights :=
                [ ("Bridge found between " ++ String.concat ", " userInterests
                     ++ " and " ++ targetDomain ++ " domain")%string;
                  "Cultural connections exist across these domains"%string;
                  "Consider exploring crossover opportunities"%string ] |} ]).

(** Lines 873-895. *)
Definition getTrendingCrossovers (domain : string) : Async (list QlooEntity) :=
  ret [].

(** Lines 687-735.  The outer [catch] logs and rethrows. *)
Definition discoverUnexpectedConnections (userInterests : list string)
    (targetDomain : string) (context : ProjectContext) : Async Discovery :=
  tryCatch
    (userEntities <- resolveInterests userInterests ;;
     targetEntities <- getTargetDomainEntities targetDomain userEntities ;;
     surpriseConnections <- findSurpriseConnections userEntities targetEntities context ;;
     domainBridges <- findDomainBridges userInterests targetDomain ;;
     trendingCrossOvers <- getTrendingCrossovers targetDomain ;;
     ret {| surpriseConnections := surpriseConnections;
            domainBridges := domainBridges;
            trendingCrossOvers := trendingCrossOvers |})
    (fun error => throw error).

End WithClient.

End CrossDomainDiscoveryEngine.

(** ** The vocabulary of the specification

    The definitions of this module follow the words of the specification
    (not the code); the theorems of Part II compare the code with them. *)
Module Spec.

Import CulturalGoalArchitect SmartProjectComponentGenerator CrossDomainDiscoveryEngine.

(** *** Tier selection *)

(** A tag entity is one whose type starts with the tag-namespace prefix;
    a real entity is one whose type does not. *)
Definition isTag (e : QlooEntity) : bool := startsWith (type e) "urn:tag".

Definition isReal (e : QlooEntity) : bool := negb (startsWith (type e) "urn:tag").

Inductive Tier : Type :=
| LocationFallback
| TagSignal
| Plain.

(** Zero real entities: location fallback; otherwise a tag entity: tag
    signal; otherwise: plain. *)
Definition selectTier (anyReal anyTag : bool) : Tier :=
  if negb anyReal then LocationFallback
  else if anyTag then TagSignal
  else Plain.

Definition tierQuery (targetType : string) (userEntities : list QlooEntity) : InsightOptions :=
  match selectTier (existsb isReal userEntities) (existsb isTag userEntities) with
  | LocationFallback => locationQuery targetType
  | TagSignal => tagQuery targetType (map id (filter isTag userEntities))
  | Plain => plainQuery targetType 20
  end.

(** [getInsights(...).results] of a reply, a failure staying a failure. *)
Definition resultsOf (reply : Result QlooInsightResponse) : Result (list QlooEntity) :=
  match reply with
  | Ok response => Ok (results response)
  | Err e => Err e
  end.

(** *** Surprise connections *)

Definition pairRecord (userEntity targetEntity : QlooEntity) (a : float) : SurpriseConnection :=
  {| fromInterest := name userEntity;
     toRecommendation := targetEntity;
     connectionStrength := a;
     explanation := ("People who like " ++ name userEntity
                       ++ " often also enjoy " ++ name targetEntity)%string |}.

(** The records of the kept pairs: first 3 user entities, first 5 target
    entities, affinity above 0.7. *)
Definition keptPairs (userEntities targetEntities : list QlooEntity)
  : list SurpriseConnection :=
  flat_map
    (fun u =>
       flat_map
         (fun t =>
            match affinity t with
            | Some a => if (0.7 <? a)%float then [pairRecord u t a] else []
            | None => []
            end)
         (firstn 5 targetEntities))
    (firstn 3 userEntities).

(** Descending by [connectionStrength]: no record is weaker than a later one. *)
Definition descending (l : list SurpriseConnection) : Prop :=
  StronglySorted
    (fun a b => (connectionStrength b <=? connectionStrength a)%float = true) l.

(** A record whose strength is a positive number. *)
Definition strong (r : SurpriseConnection) : Prop :=
  positiveNumber (connectionStrength r).

(** *** Calls and their replies *)

Definition isErr {A : Type} (r : Result A) : bool :=
  match r with
  | Err _ => true
  | Ok _ => false
  end.

(** Whether the reply to call [c], made after the calls of [before], is
    a failure. *)
Definition callFails (qloo : Upstream) (before : Log) (c : Call) : bool :=
  match c with
  | SearchEntities q t o => isErr (searchReply qloo before q t o)
  | GetInsights o => isErr (insightsReply qloo before o)
  | other => isErr (otherReply qloo before other)
  end.

Definition isComparison (c : Call) : bool :=
  match c with
  | CompareEntities _ _ => true
  | _ => false
  end.

(** The calls made between two states of the log. *)
Definition newCalls (before after : Log) : list Call :=
  skipn (List.length before) after.

(** Whether one of [calls], made in this order after [before], fails. *)
Fixpoint anyFailure (qloo : Upstream) (before : Log) (calls : list Call) : bool :=
  match calls with
  | [] => false
  | c :: rest => callFails qloo before c || anyFailure qloo (before ++ [c]) rest
  end.

(** The arguments of a search call. *)
Definition SearchArgs : Type := (string * option (list string) * SearchOptions)%type.

Definition searchCall (args : SearchArgs) : Call :=
  let '(q, t, o) := args in SearchEntities q t o.

(** The entities each search returns, when the searches are made in
    list order, one after the other, after the calls of [log]. *)
Fixpoint searchReplies (qloo : Upstream) (searches : list SearchArgs) (log : Log)
  : list (Result (list QlooEntity)) :=
  match searches with
  | [] => []
  | (q, t, o) :: rest =>
      fst (searchEntities qloo q t o log)
        :: searchReplies qloo rest (log ++ [SearchEntities q t o])
  end.

(** The position and error of the first failure among replies. *)
Fixpoint firstError {A : Type} (replies : list (Result A)) : option (nat * JSError) :=
  match replies with
  | [] => None
  | Err e :: _ => Some (0, e)
  | Ok _ :: rest =>
      match firstError rest with
      | Some (k, e) => Some (S k, e)
      | None => None
      end
  end.

(** The values of the successful replies, in order. *)
Fixpoint successes {A : Type} (replies : list (Result A)) : list A :=
  match replies with
  | [] => []
  | Ok a :: rest => a :: successes rest
  | Err _ :: rest => successes rest
  end.

(** Searches made in order, their results concatenated, the first
    failure aborting (nothing is called after it). *)
Definition searchesInOrder (qloo : Upstream) (searches : list SearchArgs) (log : Log)
  : Result (list QlooEntity) * Log :=
  let replies := searchReplies qloo searches log in
  match firstError replies with
  | None => (Ok (List.concat (successes replies)), log ++ map searchCall searches)
  | Some (k, e) => (Err e, log ++ map searchCall (firstn (S k) searches))
  end.

(** The search of one interest, capped at [cap] results. *)
Definition interestSearch (cap : float) (interest : string) : SearchArgs :=
  (interest, None, takeOnly cap).

(** Interest resolution as the specification words it: one search per
    interest string, in list order, each capped at [cap] results. *)
Definition resolution (qloo : Upstream) (cap : float) (interests : list string) (log : Log)
  : Result (list QlooEntity) * Log :=
  searchesInOrder qloo (map (interestSearch cap) interests) log.


(** *** Degrading a failed fetch *)

Definition resultsOrEmpty (reply : Result QlooInsightResponse) : list QlooEntity :=
  match reply with
  | Ok response => results response
  | Err _ => []
  end.

(** The projects of the project types whose insight call succeeds, the
    calls being made one per type after the calls of [log]. *)
Fixpoint projectsOf (qloo : Upstream) (q : InsightOptions) (types : list string) (log : Log)
  : list Project :=
  match types with
  | [] => []
  | projectType :: rest =>
      match insightsReply qloo log q with
      | Ok response =>
          [ {| projectName := (capitalize projectType ++ " Project")%string;
               culturalAlignment := results response;
               affinityScore := calculateAverageAffinity (results response) |} ]
      | Err _ => []
      end ++ projectsOf qloo q rest (log ++ [GetInsights q])
  end.

(** *** Affinity *)




(** *** Request parameters *)

(** An element of an array value, as it stands in the joined text:
    nothing for [null] and [undefined], else its [toString]. *)
Definition elementText (numberToString : float -> string) (x : JSValue) : string :=
  match x with
  | JUndefined | JNull => ""%string
  | _ => Gateway.toString numberToString x
  end.

(** The pairs one entry of a parameter map contributes to the query:
    none for [undefined] and [null]; for an array the one pair whose
    value is the texts of its elements with a comma between them; for
    any other value the one pair of its [toString]. *)
Definition entryPairs (numberToString : float -> string) (entry : string * JSValue)
  : list (string * string) :=
  match snd entry with
  | JUndefined | JNull => []
  | JArr items => [(fst entry, String.concat "," (map (elementText numberToString) items))]
  | v => [(fst entry, Gateway.toString numberToString v)]
  end.

(** How often [key] occurs among the keys of a list of pairs. *)
Definition occurrences {V : Type} (key : string) (pairs : list (string * V)) : nat :=
  List.length (filter (fun kv => String.eqb (fst kv) key) pairs).

(** *** Insight responses *)

(** The nested array at [results.entities] of a body, if there is one. *)
Definition nestedEntities (body : JSValue) : option (list JSValue) :=
  match prop (prop body "results") "entities" with
  | JArr items => Some items
  | _ => None
  end.

(** An item of [results.entities] as an entity: [entity_id]-or-[id],
    [subtype]-or-[type] (else ['unknown']), [query.affinity]-or-[affinity]. *)
Definition normalizedItem (item : JSValue) : JSValue :=
  JObj
    [ ("id"%string, orElse (prop item "entity_id") (prop item "id"));
      ("name"%string, prop item "name");
      ("type"%string, orElse (orElse (prop item "subtype") (prop item "type")) (JStr "unknown"));
      ("affinity"%string, orElse (optProp (prop item "query") "affinity") (prop item "affinity"));
      ("properties"%string, prop item "properties") ].

Definition isObjectOrArray (v : JSValue) : bool :=
  match v with
  | JObj _ | JArr _ => true
  | _ => false
  end.

End Spec.

(** ** Sample inputs and services, used to run the code below *)
Module Examples.

Import Spec.

Definition entity (label kind : string) (a : option float) : QlooEntity :=
  {| id := label; name := label; type := kind; affinity := a; properties := None |}.

Definition found (label kind : string) : SearchItem :=
  {| entity_id := label; itemName := label; types := Some [kind];
     itemAffinity := None; itemProperties := None |}.

Definition response (entities : list QlooEntity) : QlooInsightResponse :=
  {| results := entities; explainabilityInfo := None;
     localityInfo := None; pagination := None |}.

Definition jazzFan : UserTasteProfile :=
  {| interests := ["jazz"%string]; demographics := None;
     location := None; preferences := None |}.

Definition fitnessContext : ProjectContext :=
  {| projectType := "personal"; goalCategory := "fitness";
     userLocation := None; timeframe := None; budget := None |}.

(** Every search finds one artist; every insight query is answered with
    one place. *)
Definition healthy : Upstream :=
  {| searchReply := fun _ q _ _ => Ok (Some [found q ARTIST]);
     insightsReply := fun _ _ => Ok (response [entity "Prospect Park" PLACE (Some 0.9%float)]);
     otherReply := fun _ _ => Ok JNull |}.

(** Searches work; every insight query is refused. *)
Definition insightsDown : Upstream :=
  {| searchReply := fun _ q _ _ => Ok (Some [found q ARTIST]);
     insightsReply := fun _ _ => Err (ApiError "Qloo API error: 403 Forbidden - ");
     otherReply := fun _ _ => Ok JNull |}.

(** Only the insight queries for books are refused. *)
Definition booksDown : Upstream :=
  {| searchReply := fun _ q _ _ => Ok (Some [found q ARTIST]);
     insightsReply := fun _ options =>
       if String.eqb (filterType options) BOOK
       then Err (ApiError "Qloo API error: 403 Forbidden - ")
       else Ok (response [entity (filterType options) (filterType options) None]);
     otherReply := fun _ _ => Ok JNull |}.

(** A 2xx response whose body is the JSON text [null]. *)
Definition nullBody : Gateway.Url -> Result Gateway.Response :=
  fun _ => Ok {| Gateway.ok := true; Gateway.status := 200; Gateway.statusText := "OK";
                 Gateway.text := "null"; Gateway.json := Ok JNull |}.

(** A 2xx response with the given parsed body. *)
Definition replying (body : JSValue) : Gateway.Url -> Result Gateway.Response :=
  fun _ => Ok {| Gateway.ok := true; Gateway.status := 200; Gateway.statusText := "OK";
                 Gateway.text := ""; Gateway.json := Ok body |}.

(** The affinities [0.2, 0.8, missing]. *)
Definition threeEntities : list QlooEntity :=
  [ entity "a" PLACE (Some 0.2%float);
    entity "b" PLACE (Some 0.8%float);
    entity "c" PLACE None ].

End Examples.

(** ** The helpers at the end of [qloo-client.ts] (lines 904-943) *)
Module Profiles.

(** The argument of [createUserTasteProfile]. *)
Record ProfileData : Type := {
  dataInterests : list string;
  dataAge : option string;
  dataGender : option string;
  dataLocation : option string;
  dataCoordinates : option string;
  dataPriceRange : option Range
}.

(** Lines 905-927: the three optional objects are always created, with
    optional fields. *)
Definition createUserTasteProfile (data : ProfileData) : UserTasteProfile :=
  {| interests := dataInterests data;
     demographics := Some {| age := dataAge data; gender := dataGender data |};
     location := Some {| query := dataLocation data; coordinates := dataCoordinates data |};
     preferences := Some {| prefPriceLevel := dataPriceRange data; prefPopularity := None |} |}.

(** Lines 929-943. *)
Definition createProjectContext (data : ProjectContext) : ProjectContext :=
  {| projectType := projectType data;
     goalCategory := goalCategory data;
     userLocation := userLocation data;
     timeframe := timeframe data;
     budget := budget data |}.

End Profiles.

(** ** Strings and sets of strings, as the callers use them *)
Module Text.

(** [s.includes(part)] *)
Fixpoint includes (s part : string) : bool :=
  String.prefix part s
  || match s with
     | String _ rest => includes rest part
     | EmptyString => false
     end.

(** [\w]: an ASCII letter, a digit or [_]. *)
Definition isWordChar (c : ascii) : bool :=
  let n := nat_of_ascii c in
  ((48 <=? n) && (n <=? 57) || (65 <=? n) && (n <=? 90)
   || (97 <=? n) && (n <=? 122) || (n =? 95))%nat.

(** The maximal runs of word characters of [s], in order; [run] holds,
    reversed, the run being read. *)
Fixpoint wordRuns (s : string) (run : list ascii) : list string :=
  match s with
  | EmptyString =>
      match run with
      | [] => []
      | _ => [string_of_list_ascii (rev run)]
      end
  | String c rest =>
      if isWordChar c then wordRuns rest (c :: run)
      else
        match run with
        | [] => wordRuns rest []
        | _ => string_of_list_ascii (rev run) :: wordRuns rest []
        end
  end.

(** [s.match(/\b\w{4,}\b/g) || []]: a match starts at a word boundary,
    takes the whole run of word characters (it must end at a boundary)
    and needs four of them. *)
Definition longWords (s : string) : list string :=
  filter (fun w => (4 <=? String.length w)%nat) (wordRuns s []).

(** [[...new Set(xs)]]: the first occurrence of each string, in order;
    [seen] holds what the set already contains. *)
Fixpoint distinctFrom (seen xs : list string) : list string :=
  match xs with
  | [] => []
  | x :: rest =>
      if existsb (String.eqb x) seen then distinctFrom seen rest
      else x :: distinctFrom (x :: seen) rest
  end.

Definition distinct (xs : list string) : list string := distinctFrom [] xs.

(** [`${n}`] for a length. *)
Definition showCount (n : nat) : string :=
  NilEmpty.string_of_uint (Nat.to_uint n).

End Text.

(** ** The tools of [qloo-integration.ts] (lines 136-531)

    The tools run on the module's client; it is the parameter [qloo].
    [toLowerCase], [Math.round] and [Number.prototype.toString] belong
    to the runtime and are parameters too.  A tool is modelled by the
    function given to [ai.defineTool], on an input of the shape of its
    [inputSchema]. *)
Module Integration.

Import SmartProjectComponentGenerator CrossDomainDiscoveryEngine Profiles Text.

Definition categoryMap : list (string * string) :=
  [ ("fitness", "fitness"); ("health", "fitness");
    ("business", "business"); ("startup", "business");
    ("travel", "travel");
    ("learning", "learning"); ("education", "learning");
    ("creative", "creative"); ("art", "creative");
    ("social", "social"); ("networking", "social") ]%string.

Definition typeMap : list (string * string) :=
  [ (BOOK, "Learning Resource"); (PODCAST, "Audio Content"); (MOVIE, "Visual Content");
    (ARTIST, "Music & Art"); (BRAND, "Tools & Services"); (PLACE, "Venues & Locations");
    (DESTINATION, "Travel & Exploration") ]%string.

(** Lines 403-415.  For an entity type that names a member of
    [Object.prototype] the answer is that member, not a text. *)
Definition mapEntityTypeToCategory (entityType : string) : Looked string :=
  tableLookup typeMap entityType "General"%string.

(** The [culturalData] of a suggestion. *)
Inductive CulturalData : Type :=
| VenueData (recommendedVenues : list QlooEntity) (defaultView : string)
            (supportedViews : list string)
| ContentData (recommendedContent : list QlooEntity) (contentTypes : list string)
| BrandData (recommendedBrands : list QlooEntity) (defaultView : string)
            (supportedViews : list string).

Inductive ComponentType : Type :=
| workspace
| task_group
| file_repository
| app_factory.

Record Suggestion : Type := {
  componentName : string;
  componentType : ComponentType;
  culturalData : CulturalData;
  primingPrompt : string
}.

(** Lines 417-476. *)
Definition generateComponentSuggestions (projectName projectDescription : string)
    (recommendations : Components) : list Suggestion :=
  let suggestions : list Suggestion := [] in
  let suggestions :=
    if Nat.ltb 0 (List.length (venues recommendations)) then
      suggestions ++
        [ {| componentName := "Cultural Venues & Locations";
             componentType := task_group;
             culturalData :=
               VenueData (slice0 5 (venues recommendations)) "database"
                         ["database"; "list"; "board"]%string;
             primingPrompt :=
               ("Welcome to your culturally-curated venue guide for " ++ projectName
                ++ "! I've identified " ++ showCount (List.length (venues recommendations))
                ++ " venues that align with your taste profile. These locations aren't just functional—they're places where you'll feel genuinely excited to spend time. Which type of venue activity would you like to prioritize first for your project?")%string |} ]
    else suggestions in
  let suggestions :=
    if Nat.ltb 0 (List.length (content recommendations)) then
      suggestions ++
        [ {| componentName := "Personalized Learning Library";
             componentType := file_repository;
             culturalData :=
               ContentData (slice0 10 (content recommendations))
                           ["books"; "podcasts"; "videos"; "articles"]%string;
             primingPrompt :=
               ("This is your personalized content library for " ++ projectName
                ++ ", curated based on your interests and learning style. I've found "
                ++ showCount (List.length (content recommendations))
                ++ " resources that should resonate with your taste. What specific aspect of your project would you like to dive deeper into first?")%string |} ]
    else suggestions in
  if Nat.ltb 0 (List.length (tools recommendations)) then
    suggestions ++
      [ {| componentName := "Culturally-Aligned Tools & Brands";
           componentType := task_group;
           culturalData :=
             BrandData (slice0 8 (tools recommendations)) "list" ["list"; "database"]%string;
           primingPrompt :=
             ("Here are tools and brands that align with your cultural preferences for "
              ++ projectName
              ++ ". These aren't just functional recommendations—they're brands that people with similar tastes genuinely love using. Which category of tools is most critical for getting started with your project?")%string |} ]
  else suggestions.

(** Lines 478-497. *)
Definition generateActionableInsights (discoveries : Discovery) (targetDomain : string)
  : list string :=
  let insights : list string := [] in
  let insights :=
    if Nat.ltb 0 (List.length (surpriseConnections discoveries)) then
      insights ++
        [ ("Your interests reveal "
           ++ showCount (List.length (surpriseConnections discoveries))
           ++ " unexpected connections to " ++ targetDomain
           ++ " - leverage these for unique approaches")%string ]
    else insights in
  let insights :=
    if Nat.ltb 0 (List.length (domainBridges discoveries)) then
      insights ++
        [ (showCount (List.length (domainBridges discoveries))
           ++ " bridge opportunities identified between your interests and "
           ++ targetDomain ++ " domain")%string ]
    else insights in
  let insights :=
    if Nat.ltb 0 (List.length (trendingCrossOvers discoveries)) then
      insights ++
        [ (showCount (List.length (trendingCrossOvers discoveries))
           ++ " trending crossover opportunities in " ++ targetDomain
           ++ " align with your profile")%string ]
    else insights in
  insights ++
    [ ("Consider approaching " ++ targetDomain
       ++ " through the lens of your existing interests for better engagement")%string;
      ("Look for communities and brands that bridge your interests with "
       ++ targetDomain ++ " objectives")%string ].

(** The input of the discovery tool (lines 267-272). *)
Record DiscoveryInput : Type := {
  inputInterests : list string;
  targetDomain : string;
  goalContext : option string;
  inputLocation : option string
}.

Record Opportunity : Type := {
  opportunity : string;
  potential : string;
  culturalBasis : string
}.

(** The output of the discovery tool (lines 273-299). *)
Record ConnectionOut : Type := {
  outFromInterest : string;
  outToRecommendation : string;
  outConnectionStrength : float;
  outExplanation : string
}.

Record BridgeOut : Type := {
  outDomain1 : string;
  outDomain2 : string;
  outBridgeEntities : list string;
  outInsights : list string
}.

Record TrendOut : Type := {
  trendName : string;
  trendType : string;
  trendingScore : option float
}.

Record DiscoveryOutput : Type := {
  outSurpriseConnections : list ConnectionOut;
  outDomainBridges : list BridgeOut;
  outTrendingCrossOvers : list TrendOut;
  actionableInsights : list string;
  innovationOpportunities : list Opportunity
}.

(** The input of the component tool (lines 139-159). *)
Record ComponentPreferences : Type := {
  priceRange : option Range;
  popularityLevel : option Range
}.

Record ComponentInput : Type := {
  inputProjectName : string;
  inputProjectDescription : string;
  inputProjectType : string;
  componentInterests : list string;
  inputDemographics : option ProfileDemographics;
  componentLocation : option string;
  inputPreferences : option ComponentPreferences
}.

(** What the handler of the component tool returns (lines 235-260):
    each entity with its label ([relevance], [category], [useCase] or
    [connectionType]); a [category] is what [mapEntityTypeToCategory]
    answered. *)
Record Labelled : Type := {
  labelledName : string;
  labelledType : string;
  labelledAffinity : option float;
  label : Looked string
}.

Record ComponentOutput : Type := {
  outVenues : list Labelled;
  outContent : list Labelled;
  outTools : list Labelled;
  outCommunities : list Labelled;
  componentSuggestions : list Suggestion
}.

Definition labelled (text : QlooEntity -> Looked string) (e : QlooEntity) : Labelled :=
  {| labelledName := name e; labelledType := type e;
     labelledAffinity := affinity e; label := text e |}.

Section Runtime.

Variable toLowerCase : string -> string.
Variable mathRound : float -> float.
Variable numberToString : float -> string.
Variable qloo : Upstream.

Local Open Scope async_scope.

(** Lines 385-401.  For a project type that, lower-cased, names a
    member of [Object.prototype] the answer is that member, not a
    category. *)
Definition categorizeProject (projectType : string) : Looked string :=
  tableLookup categoryMap (toLowerCase projectType) "general"%string.

(** Lines 499-529. *)
Definition identifyInnovationOpportunities (discoveries : Discovery) (input : DiscoveryInput)
  : list Opportunity :=
  let opportunities : list Opportunity :=
    fold_left
      (fun opportunities connection =>
         opportunities ++
           [ {| opportunity :=
                  ("Create a " ++ targetDomain input
                   ++ " solution that incorporates elements from "
                   ++ fromInterest connection)%string;
                potential :=
                  ("High - based on "
                   ++ numberToString (mathRound (connectionStrength connection * 100)%float)
                   ++ "% cultural affinity")%string;
                culturalBasis := explanation connection |} ])
      (slice0 3 (surpriseConnections discoveries)) [] in
  if Nat.ltb 0 (List.length (domainBridges discoveries)) then
    opportunities ++
      [ {| opportunity := "Develop cross-domain partnerships or products";
           potential := "Medium to High - untapped market potential";
           culturalBasis :=
             "Strong cultural bridges exist between your interests and target domain" |} ]
  else opportunities.

(** Lines 300-351: the function that [ai.defineTool] is given for the
    discovery tool.  The [catch] logs and rethrows.  The framework
    checks what the function returns against the [outputSchema] of
    lines 273-299 afterwards; that check is not part of the function. *)
Definition discoverCrossDomainConnections (input : DiscoveryInput) : Async DiscoveryOutput :=
  tryCatch
    (let context :=
       createProjectContext
         {| projectType := "discovery";
            goalCategory := targetDomain input;
            userLocation := inputLocation input;
            timeframe := None;
            budget := None |} in
     discoveries <- discoverUnexpectedConnections qloo (inputInterests input)
                      (targetDomain input) context ;;
     let actionableInsights := generateActionableInsights discoveries (targetDomain input) in
     let innovationOpportunities := identifyInnovationOpportunities discoveries input in
     ret {| outSurpriseConnections :=
              map (fun conn =>
                     {| outFromInterest := fromInterest conn;
                        outToRecommendation := name (toRecommendation conn);
                        outConnectionStrength := connectionStrength conn;
                        outExplanation := explanation conn |})
                  (surpriseConnections discoveries);
            outDomainBridges :=
              map (fun bridge =>
                     {| outDomain1 := domain1 bridge;
                        outDomain2 := domain2 bridge;
                        outBridgeEntities := map name (bridgeEntities bridge);
                        outInsights := insights bridge |})
                  (domainBridges discoveries);
            outTrendingCrossOvers :=
              map (fun trend =>
                     {| trendName := name trend;
                        trendType := type trend;
                        trendingScore := affinity trend |})
                  (trendingCrossOvers discoveries);
            actionableInsights := actionableInsights;
            innovationOpportunities := innovationOpportunities |})
    (fun error => throw error).

(** Lines 193-261: the function that [ai.defineTool] is given for the
    component tool.  The [catch] logs and rethrows.  The framework
    checks what the function returns against the [outputSchema] of
    lines 160-192 afterwards; that check is not part of the function.
    Nothing reads the [goalCategory] of the context built here. *)
Definition generateSmartProjectComponents (input : ComponentInput) : Async ComponentOutput :=
  tryCatch
    (let userProfile :=
       createUserTasteProfile
         {| dataInterests := componentInterests input;
            dataAge := optField age (inputDemographics input);
            dataGender := optField gender (inputDemographics input);
            dataLocation := componentLocation input;
            dataCoordinates := None;
            dataPriceRange := optField priceRange (inputPreferences input) |} in
     let context :=
       createProjectContext
         {| projectType := inputProjectType input;
            goalCategory := textOf (categorizeProject (inputProjectType input));
            userLocation := componentLocation input;
            timeframe := None;
            budget := None |} in
     recommendations <- generateComponentRecommendations qloo (inputProjectType input)
                          userProfile context ;;
     let componentSuggestions :=
       generateComponentSuggestions (inputProjectName input)
         (inputProjectDescription input) recommendations in
     ret {| outVenues :=
              map (labelled
                     (fun _ => Found "Culturally aligned venue for your project activities"%string))
                  (venues recommendations);
            outContent :=
              map (labelled (fun e => mapEntityTypeToCategory (type e)))
                  (content recommendations);
            outTools :=
              map (labelled (fun _ => Found "Recommended based on your taste profile"%string))
                  (tools recommendations);
            outCommunities :=
              map (labelled (fun _ => Found "Cultural alignment"%string))
                  (communities recommendations);
            componentSuggestions := componentSuggestions |})
    (fun error => throw error).

End Runtime.

End Integration.

(** ** The helpers of [qloo-usage-examples.ts] (lines 275-300) and of the
       command-line tester ([test-api-key.ts], lines 540-558) *)
Module Helpers.

Import Text.

Section Runtime.

Variable toLowerCase : string -> string.

(** [qloo-usage-examples.ts], lines 275-280.  [contextInterests] is
    [context.interests], if any. *)
Definition extractInterestsFromGoal (goal : string) (contextInterests : option (list string))
  : list string :=
  let keywords := longWords (toLowerCase goal) in
  let contextInterests :=
    match contextInterests with
    | Some interests => interests
    | None => []
    end in
  slice0 10 (distinct (keywords ++ contextInterests)).

(** [qloo-usage-examples.ts], lines 282-300. *)
Definition categorizeGoal (goal : string) : string :=
  let goalLower := toLowerCase goal in
  if includes goalLower "fitness" || includes goalLower "health"
     || includes goalLower "exercise" then "fitness"%string
  else if includes goalLower "business" || includes goalLower "startup"
          || includes goalLower "entrepreneur" then "business"%string
  else if includes goalLower "travel" || includes goalLower "explore" then "travel"%string
  else if includes goalLower "learn" || includes goalLower "study"
          || includes goalLower "education" then "learning"%string
  else if includes goalLower "creative" || includes goalLower "art"
          || includes goalLower "music" then "creative"%string
  else if includes goalLower "social" || includes goalLower "network"
          || includes goalLower "community" then "social"%string
  else "general"%string.

(** [test-api-key.ts], lines 540-558: the tester's own copy, with
    ['shape'] and ['career'] added. *)
Definition categorizeGoalCli (goal : string) : string :=
  let goalLower := toLowerCase goal in
  if includes goalLower "fitness" || includes goalLower "health"
     || includes goalLower "exercise" || includes goalLower "shape" then "fitness"%string
  else if includes goalLower "business" || includes goalLower "startup"
          || includes goalLower "entrepreneur" then "business"%string
  else if includes goalLower "travel" || includes goalLower "explore" then "travel"%string
  else if includes goalLower "learn" || includes goalLower "study"
          || includes goalLower "education" || includes goalLower "career"
       then "learning"%string
  else if includes goalLower "creative" || includes goalLower "art"
          || includes goalLower "music" then "creative"%string
  else if includes goalLower "social" || includes goalLower "network"
          || includes goalLower "community" then "social"%string
  else "general"%string.

End Runtime.

End Helpers.

(** ** The integration example of [qloo-usage-examples.ts]
       (lines 211-272 and 302-331)

    [toLowerCase], [s.replace(/\s+/g, '_')], [Math.round] and [Math.min]
    belong to the runtime and are parameters. *)
Module GoalSystem.

Import CulturalGoalArchitect SmartProjectComponentGenerator CrossDomainDiscoveryEngine.
Import Profiles.

(** The [userContext] argument: its fields, when present. *)
Record UserContext : Type := {
  contextInterests : option (list string);
  contextDemographics : option ProfileDemographics;
  contextLocation : option string
}.

(** [{ ...project, smartComponents }] *)
Record EnhancedProject : Type := {
  enhanced : Project;
  smartComponents : Components
}.

Record GoalSystemResult : Type := {
  originalGoal : string;
  culturalEnhancement : Enhancement;
  enhancedProjects : list EnhancedProject;
  crossDomainOpportunities : Discovery;
  culturalFitScore : float
}.

Section Runtime.

Variable toLowerCase : string -> string.
Variable underscored : string -> string.
Variable mathRound : float -> float.
Variable mathMin : float -> float -> float.
Variable qloo : Upstream.

Local Open Scope async_scope.

(** Lines 302-331. *)
Definition calculateOverallFitScore (culturalInsights : Enhancement)
    (crossDomainInsights : Discovery) : float :=
  let totalScore := 0%float in
  let factors := 0%float in
  let '(totalScore, factors) :=
    if Nat.ltb 0 (List.length (personalizedProjects culturalInsights)) then
      let avgProjectScore :=
        (fold_left (fun sum project => sum + affinityScore project)
                   (personalizedProjects culturalInsights) 0
         / lengthOf (personalizedProjects culturalInsights))%float in
      ((totalScore + avgProjectScore * 100)%float, (factors + 1)%float)
    else (totalScore, factors) in
  let '(totalScore, factors) :=
    if Nat.ltb 0 (List.length (surpriseConnections crossDomainInsights)) then
      let avgConnectionScore :=
        (fold_left (fun sum conn => sum + connectionStrength conn)
                   (surpriseConnections crossDomainInsights) 0
         / lengthOf (surpriseConnections crossDomainInsights))%float in
      ((totalScore + avgConnectionScore * 100)%float, (factors + 1)%float)
    else (totalScore, factors) in
  let '(totalScore, factors) :=
    if Nat.ltb 0 (List.length (domainBridges crossDomainInsights)) then
      ((totalScore
        + mathMin (lengthOf (domainBridges crossDomainInsights) * 10) 80)%float,
       (factors + 1)%float)
    else (totalScore, factors) in
  if (0 <? factors)%float then mathRound (totalScore / factors)%float else 70%float.

(** The context built at lines 228-232, 241-245 and 258-262. *)
Definition goalContext (projectType userGoal : string) (userContext : UserContext)
  : ProjectContext :=
  createProjectContext
    {| projectType := projectType;
       goalCategory := Helpers.categorizeGoal toLowerCase userGoal;
       userLocation := contextLocation userContext;
       timeframe := None;
       budget := None |}.

(** Lines 211-272.  Nothing is caught: a rejection of a step is the
    rejection of the whole. *)
Definition exampleGoalSystemIntegration (userGoal : string) (userContext : UserContext)
  : Async GoalSystemResult :=
  let extractedInterests :=
    Helpers.extractInterestsFromGoal toLowerCase userGoal (contextInterests userContext) in
  let userProfile :=
    createUserTasteProfile
      {| dataInterests := extractedInterests;
         dataAge := optField age (contextDemographics userContext);
         dataGender := optField gender (contextDemographics userContext);
         dataLocation := contextLocation userContext;
         dataCoordinates := None;
         dataPriceRange := None |} in
  culturalInsights <-
    enhanceGoalWithCulturalInsights qloo userGoal userProfile
      (goalContext "user_defined_goal" userGoal userContext) ;;
  enhancedProjects <-
    forOf (personalizedProjects culturalInsights)
      (fun enhancedProjects project =>
         componentRecommendations <-
           generateComponentRecommendations qloo
             (underscored (toLowerCase (projectName project))) userProfile
             (goalContext (underscored (toLowerCase (projectName project)))
                          userGoal userContext) ;;
         ret (enhancedProjects
                ++ [ {| enhanced := project;
                        smartComponents := componentRecommendations |} ]))
      [] ;;
  crossDomainInsights <-
    discoverUnexpectedConnections qloo extractedInterests
      (Helpers.categorizeGoal toLowerCase userGoal)
      (goalContext "discovery" userGoal userContext) ;;
  ret {| originalGoal := userGoal;
         culturalEnhancement := culturalInsights;
         enhancedProjects := enhancedProjects;
         crossDomainOpportunities := crossDomainInsights;
         culturalFitScore :=
           calculateOverallFitScore culturalInsights crossDomainInsights |}.

End Runtime.

End GoalSystem.

(** ** The other endpoints of [QlooClient] (lines 306-382) *)
Module Endpoints.

Import Gateway.

Record TagOptions : Type := {
  tagTypes : option (list string);
  tagTake : option float;
  tagPage : option float
}.

Record AudienceOptions : Type := {
  audienceTypes : option (list string);
  audienceTake : option float;
  audiencePage : option float
}.

Record CompareOptions : Type := {
  compareFilterType : option (list string);
  compareTake : option float;
  comparePage : option float
}.

Record TrendOptions : Type := {
  trendTake : option float;
  trendPage : option float
}.

(** Lines 311-322. *)
Definition tagParams (query : option string) (options : TagOptions) : Params :=
  let params : Params :=
    [ ("take"%string, JNum (numberOr (tagTake options) 20));
      ("page"%string, JNum (numberOr (tagPage options) 1)) ] in
  let params :=
    match query with
    | Some q => assignIf (truthyString q) "filter.query" (JStr q) params
    | None => params
    end in
  match tagTypes options with
  | Some (t :: ts) => assign "filter.tag.types" (strings (t :: ts)) params
  | _ => params
  end.

(** Lines 335-342. *)
Definition audienceParams (options : AudienceOptions) : Params :=
  let params : Params :=
    [ ("take"%string, JNum (numberOr (audienceTake options) 20));
      ("page"%string, JNum (numberOr (audiencePage options) 1)) ] in
  match audienceTypes options with
  | Some (t :: ts) => assign "filter.audience.types" (strings (t :: ts)) params
  | _ => params
  end.

(** Lines 354-363: both groups are put in the map as they are. *)
Definition compareParams (groupA groupB : list string) (options : CompareOptions) : Params :=
  let params : Params :=
    [ ("a.signal.interests.entities"%string, strings groupA);
      ("b.signal.interests.entities"%string, strings groupB);
      ("take"%string, JNum (numberOr (compareTake options) 20));
      ("page"%string, JNum (numberOr (comparePage options) 1)) ] in
  match compareFilterType options with
  | Some (t :: ts) => assign "filter.type" (strings (t :: ts)) params
  | _ => params
  end.

(** Lines 374-378. *)
Definition trendParams (entityType : string) (options : TrendOptions) : Params :=
  [ ("type"%string, JStr entityType);
    ("take"%string, JNum (numberOr (trendTake options) 20));
    ("page"%string, JNum (numberOr (trendPage options) 1)) ].

(** [response.results || []] *)
Definition resultsOrNone (response : JSValue) : Result JSValue :=
  match getProp response "results" with
  | Err e => Err e
  | Ok results => Ok (orElse results (JArr []))
  end.

Section Client.

Variable numberToString : float -> string.
Variable fetch : Url -> Result Response.

(** Lines 307-327. *)
Definition searchTags (query : option string) (options : TagOptions) : Result JSValue :=
  match makeRequest numberToString fetch "/v2/tags" (tagParams query options) with
  | Err e => Err e
  | Ok response => resultsOrNone response
  end.

(** Lines 330-346. *)
Definition findAudiences (options : AudienceOptions) : Result JSValue :=
  match makeRequest numberToString fetch "/v2/audiences" (audienceParams options) with
  | Err e => Err e
  | Ok response => resultsOrNone response
  end.

(** Lines 349-367. *)
Definition compareEntities (groupA groupB : list string) (options : CompareOptions)
  : Result JSValue :=
  makeRequest numberToString fetch "/v2/insights/compare" (compareParams groupA groupB options).

(** Lines 370-382. *)
Definition getTrendingEntities (entityType : string) (options : TrendOptions)
  : Result JSValue :=
  match makeRequest numberToString fetch "/trends/category" (trendParams entityType options) with
  | Err e => Err e
  | Ok response => resultsOrNone response
  end.

End Client.

End Endpoints.

(** ** Names used in the statements of Part III *)
Module Vocabulary.

Import SmartProjectComponentGenerator.

(** A parameter map that starts with the entries [first], has no key
    twice and no [undefined] or [null] value. *)
Definition wellFormed (first params : Gateway.Params) : Prop :=
  exists rest,
    params = first ++ rest
    /\ NoDup (map fst params)
    /\ Forall (fun entry => isNullish (snd entry) = false) params.

(** The characters of one number of a coordinate pair. *)
Definition coordinateChar (c : ascii) : bool :=
  Gateway.isDigit c || Ascii.eqb c "-" || Ascii.eqb c ".".

Definition coordinateText (s : string) : Prop :=
  Forall (fun c => coordinateChar c = true) (list_ascii_of_string s).

(** A number that [||] keeps: neither [0] nor [NaN]. *)
Definition keptNumber (v : JSValue) : bool :=
  match v with
  | JNum n => truthyNumber n
  | _ => false
  end.

(** [key] is not a key of [params]. *)
Definition fresh (key : string) (params : Gateway.Params) : Prop :=
  existsb (fun kv => String.eqb (fst kv) key) params = false.

(** The entry an optional value adds to a parameter map: a list when it
    is not empty, a text or a number when it is truthy, a bound of a
    range when it is given. *)
Definition listEntry (key : string) (xs : option (list string)) : Gateway.Params :=
  match xs with
  | Some (x :: rest) => [(key, Gateway.strings (x :: rest))]
  | _ => []
  end.

Definition textEntry (key : string) (s : option string) : Gateway.Params :=
  match s with
  | Some t => if truthyString t then [(key, JStr t)] else []
  | None => []
  end.

Definition numberEntry (key : string) (n : option float) : Gateway.Params :=
  match n with
  | Some x => if truthyNumber x then [(key, JNum x)] else []
  | None => []
  end.

Definition boundEntry (key : string) (n : option float) : Gateway.Params :=
  match n with
  | Some x => [(key, JNum x)]
  | None => []
  end.

Definition rangeEntries (prefix : string) (r : option Range) : Gateway.Params :=
  match r with
  | Some range =>
      boundEntry (prefix ++ ".min") (min range) ++ boundEntry (prefix ++ ".max") (max range)
  | None => []
  end.

Definition signalEntries (s : Signals) : Gateway.Params :=
  listEntry "signal.interests.entities" (signalEntities s)
  ++ listEntry "signal.interests.tags" (signalTags s)
  ++ match signalDemographics s with
     | None => []
     | Some d =>
         textEntry "signal.demographics.age" (signalAge d)
         ++ textEntry "signal.demographics.gender" (signalGender d)
         ++ listEntry "signal.demographics.audiences" (audiences d)
     end
  ++ match signalLocation s with
     | None => []
     | Some l =>
         (if truthyText (signalQuery l)
          then textEntry "signal.location.query" (signalQuery l)
          else textEntry "signal.location" (signalCoordinates l))
         ++ numberEntry "signal.location.radius" (signalRadius l)
     end.

Definition filterEntries (f : Filters) : Gateway.Params :=
  textEntry "filter.location.query" (filterLocation f)
  ++ listEntry "filter.tags" (filterTags f)
  ++ rangeEntries "filter.price_level" (priceLevel f)
  ++ rangeEntries "filter.popularity" (popularity f)
  ++ rangeEntries "filter.rating" (rating f).

(** The parameter map of an insight query, entry by entry. *)
Definition insightEntries (options : InsightOptions) : Gateway.Params :=
  [ ("filter.type"%string, JStr (filterType options));
    ("take"%string, JNum (numberOr (take options) 20));
    ("page"%string, JNum (numberOr (page options) 1)) ]
  ++ match signals options with
     | Some s => signalEntries s
     | None => []
     end
  ++ match filters options with
     | Some f => filterEntries f
     | None => []
     end
  ++ match explainability options with
     | Some true => [("feature.explainability"%string, JBool true)]
     | _ => []
     end.

(** A number that is neither negative nor [NaN]: a zero, or a positive
    finite number or infinity. *)
Definition nonnegative (x : spec_float) : Prop :=
  match x with
  | S754_zero _ => True
  | S754_infinity s | S754_finite s _ _ => s = false
  | S754_nan => False
  end.

(** Affinities that are numbers and not negative. *)
Definition affinitiesNonNegative (entities : list QlooEntity) : bool :=
  forallb (fun e => match affinity e with
                    | Some a => (0 <=? a)%float
                    | None => true
                    end) entities.

(** The profile and the context the component tool builds, and what it
    reports for given recommendations. *)
Definition toolProfile (input : Integration.ComponentInput) : UserTasteProfile :=
  {| interests := Integration.componentInterests input;
     demographics :=
       Some {| age := optField age (Integration.inputDemographics input);
               gender := optField gender (Integration.inputDemographics input) |};
     location := Some {| query := Integration.componentLocation input; coordinates := None |};
     preferences :=
       Some {| prefPriceLevel :=
                 optField Integration.priceRange (Integration.inputPreferences input);
               prefPopularity := None |} |}.

Definition toolContext (toLowerCase : string -> string) (input : Integration.ComponentInput)
  : ProjectContext :=
  {| projectType := Integration.inputProjectType input;
     goalCategory :=
       textOf (Integration.categorizeProject toLowerCase (Integration.inputProjectType input));
     userLocation := Integration.componentLocation input;
     timeframe := None; budget := None |}.

Definition toolOutput (input : Integration.ComponentInput) (recommendations : Components)
  : Integration.ComponentOutput :=
  {| Integration.outVenues :=
       map (Integration.labelled
              (fun _ => Found "Culturally aligned venue for your project activities"%string))
           (venues recommendations);
     Integration.outContent :=
       map (Integration.labelled (fun e => Integration.mapEntityTypeToCategory (type e)))
           (content recommendations);
     Integration.outTools :=
       map (Integration.labelled
              (fun _ => Found "Recommended based on your taste profile"%string))
           (tools recommendations);
     Integration.outCommunities :=
       map (Integration.labelled (fun _ => Found "Cultural alignment"%string))
           (communities recommendations);
     Integration.componentSuggestions :=
       Integration.generateComponentSuggestions (Integration.inputProjectName input)
         (Integration.inputProjectDescription input) recommendations |}.

(** The projects of the integration example with the components
    recommended for each: the queries of a project are made after
    those of the projects before it. *)
Fixpoint withComponents (qloo : Upstream) (userProfile : UserTasteProfile)
    (context : ProjectContext) (projects : list CulturalGoalArchitect.Project) (log : Log)
  : list GoalSystem.EnhancedProject :=
  match projects with
  | [] => []
  | project :: rest =>
      match generateComponentRecommendations qloo "" userProfile context log with
      | (Ok components, log') =>
          {| GoalSystem.enhanced := project; GoalSystem.smartComponents := components |}
            :: withComponents qloo userProfile context rest log'
      | (Err _, _) => []
      end
  end.

(** The six queries of one component generation, in the order in which
    they are issued. *)
Definition componentQueries (userProfile : UserTasteProfile) (context : ProjectContext)
  : list Call :=
  map GetInsights
    [ venueQuery userProfile context;
      contentQuery BOOK userProfile;
      toolQuery userProfile;
      communityQuery userProfile;
      contentQuery PODCAST userProfile;
      contentQuery MOVIE userProfile ].

End Vocabulary.

(** ** More sample inputs *)
Module Samples.

Definition wellnessInput : Integration.ComponentInput :=
  {| Integration.inputProjectName := "Morning Routine";
     Integration.inputProjectDescription := "Move more before work";
     Integration.inputProjectType := "Fitness";
     Integration.componentInterests := ["jazz"; "coffee"]%string;
     Integration.inputDemographics := Some {| age := Some "25_to_29"%string; gender := None |};
     Integration.componentLocation := Some "Brooklyn, NY"%string;
     Integration.inputPreferences :=
       Some {| Integration.priceRange := Some {| min := Some 2%float; max := Some 4%float |};
               Integration.popularityLevel := None |} |}.

(** The same request under another project type and description, and
    asking for popular results only. *)
Definition wellnessInputPopular : Integration.ComponentInput :=
  {| Integration.inputProjectName := "Morning Routine";
     Integration.inputProjectDescription := "Ten minutes a day";
     Integration.inputProjectType := "startup";
     Integration.componentInterests := ["jazz"; "coffee"]%string;
     Integration.inputDemographics := Some {| age := Some "25_to_29"%string; gender := None |};
     Integration.componentLocation := Some "Brooklyn, NY"%string;
     Integration.inputPreferences :=
       Some {| Integration.priceRange := Some {| min := Some 2%float; max := Some 4%float |};
               Integration.popularityLevel :=
                 Some {| min := Some 0.9%float; max := None |} |} |}.

End Samples.

(* ================================================================== *)
(** * Part II: properties                                              *)
(* ================================================================== *)

(** ** Numbers: what rounding cannot do

    The comparator of [sort] subtracts two strengths and the averaging
    adds affinities; the facts needed about binary64 arithmetic are
    proved from its specification ([SpecFloat]): rounding a non-zero value
    whose exponent is in range never gives a zero or a [NaN], so the
    difference of two positive numbers has the sign of their comparison,
    and a sum is [-0] only when both terms are. *)
Module Numbers.

Local Open Scope Z_scope.

(** *** Digits and shifts

    A mantissa of [d] binary digits lies between [2 ^ (d - 1)] and [2 ^ d]. *)
Lemma digits2_pos_lower (m : positive) :
  2 ^ (Zpos (digits2_pos m) - 1) <= Zpos m.
Proof.
  induction m as [p IH | p IH | ]; simpl digits2_pos.
  - rewrite Pos2Z.inj_succ.
    replace (Z.succ (Zpos (digits2_pos p)) - 1) with (Z.succ (Zpos (digits2_pos p) - 1)) by lia.
    rewrite Z.pow_succ_r by lia. lia.
  - rewrite Pos2Z.inj_succ.
    replace (Z.succ (Zpos (digits2_pos p)) - 1) with (Z.succ (Zpos (digits2_pos p) - 1)) by lia.
    rewrite Z.pow_succ_r by lia. lia.
  - simpl. lia.
Qed.

Lemma digits2_pos_upper (m : positive) :
  Zpos m < 2 ^ Zpos (digits2_pos m).
Proof.
  induction m as [p IH | p IH | ]; simpl digits2_pos.
  - rewrite Pos2Z.inj_succ, Z.pow_succ_r by lia. lia.
  - rewrite Pos2Z.inj_succ, Z.pow_succ_r by lia. lia.
  - simpl. lia.
Qed.

(** One step of the rounding shift halves the mantissa. *)
Lemma shr_1_m (r : shr_record) :
  0 <= shr_m r -> shr_m (shr_1 r) = Z.div2 (shr_m r).
Proof.
  destruct r as [m r s]; simpl. destruct m as [ | [p | p | ] | p]; simpl; intros; try reflexivity; lia.
Qed.

(** [q] steps leave at least [2 ^ k] of a mantissa of at least [2 ^ (q + k)]. *)
Lemma iter_shr_lower (q : positive) :
  forall (r : shr_record) (k : Z),
    0 <= k -> 2 ^ (Zpos q + k) <= shr_m r ->
    2 ^ k <= shr_m (iter_pos shr_1 q r).
Proof.
  induction q as [q IH | q IH | ]; intros r k Hk Hr; simpl iter_pos.
  - apply IH; [assumption | ]. apply IH; [lia | ].
    assert (0 <= shr_m r) by (pose proof (Z.pow_pos_nonneg 2 (Zpos q~1 + k)); lia).
    rewrite shr_1_m by assumption. rewrite Z.div2_div.
    apply Z.div_le_lower_bound; [lia | ].
    rewrite <- Z.pow_succ_r by lia.
    replace (Z.succ (Zpos q + (Zpos q + k))) with (Zpos q~1 + k) by lia. assumption.
  - apply IH; [assumption | ]. apply IH; [lia | ].
    replace (Zpos q + (Zpos q + k)) with (Zpos q~0 + k) by lia. assumption.
  - assert (0 <= shr_m r) by (pose proof (Z.pow_pos_nonneg 2 (1 + k)); lia).
    rewrite shr_1_m by assumption. rewrite Z.div2_div.
    apply Z.div_le_lower_bound; [lia | ].
    rewrite <- Z.pow_succ_r by lia.
    replace (Z.succ k) with (1 + k) by lia. assumption.
Qed.

Lemma shr_record_of_loc_m m l : shr_m (shr_record_of_loc m l) = m.
Proof. destruct l as [ | [ | | ]]; reflexivity. Qed.

(** Shifting to the format's exponent keeps a positive mantissa positive
    when the exponent is in range: the shift removes the digits beyond
    the 53rd only. *)
Lemma shr_fexp_positive (m e : Z) (l : SpecFloat.location) :
  0 < m -> emin <= e ->
  0 < shr_m (fst (shr_fexp prec emax m e l)) /\ emin <= snd (shr_fexp prec emax m e l).
Proof.
  intros Hm He. destruct m as [ | p | p]; try lia.
  unfold shr_fexp, shr. simpl Zdigits2.
  destruct (fexp prec emax (Zpos (digits2_pos p) + e) - e) as [ | q | q] eqn:Hn; simpl fst; simpl snd.
  - rewrite shr_record_of_loc_m. lia.
  - unfold fexp, SpecFloat.emin, prec, emax in *.
    assert (Hq : Zpos q = Zpos (digits2_pos p) - 53) by lia.
    split; [ | lia].
    assert (2 ^ 52 <= shr_m (iter_pos shr_1 q (shr_record_of_loc (Zpos p) l))).
    { apply iter_shr_lower; [lia | ]. rewrite shr_record_of_loc_m.
      replace (Zpos q + 52) with (Zpos (digits2_pos p) - 1) by lia.
      apply digits2_pos_lower. }
    assert (0 < 2 ^ 52) by (apply Z.pow_pos_nonneg; lia). lia.
  - rewrite shr_record_of_loc_m. lia.
Qed.

(** *** Rounding

    Rounding to nearest never lowers the truncated mantissa. *)
Lemma round_nearest_even_lower m l : m <= round_nearest_even m l.
Proof.
  destruct l as [ | [ | | ]]; simpl; try lia. destruct (Z.even m); lia.
Qed.

(** Rounding a positive mantissa with an exponent in range gives a
    finite non-zero number or an infinity, of the given sign. *)
Lemma binary_round_aux_shape (s : bool) (m e : Z) (l : SpecFloat.location) :
  0 < m -> emin <= e -> signedNonzero s (binary_round_aux prec emax s m e l).
Proof.
  intros Hm He. unfold binary_round_aux.
  pose proof (shr_fexp_positive m e l Hm He) as [H1 H2].
  destruct (shr_fexp prec emax m e l) as [mrs' e'] eqn:E1. simpl fst in H1; simpl snd in H2.
  pose proof (round_nearest_even_lower (shr_m mrs') (loc_of_shr_record mrs')) as Hr.
  pose proof (shr_fexp_positive (round_nearest_even (shr_m mrs') (loc_of_shr_record mrs')) e' loc_Exact
                ltac:(lia) H2) as [H3 H4].
  destruct (shr_fexp prec emax (round_nearest_even (shr_m mrs') (loc_of_shr_record mrs')) e' loc_Exact)
    as [mrs'' e''] eqn:E2. simpl fst in H3; simpl snd in H4.
  destruct (shr_m mrs'') as [ | p | p]; try lia.
  destruct (e'' <=? emax - prec); simpl; reflexivity.
Qed.

Lemma binary_round_shape (s : bool) (p : positive) (e : Z) :
  emin <= e -> signedNonzero s (binary_round prec emax s p e).
Proof.
  intros He. unfold binary_round.
  destruct (shl_align p e (fexp prec emax (Zpos (digits2_pos p) + e))) as [mz ez] eqn:E.
  apply binary_round_aux_shape; [lia | ].
  unfold shl_align in E.
  assert (emin <= fexp prec emax (Zpos (digits2_pos p) + e)) by (unfold fexp; lia).
  destruct (fexp prec emax (Zpos (digits2_pos p) + e) - e);
    injection E as _ E2; rewrite <- E2; assumption.
Qed.

(** *** Valid numbers

    A valid finite number has its exponent in range and at most 53
    digits, exactly 53 when it is not subnormal. *)
Lemma valid_finite_bounds (s : bool) (m : positive) (e : Z) :
  valid_binary (S754_finite s m e) = true ->
  emin <= e /\ Zpos (digits2_pos m) <= 53 /\ (emin < e -> Zpos (digits2_pos m) = 53).
Proof.
  unfold SpecFloat.valid_binary, bounded, canonical_mantissa, fexp, SpecFloat.emin, prec, emax.
  intros H. apply andb_true_iff in H. destruct H as [H _].
  apply Z.eqb_eq in H. lia.
Qed.

(** Aligning a mantissa to a lower exponent multiplies it by a power of 2. *)
Lemma shl_align_fst (m : positive) (e ez : Z) :
  ez <= e -> Zpos (fst (shl_align m e ez)) = Zpos m * 2 ^ (e - ez).
Proof.
  intros H. unfold shl_align.
  destruct (ez - e) as [ | d | d] eqn:E; simpl fst.
  - replace (e - ez) with 0 by lia. lia.
  - lia.
  - replace (e - ez) with (Zpos d) by lia.
    change (Pos.iter xO m d) with (shift_pos d m).
    rewrite shift_pos_correct. rewrite Z.pow_pos_fold. lia.
Qed.

(** *** Subtraction and addition *)
Lemma SFltb_zero_signed (s : bool) (r : spec_float) :
  signedNonzero s r -> SFltb (S754_zero false) r = negb s.
Proof.
  destruct r as [ | s' | | s' m e]; simpl; try contradiction; intros ->; destruct s; reflexivity.
Qed.

(** For positive [x] and [y], [0 < y - x] exactly when [x < y]. *)
Lemma SFsub_positive (x y : spec_float) :
  valid_binary x = true -> valid_binary y = true ->
  signedNonzero false x -> signedNonzero false y ->
  SFltb (S754_zero false) (SFsub prec emax y x) = SFltb x y.
Proof.
  intros Vx Vy Px Py.
  destruct x as [ | sx | | sx mx ex]; simpl in Px; try contradiction; subst sx;
  destruct y as [ | sy | | sy my ey]; simpl in Py; try contradiction; subst sy;
  try reflexivity.
  destruct (valid_finite_bounds _ _ _ Vx) as (Hex & Hdx & Hnx).
  destruct (valid_finite_bounds _ _ _ Vy) as (Hey & Hdy & Hny).
  pose proof (digits2_pos_lower mx) as Lx. pose proof (digits2_pos_upper mx) as Ux.
  pose proof (digits2_pos_lower my) as Ly. pose proof (digits2_pos_upper my) as Uy.
  assert (Ux' : Zpos mx < 2 ^ 53).
  { eapply Z.lt_le_trans; [exact Ux | apply Z.pow_le_mono_r; lia]. }
  assert (Uy' : Zpos my < 2 ^ 53).
  { eapply Z.lt_le_trans; [exact Uy | apply Z.pow_le_mono_r; lia]. }
  unfold SFsub. cbv zeta. unfold cond_Zopp.
  rewrite (shl_align_fst my ey (Z.min ey ex)) by lia.
  rewrite (shl_align_fst mx ex (Z.min ey ex)) by lia.
  assert (Hez : emin <= Z.min ey ex) by lia.
  unfold SFltb at 2. unfold SFcompare.
  change (Pos.compare_cont Eq mx my) with (Pos.compare mx my).
  destruct (Z.compare_spec ex ey) as [Heq | Hlt | Hgt].
  - subst ey. rewrite Z.min_id, Z.sub_diag. change (2 ^ 0) with 1. rewrite !Z.mul_1_r.
    destruct (Pos.compare_spec mx my) as [Hm | Hm | Hm].
    + subst my. rewrite Z.sub_diag. reflexivity.
    + destruct (Zpos my - Zpos mx) as [ | p | p] eqn:D; try lia.
      unfold binary_normalize.
      rewrite (SFltb_zero_signed false); [reflexivity | apply binary_round_shape; assumption].
    + destruct (Zpos my - Zpos mx) as [ | p | p] eqn:D; try lia.
      unfold binary_normalize.
      rewrite (SFltb_zero_signed true); [reflexivity | apply binary_round_shape; assumption].
  - replace (Z.min ey ex) with ex in * by lia. rewrite Z.sub_diag.
    change (2 ^ 0) with 1. rewrite Z.mul_1_r.
    assert (H2 : 2 ^ 1 <= 2 ^ (ey - ex)) by (apply Z.pow_le_mono_r; lia).
    assert (Hmy : 2 ^ 52 <= Zpos my).
    { rewrite Hny in Ly by lia. exact Ly. }
    change (2 ^ 1) with 2 in H2.
    assert (H53 : 2 ^ 53 = 2 ^ 52 * 2) by reflexivity.
    assert (0 < 2 ^ 52) by reflexivity.
    destruct (Zpos my * 2 ^ (ey - ex) - Zpos mx) as [ | p | p] eqn:D; try nia.
    unfold binary_normalize.
    rewrite (SFltb_zero_signed false); [reflexivity | apply binary_round_shape; assumption].
  - replace (Z.min ey ex) with ey in * by lia. rewrite Z.sub_diag.
    change (2 ^ 0) with 1. rewrite Z.mul_1_r.
    assert (H2 : 2 ^ 1 <= 2 ^ (ex - ey)) by (apply Z.pow_le_mono_r; lia).
    assert (Hmx : 2 ^ 52 <= Zpos mx).
    { rewrite Hnx in Lx by lia. exact Lx. }
    change (2 ^ 1) with 2 in H2.
    assert (H53 : 2 ^ 53 = 2 ^ 52 * 2) by reflexivity.
    assert (0 < 2 ^ 52) by reflexivity.
    destruct (Zpos my - Zpos mx * 2 ^ (ex - ey)) as [ | p | p] eqn:D; try nia.
    unfold binary_normalize.
    rewrite (SFltb_zero_signed true); [reflexivity | apply binary_round_shape; assumption].
Qed.



(** *** Order on positive numbers *)
Lemma SFltb_SFleb (x y : spec_float) : SFltb x y = true -> SFleb x y = true.
Proof.
  unfold SFltb, SFleb. destruct (SFcompare x y) as [[ | | ] | ]; congruence.
Qed.

Lemma SFltb_positive (t x : spec_float) :
  signedNonzero false t -> SFltb t x = true -> signedNonzero false x.
Proof.
  unfold SFltb.
  destruct t as [ | st | | st mt et]; simpl; try contradiction; intros ->;
    destruct x as [sx | sx | | sx mx ex]; simpl; try discriminate;
    destruct sx; try discriminate; reflexivity.
Qed.

Lemma SFltb_false_SFleb (x y : spec_float) :
  signedNonzero false x -> signedNonzero false y ->
  SFltb x y = false -> SFleb y x = true.
Proof.
  unfold SFltb, SFleb.
  destruct x as [ | sx | | sx mx ex]; simpl; try contradiction; intros ->;
    destruct y as [ | sy | | sy my ey]; simpl; try contradiction; intros ->;
    try reflexivity; try discriminate.
  change (Pos.compare_cont Eq mx my) with (Pos.compare mx my).
  change (Pos.compare_cont Eq my mx) with (Pos.compare my mx).
  rewrite (Z.compare_antisym ex ey), (Pos.compare_antisym mx my).
  destruct (ex ?= ey); simpl; try reflexivity; try discriminate.
  destruct (mx ?= my)%positive; simpl; try reflexivity; discriminate.
Qed.

Lemma SFleb_trans (x y z : spec_float) :
  signedNonzero false x -> signedNonzero false y -> signedNonzero false z ->
  SFleb x y = true -> SFleb y z = true -> SFleb x z = true.
Proof.
  unfold SFleb.
  destruct x as [ | sx | | sx mx ex]; simpl; try contradiction; intros ->;
    destruct y as [ | sy | | sy my ey]; simpl; try contradiction; intros ->;
    destruct z as [ | sz | | sz mz ez]; simpl; try contradiction; intros ->;
    try reflexivity; try discriminate.
  change (Pos.compare_cont Eq mx my) with (Pos.compare mx my).
  change (Pos.compare_cont Eq my mz) with (Pos.compare my mz).
  change (Pos.compare_cont Eq mx mz) with (Pos.compare mx mz).
  destruct (Z.compare_spec ex ey); destruct (Z.compare_spec ey ez);
    destruct (Z.compare_spec ex ez); try lia; try reflexivity; try discriminate;
    destruct (Pos.compare_spec mx my); destruct (Pos.compare_spec my mz);
    destruct (Pos.compare_spec mx mz); try lia; try reflexivity; try discriminate.
Qed.

(** *** The same facts on primitive floats *)
Local Open Scope float_scope.


Lemma above_threshold_positive (x : float) : (0.7 <? x) = true -> positiveNumber x.
Proof.
  rewrite FloatAxioms.ltb_spec. apply SFltb_positive. vm_compute. reflexivity.
Qed.

Lemma sub_positive_iff_less (x y : float) :
  positiveNumber x -> positiveNumber y -> (0 <? y - x) = (x <? y).
Proof.
  intros Px Py. rewrite !FloatAxioms.ltb_spec, FloatAxioms.sub_spec.
  change (Prim2SF 0) with (S754_zero false).
  apply SFsub_positive; auto using Prim2SF_valid.
Qed.

Lemma not_less_geq (x y : float) :
  positiveNumber x -> positiveNumber y -> (x <? y) = false -> (y <=? x) = true.
Proof.
  intros Px Py. rewrite FloatAxioms.ltb_spec, FloatAxioms.leb_spec. apply SFltb_false_SFleb; assumption.
Qed.

Lemma less_leq (x y : float) : (x <? y) = true -> (x <=? y) = true.
Proof. rewrite FloatAxioms.ltb_spec, FloatAxioms.leb_spec. apply SFltb_SFleb. Qed.

Lemma leq_trans (x y z : float) :
  positiveNumber x -> positiveNumber y -> positiveNumber z ->
  (x <=? y) = true -> (y <=? z) = true -> (x <=? z) = true.
Proof.
  intros Px Py Pz. rewrite !FloatAxioms.leb_spec. apply SFleb_trans; assumption.
Qed.




End Numbers.

(** ** Running [async] code *)
Module AsyncFacts.

Import CulturalGoalArchitect SmartProjectComponentGenerator CrossDomainDiscoveryEngine.
Import Spec.

Lemma run_bind {A B : Type} (m : Async A) (k : A -> Async B) (log : Log) :
  bind m k log
  = match m log with
    | (Ok a, log') => k a log'
    | (Err e, log') => (Err e, log')
    end.
Proof. reflexivity. Qed.

Lemma run_tryCatch {A : Type} (m : Async A) (handler : JSError -> Async A) (log : Log) :
  tryCatch m handler log
  = match m log with
    | (Ok a, log') => (Ok a, log')
    | (Err e, log') => handler e log'
    end.
Proof. reflexivity. Qed.

(** A [try] whose handler rethrows changes nothing. *)
Lemma tryCatch_rethrow {A : Type} (m : Async A) (log : Log) :
  tryCatch m (fun error => throw error) log = m log.
Proof.
  rewrite run_tryCatch. destruct (m log) as [[a | e] log']; reflexivity.
Qed.

(** A loop of searches whose results are pushed onto a local array,
    started on any array: the searches are made in order until one fails. *)
Lemma search_loop {X : Type} (qloo : Upstream) (args : X -> SearchArgs) (xs : list X) :
  forall (acc : list QlooEntity) (log : Log),
    forOf xs
      (fun entities x =>
         bind (searchEntities qloo (fst (fst (args x))) (snd (fst (args x))) (snd (args x)))
              (fun results => ret (entities ++ results)))
      acc log
    = match firstError (searchReplies qloo (map args xs) log) with
      | None =>
          (Ok (acc ++ List.concat (successes (searchReplies qloo (map args xs) log))),
           log ++ map searchCall (map args xs))
      | Some (k, e) =>
          (Err e, log ++ map searchCall (firstn (S k) (map args xs)))
      end.
Proof.
  set (body := fun (entities : list QlooEntity) (x : X) => bind _ _).
  induction xs as [ | x rest IH]; intros acc log.
  - simpl. unfold ret. rewrite !app_nil_r. reflexivity.
  - cbn [forOf map]. rewrite run_bind. unfold body at 1. rewrite run_bind.
    destruct (args x) as [[q t] o] eqn:Ex. cbn [fst snd searchReplies firstError successes].
    unfold searchEntities. cbn [fst].
    destruct (searchReply qloo log q t o) as [[items | ] | e];
      [ | | reflexivity];
      unfold ret at 1; rewrite IH;
      destruct (firstError (searchReplies qloo (map args rest) (log ++ [SearchEntities q t o])))
        as [[k e] | ];
      cbn [firstn map List.concat searchCall]; rewrite <- ?app_assoc; reflexivity.
Qed.

(** Searches in order fail exactly when one of them fails. *)
Lemma searches_fail_iff (qloo : Upstream) (searches : list SearchArgs) :
  forall log : Log,
    isErr (fst (searchesInOrder qloo searches log))
    = anyFailure qloo log (map searchCall searches).
Proof.
  unfold searchesInOrder.
  induction searches as [ | [[q t] o] rest IH]; intros log; [reflexivity | ].
  cbn [searchReplies firstError map anyFailure searchCall callFails].
  specialize (IH (log ++ [SearchEntities q t o])).
  unfold searchEntities. cbn [fst].
  destruct (searchReply qloo log q t o) as [[items | ] | e]; cbn [isErr orb];
    try reflexivity;
    destruct (firstError (searchReplies qloo rest (log ++ [SearchEntities q t o])))
      as [[k e] | ]; exact IH.
Qed.

(** When they succeed, all of them were made. *)
Lemma searches_succeed_log (qloo : Upstream) (searches : list SearchArgs) (log : Log) :
  isErr (fst (searchesInOrder qloo searches log)) = false ->
  snd (searchesInOrder qloo searches log) = log ++ map searchCall searches.
Proof.
  unfold searchesInOrder.
  destruct (firstError (searchReplies qloo searches log)) as [[k e] | ]; simpl;
    [discriminate | reflexivity].
Qed.

Lemma anyFailure_app (qloo : Upstream) (first second : list Call) :
  forall log : Log,
    anyFailure qloo log (first ++ second)
    = anyFailure qloo log first || anyFailure qloo (log ++ first) second.
Proof.
  induction first as [ | c rest IH]; intros log; simpl.
  - rewrite app_nil_r. reflexivity.
  - rewrite IH, <- app_assoc, orb_assoc. reflexivity.
Qed.

Lemma resolveUserInterests_run (qloo : Upstream) (interests : list string) (log : Log) :
  resolveUserInterests qloo interests log = resolution qloo 5 interests log.
Proof.
  unfold resolveUserInterests, resolution, searchesInOrder.
  rewrite (search_loop qloo (interestSearch 5)). reflexivity.
Qed.

Lemma resolveInterests_run (qloo : Upstream) (interests : list string) (log : Log) :
  resolveInterests qloo interests log = resolution qloo 3 interests log.
Proof.
  unfold resolveInterests, resolution, searchesInOrder.
  rewrite (search_loop qloo (interestSearch 3)). reflexivity.
Qed.


(** The loop of [generateCulturallyAwareProjects], started on any array:
    it never throws, and makes one call per project type. *)
Lemma projects_loop (qloo : Upstream) (q : InsightOptions) (types : list string) :
  forall (acc : list Project) (log : Log),
    forOf types
      (fun projects projectType =>
         tryCatch
           (bind (getInsights qloo q)
                 (fun insights =>
                    ret (projects ++
                           [ {| projectName := (capitalize projectType ++ " Project")%string;
                                culturalAlignment := results insights;
                                affinityScore := calculateAverageAffinity (results insights) |} ])))
           (fun error => ret projects))
      acc log
    = (Ok (acc ++ projectsOf qloo q types log),
       log ++ repeat (GetInsights q) (List.length types)).
Proof.
  set (body := fun (projects : list Project) (projectType : string) => tryCatch _ _).
  induction types as [ | projectType rest IH]; intros acc log.
  - simpl. unfold ret. rewrite !app_nil_r. reflexivity.
  - cbn [forOf projectsOf List.length repeat].
    rewrite run_bind. unfold body at 1. rewrite run_tryCatch, run_bind.
    unfold getInsights.
    destruct (insightsReply qloo log q) as [response | e];
      unfold ret at 1; rewrite IH; rewrite <- ?app_assoc; reflexivity.
Qed.

Lemma projects_never_throw (qloo : Upstream) (goal : string)
    (userEntities goalEntities : list QlooEntity) (context : ProjectContext) (log : Log) :
  generateCulturallyAwareProjects qloo goal userEntities goalEntities context log
  = (Ok (projectsOf qloo (projectQuery userEntities context) projectTypes log),
     log ++ repeat (GetInsights (projectQuery userEntities context)) 4).
Proof.
  unfold generateCulturallyAwareProjects. rewrite projects_loop. reflexivity.
Qed.

Lemma findCrossDomainConnections_run (userEntities goalEntities : list QlooEntity)
    (context : ProjectContext) (log : Log) :
  findCrossDomainConnections userEntities goalEntities context log
  = (Ok match userEntities, goalEntities with
        | _ :: _, _ :: _ =>
            [ {| from := "user_interests";
                 to := "goal_domain";
                 connection := firstn 5 goalEntities;
                 strength := 0.8 |} ]
        | _, _ => []
        end,
     log).
Proof.
  unfold findCrossDomainConnections.
  destruct userEntities as [ | u us]; destruct goalEntities as [ | g gs]; reflexivity.
Qed.

(** *** Tasks *)

Lemma perform_andThen {A B : Type} (qloo : Upstream) (t : Task A) (k : A -> Task B) :
  forall log : Log,
    perform qloo (andThen t k) log
    = match perform qloo t log with
      | (Ok a, log') => perform qloo (k a) log'
      | (Err e, log') => (Err e, log')
      end.
Proof.
  induction t as [[a | e] | options resume IH]; intros log; cbn [andThen perform];
    [reflexivity | reflexivity | apply IH].
Qed.

Lemma perform_guarded {A : Type} (qloo : Upstream) (t : Task A) (handler : JSError -> Task A) :
  forall log : Log,
    perform qloo (guarded t handler) log
    = match perform qloo t log with
      | (Ok a, log') => (Ok a, log')
      | (Err e, log') => perform qloo (handler e) log'
      end.
Proof.
  induction t as [[a | e] | options resume IH]; intros log; cbn [guarded perform];
    [reflexivity | reflexivity | apply IH].
Qed.

(** A guarded fetch whose query has been answered: the results, or
    nothing when the answer is a failure; no call is made. *)
Lemma answered_fetch (qloo : Upstream) (reply : Result QlooInsightResponse)
    (acc : list QlooEntity) (log : Log) :
  perform qloo
    (guarded
       (andThen (Settled reply) (fun insights => Settled (Ok (acc ++ results insights))))
       (fun error => Settled (Ok acc)))
    log
  = (Ok (acc ++ resultsOrEmpty reply), log).
Proof.
  destruct reply as [response | e]; cbn [andThen guarded perform resultsOrEmpty];
    rewrite ?app_nil_r; reflexivity.
Qed.

Lemma eachOf_cons {A S : Type} (x : A) (rest : list A) (body : S -> A -> Task S) (acc : S) :
  eachOf (x :: rest) body acc = andThen (body acc x) (eachOf rest body).
Proof. reflexivity. Qed.

(** A guarded fetch: its query is issued at once. *)
Lemma start_fetch {A : Type} (qloo : Upstream) (q : InsightOptions)
    (k : QlooInsightResponse -> Task A) (handler : JSError -> Task A) (log : Log) :
  start qloo (guarded (andThen (awaitInsights q) k) handler) log
  = (guarded (andThen (Settled (insightsReply qloo log q)) k) handler,
     log ++ [GetInsights q]).
Proof. reflexivity. Qed.

Lemma start_fetch_first {A B : Type} (qloo : Upstream) (q : InsightOptions)
    (k : QlooInsightResponse -> Task A) (handler : JSError -> Task A)
    (next : A -> Task B) (log : Log) :
  start qloo (andThen (guarded (andThen (awaitInsights q) k) handler) next) log
  = (andThen (guarded (andThen (Settled (insightsReply qloo log q)) k) handler) next,
     log ++ [GetInsights q]).
Proof. reflexivity. Qed.

(** Run alone, a task ends as it does once started. *)
Lemma started_fetch {A : Type} (qloo : Upstream) (q : InsightOptions)
    (k : QlooInsightResponse -> Task A) (handler : JSError -> Task A) (log : Log) :
  perform qloo (guarded (andThen (awaitInsights q) k) handler) log
  = perform qloo
      (fst (start qloo (guarded (andThen (awaitInsights q) k) handler) log))
      (snd (start qloo (guarded (andThen (awaitInsights q) k) handler) log)).
Proof. reflexivity. Qed.

(** The loop of [getContentRecommendations] run alone, started on any
    array: one query per type, in order, a failed one adding nothing. *)
Lemma content_loop (qloo : Upstream) (userProfile : UserTasteProfile) (types : list string) :
  forall (acc : list QlooEntity) (log : Log),
    perform qloo
      (eachOf types
         (fun allContent contentType =>
            guarded
              (andThen (awaitInsights (contentQuery contentType userProfile))
                       (fun insights => Settled (Ok (allContent ++ results insights))))
              (fun error => Settled (Ok allContent)))
         acc)
      log
    = (Ok (acc ++
             (fix collect (types : list string) (log : Log) : list QlooEntity :=
                match types with
                | [] => []
                | t :: rest =>
                    resultsOrEmpty (insightsReply qloo log (contentQuery t userProfile))
                      ++ collect rest (log ++ [GetInsights (contentQuery t userProfile)])
                end) types log),
       log ++ map (fun t => GetInsights (contentQuery t userProfile)) types).
Proof.
  induction types as [ | t rest IH]; intros acc log.
  - cbn [eachOf perform map]. rewrite !app_nil_r. reflexivity.
  - cbn [eachOf map]. rewrite perform_andThen, started_fetch, start_fetch.
    cbn [fst snd]. rewrite answered_fetch, IH.
    rewrite <- !app_assoc. reflexivity.
Qed.

(** The component generator, run after the calls of [log]: the first
    query of each of the four methods, then the two other queries of the
    content method; each category is made of the replies to its own
    queries. *)
Lemma generateComponentRecommendations_run (qloo : Upstream) (projectType : string)
    (userProfile : UserTasteProfile) (context : ProjectContext) (log : Log) :
  let venueCall := GetInsights (venueQuery userProfile context) in
  let bookCall := GetInsights (contentQuery BOOK userProfile) in
  let toolCall := GetInsights (toolQuery userProfile) in
  let communityCall := GetInsights (communityQuery userProfile) in
  let podcastCall := GetInsights (contentQuery PODCAST userProfile) in
  let movieCall := GetInsights (contentQuery MOVIE userProfile) in
  generateComponentRecommendations qloo projectType userProfile context log
  = (Ok {| venues :=
             resultsOrEmpty (insightsReply qloo log (venueQuery userProfile context));
           content :=
             resultsOrEmpty (insightsReply qloo (log ++ [venueCall])
                               (contentQuery BOOK userProfile))
             ++ resultsOrEmpty
                  (insightsReply qloo (log ++ [venueCall; bookCall; toolCall; communityCall])
                     (contentQuery PODCAST userProfile))
             ++ resultsOrEmpty
                  (insightsReply qloo
                     (log ++ [venueCall; bookCall; toolCall; communityCall; podcastCall])
                     (contentQuery MOVIE userProfile));
           tools :=
             resultsOrEmpty
               (insightsReply qloo (log ++ [venueCall; bookCall]) (toolQuery userProfile));
           communities :=
             resultsOrEmpty
               (insightsReply qloo (log ++ [venueCall; bookCall; toolCall])
                  (communityQuery userProfile)) |},
     log ++ [venueCall; bookCall; toolCall; communityCall; podcastCall; movieCall]).
Proof.
  intros. unfold generateComponentRecommendations. rewrite run_bind.
  unfold promiseAll4, getVenueRecommendations, getContentRecommendations,
    getToolRecommendations, getCommunityRecommendations, contentTypes.
  rewrite eachOf_cons, start_fetch, start_fetch_first, !start_fetch.
  rewrite (answered_fetch qloo _ []).
  rewrite perform_andThen, (answered_fetch qloo _ []).
  rewrite (content_loop qloo userProfile [PODCAST; MOVIE]).
  rewrite !(answered_fetch qloo _ []).
  unfold ret. cbn [map app].
  repeat (rewrite <- app_assoc; cbn [app]).
  rewrite app_nil_r. reflexivity.
Qed.

End AsyncFacts.

(** ** The orchestrators *)

Import CulturalGoalArchitect SmartProjectComponentGenerator CrossDomainDiscoveryEngine.
Import Spec AsyncFacts.

(** *** Lists *)

Lemma filter_agree {A : Type} (f g : A -> bool) (l : list A) :
  Forall (fun x => f x = g x) l -> filter f l = filter g l.
Proof.
  induction 1 as [ | x l Hx _ IH]; simpl; [reflexivity | ].
  rewrite Hx, IH. reflexivity.
Qed.

Lemma filter_empty_existsb {A : Type} (f : A -> bool) (l : list A) :
  Nat.eqb (List.length (filter f l)) 0 = negb (existsb f l).
Proof.
  induction l as [ | x l IH]; simpl; [reflexivity | ].
  destruct (f x); simpl; [reflexivity | exact IH].
Qed.

Lemma filter_nonempty_existsb {A B : Type} (f : A -> bool) (g : A -> B) (l : list A) :
  Nat.ltb 0 (List.length (map g (filter f l))) = existsb f l.
Proof.
  induction l as [ | x l IH]; simpl; [reflexivity | ].
  destruct (f x); simpl; [reflexivity | exact IH].
Qed.

(** *** Tier selection (C1) *)

(** The type of an entity that a search returned is never empty. *)
Lemma searchEntity_type (item : SearchItem) :
  truthyString (type (searchEntity item)) = true.
Proof.
  unfold searchEntity; simpl.
  destruct (types item) as [[ | t ts] | ]; try reflexivity.
  destruct (truthyString t) eqn:E; [exact E | reflexivity].
Qed.

(** On an entity with a type, the code's two filters are the
    specification's two classes. *)
Lemma typed_classification (e : QlooEntity) :
  truthyString (type e) = true ->
  isRealEntity e = isReal e /\ isTagEntity e = isTag e.
Proof.
  intros H. unfold isRealEntity, isTagEntity, isReal, isTag. rewrite H. split; reflexivity.
Qed.

Lemma tier_selection_typed (qloo : Upstream) (domain : string)
    (userEntities : list QlooEntity) (log : Log) :
  Forall (fun e => truthyString (type e) = true) userEntities ->
  let q := tierQuery (textOf (tableLookup domainTypeMapping domain PLACE)) userEntities in
  getTargetDomainEntities qloo domain userEntities log
  = (resultsOf (insightsReply qloo log q), log ++ [GetInsights q]).
Proof.
  intros H q. subst q. unfold getTargetDomainEntities, tierQuery, selectTier.
  rewrite (filter_agree isRealEntity isReal), (filter_agree isTagEntity isTag).
  2,3: eapply Forall_impl; [ | exact H]; intros e He; apply typed_classification; exact He.
  rewrite filter_empty_existsb, filter_nonempty_existsb.
  unfold bind, getInsights, ret, resultsOf.
  destruct (existsb isReal userEntities); [destruct (existsb isTag userEntities) | ];
    cbn [negb];
    match goal with |- context [insightsReply ?q ?l ?o] => destruct (insightsReply q l o) end;
    reflexivity.
Qed.

(** The guard [e.type &&] of both filters: an entity without a type is
    in neither class, and alone it selects the location fallback.  The
    resolvers never return one ([searchEntity_type]). *)
Remark untyped_entity_is_in_no_class :
  let e := Examples.entity "?" "" None in
  isRealEntity e = false /\ isTagEntity e = false
  /\ snd (getTargetDomainEntities Examples.healthy "music" [e] [])
     = [GetInsights (locationQuery ARTIST)].
Proof. repeat split. Qed.

(** Whatever a resolver returns is made of search results. *)
Lemma searches_return_search_results (qloo : Upstream) (searches : list SearchArgs) :
  forall (log : Log) (entities : list QlooEntity),
    fst (searchesInOrder qloo searches log) = Ok entities ->
    exists items, entities = map searchEntity items.
Proof.
  unfold searchesInOrder.
  induction searches as [ | [[q t] o] rest IH]; intros log entities.
  - simpl. intros H. exists []. injection H as <-. reflexivity.
  - cbn [searchReplies firstError successes]. unfold searchEntities. cbn [fst].
    specialize (IH (log ++ [SearchEntities q t o])).
    destruct (searchReply qloo log q t o) as [[items | ] | e]; cbn [fst].
    + destruct (firstError (searchReplies qloo rest (log ++ [SearchEntities q t o])))
        as [[k e] | ]; cbn [fst]; [discriminate | ].
      intros H. injection H as <-. destruct (IH _ eq_refl) as [more E].
      exists (items ++ more). cbn [List.concat]. rewrite E, map_app. reflexivity.
    + destruct (firstError (searchReplies qloo rest (log ++ [SearchEntities q t o])))
        as [[k e] | ]; cbn [fst]; [discriminate | ].
      intros H. injection H as <-. destruct (IH _ eq_refl) as [more E].
      exists more. cbn [List.concat]. rewrite E. reflexivity.
    + discriminate.
Qed.

Lemma resolved_entities_are_search_results (qloo : Upstream) (interests : list string)
    (log log' : Log) (userEntities : list QlooEntity) :
  resolveInterests qloo interests log = (Ok userEntities, log') ->
  exists items, userEntities = map searchEntity items.
Proof.
  rewrite resolveInterests_run. unfold resolution. intros H.
  apply (searches_return_search_results qloo (map (interestSearch 3) interests) log).
  rewrite H. reflexivity.
Qed.

(** A key that the table does not list is not an own property. *)
Lemma ownProperty_absent {V : Type} (table : list (string * V)) (key : string) :
  ~ In key (map fst table) -> ownProperty table key = None.
Proof.
  induction table as [ | [k v] rest IH]; intros H; [reflexivity | ].
  cbn [ownProperty]. destruct (String.eqb k key) eqn:E.
  - apply String.eqb_eq in E. contradiction H. left. exact E.
  - apply IH. intros Hin. apply H. right. exact Hin.
Qed.

Lemma not_inherited (key : string) :
  ~ In key objectPrototypeMembers -> existsb (String.eqb key) objectPrototypeMembers = false.
Proof.
  intros H. destruct (existsb (String.eqb key) objectPrototypeMembers) eqn:E; [ | reflexivity].
  apply existsb_exists in E. destruct E as (member & Hin & E).
  apply String.eqb_eq in E. subst member. contradiction.
Qed.

(** C1.  For every list of user entities that carry a type (as every
    entity made from a search result does: its type is the first type
    of the result, or 'unknown'), every target domain and every log,
    the connector's target-domain retrieval makes exactly one insight
    call, whose query is chosen by the two classes alone: no real entity
    (no type outside the [urn:tag] namespace), the location-only query
    on the fixed location 'Brooklyn, NY'; otherwise, some tag entity,
    the query whose [signals.tags] are the first at most 5 tag entity
    ids, with explainability; otherwise the plain query, without
    signals.  The target type of the query is the type the table maps
    the domain to, and a place for a domain it does not list (the names
    that every object inherits apart).  The result is that call's
    [results], or its failure. *)
Theorem tier_selection (qloo : Upstream) (domain : string)
    (userEntities : list QlooEntity) (log : Log) :
  Forall (fun e => truthyString (type e) = true) userEntities ->
  let targetType := textOf (tableLookup domainTypeMapping domain PLACE) in
  let chosen :=
    match selectTier (existsb isReal userEntities) (existsb isTag userEntities) with
    | LocationFallback => locationQuery targetType
    | TagSignal => tagQuery targetType (map id (filter isTag userEntities))
    | Plain => plainQuery targetType 20
    end in
  getTargetDomainEntities qloo domain userEntities log
  = (resultsOf (insightsReply qloo log chosen), log ++ [GetInsights chosen])
  /\ (forall t, In (domain, t) domainTypeMapping -> targetType = t)
  /\ (~ In domain (map fst domainTypeMapping) -> ~ In domain objectPrototypeMembers ->
      targetType = PLACE)
  /\ (forall t,
        signals (locationQuery t)
        = Some {| signalEntities := None; signalTags := None; signalDemographics := None;
                  signalLocation :=
                    Some {| signalQuery := Some "Brooklyn, NY"%string;
                            signalCoordinates := None; signalRadius := None |} |}
        /\ filterType (locationQuery t) = t)
  /\ (forall t ids,
        option_map signalTags (signals (tagQuery t ids)) = Some (Some (firstn 5 ids))
        /\ explainability (tagQuery t ids) = Some true
        /\ filterType (tagQuery t ids) = t)
  /\ (forall t, signals (plainQuery t 20) = None /\ filterType (plainQuery t 20) = t).
Proof.
  intros Typed targetType chosen.
  split; [exact (tier_selection_typed qloo domain userEntities log Typed) | ].
  split; [ | split; [ | repeat split]].
  - intros t H. subst targetType. unfold domainTypeMapping in H. cbn [In] in H.
    repeat (destruct H as [H | H]; [injection H as <- <-; reflexivity | ]).
    contradiction.
  - intros Absent Plain. subst targetType. unfold tableLookup.
    rewrite (ownProperty_absent _ _ Absent), (not_inherited _ Plain). reflexivity.
Qed.

(** C1, witness: an artist and a tag, for the domain [travel]: the tag
    query for destinations. *)
Lemma tier_selection_witness :
  getTargetDomainEntities Examples.healthy "travel"
    [ Examples.entity "E1" ARTIST None; Examples.entity "T1" "urn:tag:genre:jazz" None ] []
  = (Ok [Examples.entity "Prospect Park" PLACE (Some 0.9%float)],
     [GetInsights (tagQuery DESTINATION ["T1"%string])]).
Proof.
  refine (proj1 (tier_selection Examples.healthy "travel"
                   [ Examples.entity "E1" ARTIST None;
                     Examples.entity "T1" "urn:tag:genre:jazz" None ] [] _)).
  repeat constructor.
Defined.

(** A domain that is the name of an inherited member: the table answers
    with that member, and its text travels as [filter.type]. *)
Remark inherited_domain_is_sent_as_text :
  tableLookup domainTypeMapping "constructor" PLACE = Inherited "constructor"%string
  /\ snd (getTargetDomainEntities Examples.healthy "constructor" [] [])
     = [GetInsights (locationQuery "function Object() { [native code] }")].
Proof. split; reflexivity. Qed.

(** *** Interest resolution (C4) *)

Lemma takeOnly_3_5 : takeOnly 3 <> takeOnly 5.
Proof.
  intros H.
  apply (f_equal (fun o => match searchTake o with
                           | Some n => (n <? 4)%float
                           | None => false
                           end)) in H.
  vm_compute in H. discriminate.
Qed.

(** C4, counterexample.  The connector's resolver, asked for ["jazz"],
    makes one search that asks for 3 results, not 5. *)
Lemma connector_cap_is_three :
  snd (resolveInterests Examples.healthy ["jazz"%string] [])
  = [SearchEntities "jazz" None (takeOnly 3)]
  /\ SearchEntities "jazz" None (takeOnly 3) <> SearchEntities "jazz" None (takeOnly 5).
Proof.
  split; [reflexivity | ].
  intros H. apply takeOnly_3_5.
  exact (f_equal (fun c => match c with
                           | SearchEntities _ _ o => o
                           | _ => takeOnly 3
                           end) H).
Qed.

(** C4, amended.  For every interest list, both resolvers make one
    search per interest string, in list order, without types, capped at
    5 results in the goal architect and at 3 in the connector; the
    output is the concatenation of the searches' results in that order
    (nothing is removed), and the first failing search aborts the
    resolution with its error, nothing being called after it. *)
Theorem interest_resolution (qloo : Upstream) (interests : list string) (log : Log) :
  resolveUserInterests qloo interests log = resolution qloo 5 interests log
  /\ resolveInterests qloo interests log = resolution qloo 3 interests log
  /\ (forall cap,
        isErr (fst (resolution qloo cap interests log)) = false ->
        snd (resolution qloo cap interests log)
        = log ++ map (fun interest => SearchEntities interest None (takeOnly cap)) interests).
Proof.
  split; [apply resolveUserInterests_run | ].
  split; [apply resolveInterests_run | ].
  intros cap H. unfold resolution in *. rewrite searches_succeed_log by exact H.
  rewrite map_map. reflexivity.
Qed.

(** *** Goal enhancement (C3, C10) *)



(** A goal category that is the name of an inherited member: after the
    searches of the interests the enhancement throws, and searches
    nothing for the goal. *)
Remark inherited_goal_category_throws :
  enhanceGoalWithCulturalInsights Examples.healthy "run a marathon" Examples.jazzFan
    {| projectType := "personal"; goalCategory := "constructor";
       userLocation := None; timeframe := None; budget := None |} []
  = (Err (TypeError "relevantTypes is not iterable"),
     [SearchEntities "jazz" None (takeOnly 5)]).
Proof. reflexivity. Qed.

(** C10.  The cross-domain connection step of goal enhancement returns
    the empty list when the user entities or the goal entities are
    empty, and otherwise exactly one record, from 'user_interests' to
    'goal_domain', holding the first at most 5 goal entities and the
    strength 0.8; it calls nothing (the log is unchanged), so no
    comparison call is made. *)
Theorem synthetic_connection (userEntities goalEntities : list QlooEntity)
    (context : ProjectContext) (log : Log) :
  findCrossDomainConnections userEntities goalEntities context log
  = (Ok match userEntities, goalEntities with
        | [], _ | _, [] => []
        | _ :: _, _ :: _ =>
            [ {| from := "user_interests";
                 to := "goal_domain";
                 connection := firstn 5 goalEntities;
                 strength := 0.8 |} ]
        end,
     log)
  /\ existsb isComparison
       (newCalls log (snd (findCrossDomainConnections userEntities goalEntities context log)))
     = false.
Proof.
  rewrite findCrossDomainConnections_run. split.
  - destruct userEntities, goalEntities; reflexivity.
  - unfold newCalls. cbn [snd]. rewrite skipn_all. reflexivity.
Qed.

(** *** Domain bridges (C7) *)

(** C7.  The domain-bridge step returns exactly one record, from
    'user_interests' to the target domain, with no bridge entity and
    three insight strings, the first naming the interests and the
    domain; it calls nothing (the log is unchanged), so no comparison
    call is made.  This holds for every interest list, the empty one
    included. *)
Theorem one_synthetic_bridge (userInterests : list string) (targetDomain : string)
    (log : Log) :
  findDomainBridges userInterests targetDomain log
  = (Ok [ {| domain1 := "user_interests";
             domain2 := targetDomain;
             bridgeEntities := [];
             insights :=
               [ ("Bridge found between " ++ String.concat ", " userInterests
                    ++ " and " ++ targetDomain ++ " domain")%string;
                 "Cultural connections exist across these domains"%string;
                 "Consider exploring crossover opportunities"%string ] |} ],
     log)
  /\ (forall bridges log',
        findDomainBridges userInterests targetDomain log = (Ok bridges, log') ->
        List.length bridges = 1
        /\ Forall (fun b => List.length (insights b) = 3 /\ bridgeEntities b = []) bridges
        /\ log' = log
        /\ existsb isComparison (newCalls log log') = false).
Proof.
  split; [reflexivity | ].
  intros bridges log' H. unfold findDomainBridges, ret in H. simpl in H.
  injection H as <- <-. unfold newCalls. rewrite skipn_all.
  repeat split. repeat constructor.
Qed.

(** *** Component generation (C9) *)

(** C9, counterexample.  When only the book fetch fails, the content
    category is not empty: it holds what the podcast and movie fetches
    returned. *)
Lemma content_survives_failed_books :
  match generateComponentRecommendations Examples.booksDown "personal"
          Examples.jazzFan Examples.fitnessContext [] with
  | (Ok components, calls) =>
      anyFailure Examples.booksDown [] calls = true
      /\ content components
         = [Examples.entity PODCAST PODCAST None; Examples.entity MOVIE MOVIE None]
  | (Err _, _) => False
  end.
Proof. vm_compute. split; reflexivity. Qed.

(** C9, amended.  Component generation never fails and always returns
    the four categories.  Venues, tools and communities each hold the
    results of their one fetch, or nothing when it fails; content holds
    the results of its three fetches (books, podcasts, movies) in that
    order, each contributing nothing when it fails, so content is empty
    only when every one of the three fails or returns nothing.  No
    failure reaches another fetch.  The six queries are issued in the
    order venues, books, tools, communities, podcasts, movies. *)
Theorem component_generation_total (qloo : Upstream) (projectType : string)
    (userProfile : UserTasteProfile) (context : ProjectContext) (log : Log) :
  let venueCall := GetInsights (venueQuery userProfile context) in
  let bookCall := GetInsights (contentQuery BOOK userProfile) in
  let toolCall := GetInsights (toolQuery userProfile) in
  let communityCall := GetInsights (communityQuery userProfile) in
  let podcastCall := GetInsights (contentQuery PODCAST userProfile) in
  let movieCall := GetInsights (contentQuery MOVIE userProfile) in
  generateComponentRecommendations qloo projectType userProfile context log
  = (Ok {| venues :=
             resultsOrEmpty (insightsReply qloo log (venueQuery userProfile context));
           content :=
             resultsOrEmpty (insightsReply qloo (log ++ [venueCall])
                               (contentQuery BOOK userProfile))
             ++ resultsOrEmpty
                  (insightsReply qloo (log ++ [venueCall; bookCall; toolCall; communityCall])
                     (contentQuery PODCAST userProfile))
             ++ resultsOrEmpty
                  (insightsReply qloo
                     (log ++ [venueCall; bookCall; toolCall; communityCall; podcastCall])
                     (contentQuery MOVIE userProfile));
           tools :=
             resultsOrEmpty
               (insightsReply qloo (log ++ [venueCall; bookCall]) (toolQuery userProfile));
           communities :=
             resultsOrEmpty
               (insightsReply qloo (log ++ [venueCall; bookCall; toolCall])
                  (communityQuery userProfile)) |},
     log ++ [venueCall; bookCall; toolCall; communityCall; podcastCall; movieCall])
  /\ perform qloo (getContentRecommendations projectType userProfile) log
     = (Ok (resultsOrEmpty (insightsReply qloo log (contentQuery BOOK userProfile))
            ++ resultsOrEmpty (insightsReply qloo (log ++ [bookCall])
                                 (contentQuery PODCAST userProfile))
            ++ resultsOrEmpty (insightsReply qloo (log ++ [bookCall; podcastCall])
                                 (contentQuery MOVIE userProfile))),
        log ++ [bookCall; podcastCall; movieCall]).
Proof.
  intros. split; [apply generateComponentRecommendations_run | ].
  unfold getContentRecommendations, contentTypes. rewrite content_loop.
  cbn [map app]. repeat (rewrite <- app_assoc; cbn [app]).
  rewrite app_nil_r. reflexivity.
Qed.

(** ** The gateway *)

(** *** Request parameters (C5) *)

Section RequestParameters.

Variable numberToString : float -> string.

Local Abbreviation appendParam := (Gateway.appendParam numberToString).
Local Abbreviation entryPairs := (Spec.entryPairs numberToString).

Lemma join_elementText (items : list JSValue) :
  Gateway.join numberToString items
  = String.concat "," (map (elementText numberToString) items).
Proof.
  unfold Gateway.join. f_equal. apply map_ext. intros x. destruct x; reflexivity.
Qed.

Lemma appendParam_entryPairs (appended : list (string * string)) (entry : string * JSValue) :
  appendParam appended entry = appended ++ entryPairs entry.
Proof.
  destruct entry as [key value]. unfold appendParam, entryPairs, Spec.entryPairs.
  destruct value; cbn [snd fst]; rewrite ?app_nil_r, ?join_elementText; reflexivity.
Qed.

Lemma appended_pairs (params : Gateway.Params) :
  forall appended,
    fold_left appendParam params appended = appended ++ flat_map entryPairs params.
Proof.
  induction params as [ | entry rest IH]; intros appended; simpl.
  - rewrite app_nil_r. reflexivity.
  - rewrite IH, appendParam_entryPairs, <- app_assoc. reflexivity.
Qed.

Lemma sent_pairs (endpoint : string) (params : Gateway.Params) :
  Gateway.searchParams (Gateway.buildUrl numberToString endpoint params)
  = flat_map entryPairs params.
Proof. unfold Gateway.buildUrl. simpl. apply appended_pairs. Qed.

(** An entry contributes at most one pair, under its own key. *)
Lemma entryPairs_cases (entry : string * JSValue) :
  (isNullish (snd entry) = true /\ entryPairs entry = [])
  \/ (isNullish (snd entry) = false /\ exists value, entryPairs entry = [(fst entry, value)]).
Proof.
  destruct entry as [key value]. unfold entryPairs, Spec.entryPairs.
  destruct value; simpl; eauto.
Qed.

Lemma occurrences_sent (key : string) (params : Gateway.Params) :
  occurrences key (flat_map entryPairs params)
  = occurrences key (filter (fun entry => negb (isNullish (snd entry))) params).
Proof.
  unfold occurrences. induction params as [ | entry rest IH]; [reflexivity | ].
  cbn [flat_map filter]. rewrite filter_app, length_app, IH.
  destruct (entryPairs_cases entry) as [[N E] | [N [value E]]]; rewrite E, N; cbn [negb].
  - reflexivity.
  - cbn [filter fst]. destruct (String.eqb (fst entry) key); reflexivity.
Qed.

Lemma occurrences_filter_le {V : Type} (key : string) (f : string * V -> bool)
    (pairs : list (string * V)) :
  occurrences key (filter f pairs) <= occurrences key pairs.
Proof.
  unfold occurrences. induction pairs as [ | kv rest IH]; [apply le_n | ].
  cbn [filter]. destruct (f kv); cbn [filter]; destruct (String.eqb (fst kv) key);
    cbn [List.length]; lia.
Qed.

Lemma keys_sent_sublist (params : Gateway.Params) :
  forall key, In key (map fst (flat_map entryPairs params)) ->
              exists value, In (key, value) params /\ isNullish value = false.
Proof.
  induction params as [ | entry rest IH]; intros key H; [contradiction | ].
  cbn [flat_map] in H. rewrite map_app, in_app_iff in H. destruct H as [H | H].
  - destruct (entryPairs_cases entry) as [[N E] | [N [value E]]]; rewrite E in H.
    + contradiction.
    + destruct H as [<- | []]. exists (snd entry). split; [ | exact N].
      left. destruct entry; reflexivity.
  - destruct (IH key H) as (value & Hin & N). exists value. split; [right; exact Hin | exact N].
Qed.

Lemma keys_sent_distinct (params : Gateway.Params) :
  NoDup (map fst params) -> NoDup (map fst (flat_map entryPairs params)).
Proof.
  induction params as [ | entry rest IH]; intros H; [constructor | ].
  cbn [map] in H. inversion H as [ | k ks Hnotin Hrest]; subst.
  cbn [flat_map].
  destruct (entryPairs_cases entry) as [[N E] | [N [value E]]]; rewrite E; cbn [app map fst].
  - apply IH. exact Hrest.
  - constructor; [ | apply IH; exact Hrest].
    intros Hin. apply keys_sent_sublist in Hin. destruct Hin as (v & Hin & _).
    apply Hnotin. apply in_map_iff. exists (fst entry, v). split; [reflexivity | exact Hin].
Qed.

End RequestParameters.

(** C5.  For every parameter map (its entries in [Object.entries]
    order) the request carries, in the same order, one pair per entry
    whose value is neither [undefined] nor [null].  For an array value
    it is the single pair whose value is the texts of the elements with
    a comma between them (for an array of strings, the strings
    themselves; a [null] or [undefined] element counts as the empty
    text).  For any other value it is the pair of its [toString]: a
    string as it is, a number through [Number.prototype.toString], a
    boolean as [true] or [false].  A key is sent as often as it has a
    value in the map (so once, the keys of an object being distinct,
    and never repeated for the elements of an array), and a key whose
    value is [undefined] or [null] is not sent at all. *)
Theorem request_parameters (numberToString : float -> string) (endpoint : string)
    (params : Gateway.Params) :
  let sent := Gateway.searchParams (Gateway.buildUrl numberToString endpoint params) in
  sent = flat_map (entryPairs numberToString) params
  /\ (forall key items,
        In (key, JArr items) params ->
        In (key,
            String.concat ","
              (map (fun x => match x with
                             | JUndefined | JNull => ""%string
                             | JStr s => s
                             | JNum n => numberToString n
                             | JBool true => "true"%string
                             | JBool false => "false"%string
                             | nested => Gateway.toString numberToString nested
                             end) items))
           sent)
  /\ (forall key xs,
        In (key, JArr (map JStr xs)) params -> In (key, String.concat "," xs) sent)
  /\ (forall key s, In (key, JStr s) params -> In (key, s) sent)
  /\ (forall key n, In (key, JNum n) params -> In (key, numberToString n) sent)
  /\ (forall key b,
        In (key, JBool b) params -> In (key, if b then "true" else "false")%string sent)
  /\ (forall key value,
        In (key, value) params -> isNullish value = false -> isArray value = false ->
        In (key, Gateway.toString numberToString value) sent)
  /\ (forall key,
        (forall value, In (key, value) params -> isNullish value = true) ->
        ~ In key (map fst sent))
  /\ (forall key,
        occurrences key sent
        = occurrences key (filter (fun entry => negb (isNullish (snd entry))) params)
        /\ occurrences key sent <= occurrences key params)
  /\ (NoDup (map fst params) -> NoDup (map fst sent)).
Proof.
  intros sent. subst sent. rewrite sent_pairs.
  assert (S : forall key value pair,
             In (key, value) params -> entryPairs numberToString (key, value) = [pair] ->
             In pair (flat_map (entryPairs numberToString) params)).
  { intros key value pair H E. apply in_flat_map. exists (key, value).
    split; [exact H | rewrite E; left; reflexivity]. }
  split; [reflexivity | ].
  split; [ | split; [ | split; [ | split; [ | split; [ | split; [ | split; [ | split]]]]]]].
  - intros key items H. apply (S key (JArr items)); [exact H | ].
    unfold entryPairs. cbn [snd fst]. do 3 f_equal. apply map_ext.
    intros [ | | [ | ] | n | s | nested | fields]; reflexivity.
  - intros key xs H. apply (S key (JArr (map JStr xs))); [exact H | ].
    unfold entryPairs. cbn [snd fst]. rewrite map_map. cbn [elementText Gateway.toString].
    rewrite map_id. reflexivity.
  - intros key s H. apply (S key (JStr s)); [exact H | reflexivity].
  - intros key n H. apply (S key (JNum n)); [exact H | reflexivity].
  - intros key b H. apply (S key (JBool b)); [exact H | destruct b; reflexivity].
  - intros key value H N A. apply (S key value); [exact H | ].
    destruct value; simpl in *; try discriminate; reflexivity.
  - intros key H Hin. apply keys_sent_sublist in Hin.
    destruct Hin as (value & Hin & N). rewrite (H value Hin) in N. discriminate.
  - intros key. rewrite occurrences_sent. split; [reflexivity | apply occurrences_filter_le].
  - apply keys_sent_distinct.
Qed.

(** The entity signals [a, b] of an insight query travel as the one
    pair [signal.interests.entities = "a,b"]. *)
Example entities_signal_is_one_pair :
  let options :=
    {| filterType := PLACE;
       signals := Some {| signalEntities := Some ["a"; "b"]%string; signalTags := None;
                          signalDemographics := None; signalLocation := None |};
       filters := None; take := None; page := None; explainability := None |} in
  Gateway.searchParams
    (Gateway.buildUrl Gateway.showWhole "/v2/insights" (Gateway.insightParams options))
  = [ ("filter.type", "urn:entity:place"); ("take", "20"); ("page", "1");
      ("signal.interests.entities", "a,b") ]%string.
Proof. vm_compute. reflexivity. Qed.

(** The search of a resolver for ["jazz"], on the wire. *)
Example resolver_search_on_the_wire :
  Gateway.searchParams
    (Gateway.buildUrl Gateway.showWhole "/search"
       (Gateway.searchRequestParams "jazz" None (takeOnly 5)))
  = [ ("query", "jazz"); ("take", "5"); ("page", "1") ]%string.
Proof. vm_compute. reflexivity. Qed.

Example coordinates_are_recognised :
  Gateway.isCoordinates "40.726408,-73.994275" = true
  /\ Gateway.isCoordinates "Brooklyn, NY" = false
  /\ Gateway.isCoordinates "40.7,-73.9 " = false.
Proof. repeat split. Qed.

(** *** Search results *)

(** The entity made from a search result always has a truthy [type]:
    the first of the item's types, or 'unknown'. *)
Lemma search_result_has_type (item entity : JSValue) :
  Gateway.searchEntity item = Ok entity -> truthy (prop entity "type") = true.
Proof.
  unfold Gateway.searchEntity. destruct (isNullish item); [discriminate | ].
  intros H. injection H as <-. cbn [prop lookup String.eqb Ascii.eqb Bool.eqb].
  unfold orElse. destruct (truthy (optFirst (prop item "types"))) eqn:T; [exact T | reflexivity].
Qed.

(** *** Insight responses (C6) *)

Lemma nested_array_condition (results : JSValue) :
  match (if truthy results then prop results "entities" else results) with
  | JArr items => Some items
  | _ => None
  end
  = match prop results "entities" with
    | JArr items => Some items
    | _ => None
    end.
Proof.
  destruct results as [ | | b | n | s | items | fields]; simpl; try reflexivity.
  - destruct b; reflexivity.
  - destruct (truthyNumber n); reflexivity.
  - destruct (truthyString s); reflexivity.
Qed.

Lemma normalized_items (items : list JSValue) :
  Forall (fun item => isNullish item = false) items ->
  mapResult Gateway.insightEntity items = Ok (map normalizedItem items).
Proof.
  induction 1 as [ | item rest N _ IH]; [reflexivity | ].
  cbn [mapResult map]. unfold Gateway.insightEntity at 1. rewrite N, IH. reflexivity.
Qed.

Lemma null_item_throws (before after : list JSValue) (item : JSValue) :
  Forall (fun item => isNullish item = false) before ->
  isNullish item = true ->
  exists msg, mapResult Gateway.insightEntity (before ++ item :: after) = Err (TypeError msg).
Proof.
  induction 1 as [ | first rest N _ IH]; intros Hnull.
  - cbn [app mapResult]. unfold Gateway.insightEntity at 1, cannotRead. rewrite Hnull. eauto.
  - cbn [app mapResult]. unfold Gateway.insightEntity at 1. rewrite N.
    destruct (IH Hnull) as [msg E]. rewrite E. eauto.
Qed.

Lemma transformInsights_cases (numberToString : float -> string) (body : JSValue) :
  (isNullish body = true ->
   exists msg, Gateway.transformInsights numberToString body = Err (TypeError msg))
  /\ (nestedEntities body = None -> isObjectOrArray body = true ->
      Gateway.transformInsights numberToString body
      = Ok {| Gateway.resultItems := []; Gateway.body := body |})
  /\ (forall items,
        nestedEntities body = Some items ->
        Gateway.transformInsights numberToString body
        = match mapResult Gateway.insightEntity items with
          | Err e => Err e
          | Ok normalized =>
              Ok {| Gateway.resultItems := normalized; Gateway.body := body |}
          end).
Proof.
  unfold Gateway.transformInsights, nestedEntities, getProp, cannotRead.
  split; [ | split].
  - intros N. rewrite N. eauto.
  - intros Hnone Hshape.
    destruct body as [ | | b | n | s | elements | fields]; try discriminate; cbn [isNullish].
    + reflexivity.
    + pose proof (nested_array_condition (prop (JObj fields) "results")) as C.
      rewrite Hnone in C. cbv zeta.
      destruct (if truthy (prop (JObj fields) "results")
                then prop (prop (JObj fields) "results") "entities"
                else prop (JObj fields) "results"); try reflexivity; discriminate.
  - intros items Hsome.
    destruct body as [ | | b | n | s | elements | fields]; try discriminate; cbn [isNullish].
    pose proof (nested_array_condition (prop (JObj fields) "results")) as C.
    rewrite Hsome in C. cbv zeta.
    destruct (if truthy (prop (JObj fields) "results")
              then prop (prop (JObj fields) "results") "entities"
              else prop (JObj fields) "results"); try discriminate.
    injection C as ->. reflexivity.
Qed.

(** C6, the failing input.  A 2xx response whose body is the JSON text
    [null] has no nested array at [results.entities]; on it
    [getInsights] does not return empty results: reading
    [response.results] at line 290 throws a [TypeError]. *)
Theorem null_body_throws :
  nestedEntities JNull = None
  /\ (forall results,
        Gateway.getInsights Gateway.showWhole Examples.nullBody (plainQuery PLACE 20)
        <> Ok results)
  /\ exists msg,
       Gateway.getInsights Gateway.showWhole Examples.nullBody (plainQuery PLACE 20)
       = Err (TypeError msg).
Proof.
  split; [reflexivity | ]. split; [discriminate | ]. eexists. reflexivity.
Qed.

(** The same slip on an item: a [null] in the nested array makes the
    reading of [item.entity_id] at line 292 throw. *)
Example null_item_example :
  let body := JObj [ ("results", JObj [("entities", JArr [JNull])]) ]%string in
  nestedEntities body = Some [JNull]
  /\ exists msg,
       Gateway.getInsights Gateway.showWhole (Examples.replying body) (plainQuery PLACE 20)
       = Err (TypeError msg).
Proof. split; [reflexivity | eexists; reflexivity]. Qed.

(** What [getInsights] does on every 2xx insights response with a JSON
    body.  When the body is an object or an array without a nested
    array at [results.entities], the results are the empty sequence;
    when the nested array is present and none of its items is [null],
    the results are its items, each normalized to an entity with
    [entity_id]-or-[id] as id, [subtype]-or-[type] (else 'unknown') as
    type and [query.affinity]-or-[affinity] as affinity, "or" being
    JavaScript's [||].  A [null] body, and a [null] item of the nested
    array, end in a [TypeError]. *)
Lemma insights_normalization (numberToString : float -> string)
    (fetch : Gateway.Url -> Result Gateway.Response) (options : InsightOptions)
    (response : Gateway.Response) (body : JSValue) :
  fetch (Gateway.buildUrl numberToString "/v2/insights" (Gateway.insightParams options))
    = Ok response ->
  Gateway.ok response = true ->
  Gateway.json response = Ok body ->
  (nestedEntities body = None -> isObjectOrArray body = true ->
   Gateway.getInsights numberToString fetch options
   = Ok {| Gateway.resultItems := []; Gateway.body := body |})
  /\ (forall items,
        nestedEntities body = Some items ->
        Forall (fun item => isNullish item = false) items ->
        Gateway.getInsights numberToString fetch options
        = Ok {| Gateway.resultItems := map normalizedItem items; Gateway.body := body |})
  /\ (isNullish body = true ->
      exists msg, Gateway.getInsights numberToString fetch options = Err (TypeError msg))
  /\ (forall before item after,
        nestedEntities body = Some (before ++ item :: after) ->
        Forall (fun item => isNullish item = false) before ->
        isNullish item = true ->
        exists msg, Gateway.getInsights numberToString fetch options = Err (TypeError msg)).
Proof.
  intros Hfetch Hok Hjson.
  assert (E : Gateway.getInsights numberToString fetch options
              = Gateway.transformInsights numberToString body).
  { unfold Gateway.getInsights, Gateway.makeRequest. rewrite Hfetch, Hok, Hjson. reflexivity. }
  rewrite E. destruct (transformInsights_cases numberToString body) as (Hnull & Hnone & Hsome).
  split; [exact Hnone | split; [ | split; [exact Hnull | ]]].
  - intros items Hitems Hall. rewrite (Hsome items Hitems), normalized_items by exact Hall.
    reflexivity.
  - intros before item after Hitems Hbefore Hitem. rewrite (Hsome _ Hitems).
    destruct (null_item_throws before after item Hbefore Hitem) as [msg Hmsg].
    rewrite Hmsg. eauto.
Qed.

(** A body with one item under [results.entities]. *)
Example insights_normalization_example :
  let item := JObj [ ("entity_id", JStr "E1"); ("name", JStr "Prospect Park");
                     ("subtype", JStr "urn:entity:place");
                     ("query", JObj [("affinity", JNum 0.9)]) ]%string in
  let body := JObj [ ("results", JObj [("entities", JArr [item])]) ]%string in
  Gateway.getInsights Gateway.showWhole (Examples.replying body) (plainQuery PLACE 20)
  = Ok {| Gateway.resultItems :=
            [ JObj [ ("id", JStr "E1"); ("name", JStr "Prospect Park");
                     ("type", JStr "urn:entity:place"); ("affinity", JNum 0.9);
                     ("properties", JUndefined) ]%string ];
          Gateway.body := body |}.
Proof. reflexivity. Qed.

(** ** Scores *)

Import Numbers.

(** *** Average affinity (C8) *)






(** *** Surprise connections (C2) *)

Lemma above_threshold_truthy (a : float) :
  (0.7 <? a)%float = true -> truthyNumber a = true.
Proof.
  intros H. apply above_threshold_positive in H. unfold positiveNumber in H.
  unfold truthyNumber. rewrite !FloatAxioms.eqb_spec.
  change (Prim2SF 0) with (S754_zero false).
  unfold SFeqb, SFcompare.
  destruct (Prim2SF a) as [ | s | | s m e]; simpl in H; try contradiction; subst s.
  - reflexivity.
  - rewrite Z.compare_refl. change (Pos.compare_cont Eq m m) with (Pos.compare m m).
    rewrite Pos.compare_refl. reflexivity.
Qed.

Lemma considerPair_kept (userEntity targetEntity : QlooEntity)
    (connections : list SurpriseConnection) :
  considerPair userEntity connections targetEntity
  = connections ++
      match affinity targetEntity with
      | Some a => if (0.7 <? a)%float then [pairRecord userEntity targetEntity a] else []
      | None => []
      end.
Proof.
  unfold considerPair. destruct (affinity targetEntity) as [a | ];
    [ | rewrite app_nil_r; reflexivity].
  destruct (0.7 <? a)%float eqn:T.
  - rewrite (above_threshold_truthy a T). reflexivity.
  - rewrite andb_false_r, app_nil_r. reflexivity.
Qed.

Lemma inner_loop (userEntity : QlooEntity) (targets : list QlooEntity) :
  forall connections,
    fold_left (considerPair userEntity) targets connections
    = connections ++
        flat_map (fun t => match affinity t with
                           | Some a => if (0.7 <? a)%float
                                       then [pairRecord userEntity t a] else []
                           | None => []
                           end) targets.
Proof.
  induction targets as [ | t rest IH]; intros connections; cbn [fold_left flat_map].
  - rewrite app_nil_r. reflexivity.
  - rewrite IH, considerPair_kept, <- app_assoc. reflexivity.
Qed.

Lemma outer_loop (targets users : list QlooEntity) :
  forall connections,
    fold_left (fun connections userEntity =>
                 fold_left (considerPair userEntity) targets connections)
              users connections
    = connections ++
        flat_map (fun u =>
                    flat_map (fun t => match affinity t with
                                       | Some a => if (0.7 <? a)%float
                                                   then [pairRecord u t a] else []
                                       | None => []
                                       end) targets) users.
Proof.
  induction users as [ | u rest IH]; intros connections; cbn [fold_left flat_map].
  - rewrite app_nil_r. reflexivity.
  - rewrite IH, inner_loop, <- app_assoc. reflexivity.
Qed.

Lemma in_keptPairs (userEntities targetEntities : list QlooEntity) (r : SurpriseConnection) :
  In r (keptPairs userEntities targetEntities)
  <-> exists user target a,
        In user (firstn 3 userEntities) /\ In target (firstn 5 targetEntities)
        /\ affinity target = Some a /\ (0.7 <? a)%float = true
        /\ r = pairRecord user target a.
Proof.
  unfold keptPairs. rewrite in_flat_map. split.
  - intros (user & Hu & H). apply in_flat_map in H. destruct H as (target & Ht & H).
    destruct (affinity target) as [a | ] eqn:A; [ | contradiction].
    destruct (0.7 <? a)%float eqn:T; [ | contradiction].
    destruct H as [<- | []]. exists user, target, a. repeat split; assumption.
  - intros (user & target & a & Hu & Ht & A & T & ->).
    exists user. split; [exact Hu | ]. apply in_flat_map. exists target.
    split; [exact Ht | ]. rewrite A, T. left. reflexivity.
Qed.

(** Sorting *)

Lemma insertBy_permutation {A : Type} (compare : A -> A -> float) (x : A) (l : list A) :
  Permutation (insertBy compare x l) (x :: l).
Proof.
  induction l as [ | y rest IH]; cbn [insertBy]; [apply Permutation_refl | ].
  destruct (0 <? compare x y)%float; [ | apply Permutation_refl].
  eapply perm_trans; [apply perm_skip; exact IH | apply perm_swap].
Qed.

Lemma sort_permutation {A : Type} (compare : A -> A -> float) (l : list A) :
  Permutation (sort compare l) l.
Proof.
  induction l as [ | x rest IH]; cbn [sort fold_right]; [apply Permutation_refl | ].
  eapply perm_trans; [apply insertBy_permutation | apply perm_skip; exact IH].
Qed.

Lemma insertBy_descending (x : SurpriseConnection) (l : list SurpriseConnection) :
  strong x -> Forall strong l -> descending l -> descending (insertBy byStrength x l).
Proof.
  unfold descending. intros Px Pl Hl. induction Hl as [ | y rest Hrest IH Hy]; cbn [insertBy].
  - repeat constructor.
  - inversion Pl as [ | ? ? Py Prest]; subst. unfold byStrength at 1.
    rewrite (sub_positive_iff_less _ _ Px Py).
    destruct (connectionStrength x <? connectionStrength y)%float eqn:C.
    + constructor; [apply IH; exact Prest | ].
      apply (Permutation_Forall (Permutation_sym (insertBy_permutation byStrength x rest))).
      constructor; [apply less_leq; exact C | exact Hy].
    + assert (Hxy : (connectionStrength y <=? connectionStrength x)%float = true)
        by (apply not_less_geq; assumption).
      constructor; [constructor; assumption | ].
      constructor; [exact Hxy | ].
      rewrite Forall_forall in Hy, Prest |- *. intros z Hz.
      apply (leq_trans _ (connectionStrength y)); auto.
      * apply Prest. exact Hz.
Qed.

Lemma sort_descending (l : list SurpriseConnection) :
  Forall strong l -> descending (sort byStrength l).
Proof.
  induction 1 as [ | x rest Px Prest IH]; cbn [sort fold_right].
  - constructor.
  - apply insertBy_descending; [exact Px | | exact IH].
    apply (Permutation_Forall (Permutation_sym (sort_permutation byStrength rest))).
    exact Prest.
Qed.

Lemma keptPairs_strong (userEntities targetEntities : list QlooEntity) :
  Forall strong (keptPairs userEntities targetEntities).
Proof.
  apply Forall_forall. intros r Hr. apply in_keptPairs in Hr.
  destruct Hr as (user & target & a & _ & _ & _ & T & ->).
  apply above_threshold_positive. exact T.
Qed.

(** C2.  For every list of user entities and of target entities, the
    surprise connections are the records of exactly the pairs of one of
    the first 3 user entities and one of the first 5 target entities
    whose affinity exceeds 0.7 (a pair at or below the threshold, or
    without affinity, has no record), each with the user entity's name,
    the target entity, its affinity as strength and the templated
    explanation, sorted descending by strength; nothing is called. *)
Theorem surprise_connections (userEntities targetEntities : list QlooEntity)
    (context : ProjectContext) (log : Log) :
  let kept := keptPairs userEntities targetEntities in
  let connections := sort byStrength kept in
  findSurpriseConnections userEntities targetEntities context log = (Ok connections, log)
  /\ Permutation connections kept
  /\ descending connections
  /\ (forall r,
        In r connections
        <-> exists user target a,
              In user (firstn 3 userEntities) /\ In target (firstn 5 targetEntities)
              /\ affinity target = Some a /\ (0.7 <? a)%float = true
              /\ r = {| fromInterest := name user;
                        toRecommendation := target;
                        connectionStrength := a;
                        explanation := ("People who like " ++ name user
                                          ++ " often also enjoy " ++ name target)%string |}).
Proof.
  intros kept connections. split; [ | split; [ | split]].
  - unfold findSurpriseConnections, slice0. rewrite outer_loop. reflexivity.
  - apply sort_permutation.
  - apply sort_descending, keptPairs_strong.
  - intros r. rewrite <- (in_keptPairs userEntities targetEntities r).
    split; apply Permutation_in;
      [apply sort_permutation | apply Permutation_sym, sort_permutation].
Qed.

(** The specification's example: four user entities, target affinities
    [0.9, 0.5, 0.75, 0.6, 0.8]. *)
Example surprise_connections_example :
  let users := map (fun n => Examples.entity n ARTIST None) ["U1"; "U2"; "U3"; "U4"]%string in
  let targets :=
    [ Examples.entity "T1" PLACE (Some 0.9); Examples.entity "T2" PLACE (Some 0.5);
      Examples.entity "T3" PLACE (Some 0.75); Examples.entity "T4" PLACE (Some 0.6);
      Examples.entity "T5" PLACE (Some 0.8) ]%float in
  match findSurpriseConnections users targets Examples.fitnessContext [] with
  | (Ok connections, _) =>
      map (fun r => (fromInterest r, name (toRecommendation r), connectionStrength r))
          connections
      = [ ("U1", "T1", 0.9); ("U2", "T1", 0.9); ("U3", "T1", 0.9);
          ("U1", "T5", 0.8); ("U2", "T5", 0.8); ("U3", "T5", 0.8);
          ("U1", "T3", 0.75); ("U2", "T3", 0.75); ("U3", "T3", 0.75) ]%string%float
  | (Err _, _) => False
  end.
Proof. vm_compute. reflexivity. Qed.

(* ================================================================== *)
(** * Part III: further properties                                    *)
(* ================================================================== *)

Import Vocabulary.

(** ** The discovery engine as a whole *)

Lemma newCalls_app (log calls : Log) : newCalls log (log ++ calls) = calls.
Proof.
  unfold newCalls. rewrite skipn_app, skipn_all, Nat.sub_diag. reflexivity.
Qed.

Lemma findSurpriseConnections_run (userEntities targetEntities : list QlooEntity)
    (context : ProjectContext) (log : Log) :
  findSurpriseConnections userEntities targetEntities context log
  = (Ok (sort byStrength (keptPairs userEntities targetEntities)), log).
Proof.
  unfold findSurpriseConnections, keptPairs, slice0, ret.
  rewrite outer_loop. reflexivity.
Qed.

Lemma flat_map_length_le {A B : Type} (f : A -> list B) (bound : nat) (l : list A) :
  (forall a, List.length (f a) <= bound) ->
  List.length (flat_map f l) <= List.length l * bound.
Proof.
  intros H. induction l as [ | a rest IH]; [apply Nat.le_refl | ].
  cbn [flat_map List.length]. rewrite length_app. specialize (H a). lia.
Qed.

Lemma keptPairs_length (userEntities targetEntities : list QlooEntity) :
  List.length (keptPairs userEntities targetEntities) <= 15.
Proof.
  unfold keptPairs.
  eapply Nat.le_trans.
  - apply (flat_map_length_le _ 5). intros u.
    eapply Nat.le_trans.
    + apply (flat_map_length_le _ 1). intros t.
      destruct (affinity t) as [a | ]; [destruct (0.7 <? a)%float | ]; simpl; lia.
    + pose proof (firstn_le_length 5 targetEntities). lia.
  - pose proof (firstn_le_length 3 userEntities). lia.
Qed.

(** The engine, run after the calls of [log]: the searches of the
    interests, then the one query of the tier, then no further call. *)
Lemma discoverUnexpectedConnections_run (qloo : Upstream) (userInterests : list string)
    (targetDomain : string) (context : ProjectContext) (log : Log) :
  discoverUnexpectedConnections qloo userInterests targetDomain context log
  = match resolution qloo 3 userInterests log with
    | (Err e, log') => (Err e, log')
    | (Ok userEntities, log') =>
        let q :=
          tierQuery (textOf (tableLookup domainTypeMapping targetDomain PLACE)) userEntities in
        match insightsReply qloo log' q with
        | Err e => (Err e, log' ++ [GetInsights q])
        | Ok response =>
            (Ok {| surpriseConnections :=
                     sort byStrength (keptPairs userEntities (results response));
                   domainBridges :=
                     [ {| domain1 := "user_interests";
                          domain2 := targetDomain;
                          bridgeEntities := [];
                          insights :=
                            [ ("Bridge found between " ++ String.concat ", " userInterests
                                 ++ " and " ++ targetDomain ++ " domain")%string;
                              "Cultural connections exist across these domains"%string;
                              "Consider exploring crossover opportunities"%string ] |} ];
                   trendingCrossOvers := [] |},
             log' ++ [GetInsights q])
        end
    end.
Proof.
  unfold discoverUnexpectedConnections. rewrite tryCatch_rethrow, run_bind.
  rewrite resolveInterests_run.
  destruct (resolution qloo 3 userInterests log) as [[userEntities | e] log'] eqn:R;
    [ | reflexivity].
  rewrite run_bind.
  destruct (resolved_entities_are_search_results qloo userInterests log log' userEntities)
    as [found ->].
  { rewrite resolveInterests_run. exact R. }
  rewrite tier_selection_typed.
  2:{ apply Forall_forall. intros e He. apply in_map_iff in He.
      destruct He as (item & <- & _). apply searchEntity_type. }
  cbv zeta. unfold resultsOf.
  destruct (insightsReply qloo log' _) as [response | e]; [ | reflexivity].
  rewrite run_bind, findSurpriseConnections_run. reflexivity.
Qed.

(** When a search fails, the searches before it succeeded and it is the
    last one made. *)
Lemma first_failed_search (qloo : Upstream) (searches : list SearchArgs) :
  forall (log : Log) (k : nat) (e : JSError),
    firstError (searchReplies qloo searches log) = Some (k, e) ->
    anyFailure qloo log (map searchCall (firstn k searches)) = false
    /\ exists s,
         firstn (S k) searches = firstn k searches ++ [s]
         /\ callFails qloo (log ++ map searchCall (firstn k searches)) (searchCall s) = true.
Proof.
  induction searches as [ | [[q t] o] rest IH]; intros log k e H; [discriminate | ].
  cbn [searchReplies firstError] in H. unfold searchEntities in H. cbn [fst] in H.
  destruct (searchReply qloo log q t o) as [[items | ] | e'] eqn:R; cbn [fst] in H.
  1,2: destruct (firstError (searchReplies qloo rest (log ++ [SearchEntities q t o])))
         as [[k' e''] | ] eqn:E; [ | discriminate];
       injection H as <- <-;
       destruct (IH _ _ _ E) as (Hbefore & s & Hs & Hfail);
       cbn [firstn map anyFailure searchCall callFails]; rewrite R; cbn [isErr orb];
       (split; [exact Hbefore | ]);
       exists s; (split; [cbn [firstn] in Hs |- *; rewrite Hs; reflexivity | ]);
       rewrite <- app_assoc in Hfail; exact Hfail.
  injection H as <- <-. split; [reflexivity | ].
  exists (q, t, o). split; [reflexivity | ].
  cbn [firstn map searchCall callFails]. rewrite app_nil_r, R. reflexivity.
Qed.
(** X1.  [discoverUnexpectedConnections], for every service, input and
    earlier log.  A failed search of an interest fails the discovery,
    with that search's error, and it is the last call made.  A
    discovery that succeeds has made one search per interest followed
    by a single insight query, none of which failed, and returns at
    most 15 surprise connections, exactly one bridge (holding no
    entity) and no trending crossover.  No call is ever made after a
    failed one. *)
Theorem discovery_outcomes (qloo : Upstream) (userInterests : list string)
    (targetDomain : string) (context : ProjectContext) (log : Log) :
  let run := discoverUnexpectedConnections qloo userInterests targetDomain context log in
  let made := newCalls log (snd run) in
  let searches := map (interestSearch 3) userInterests in
  snd run = log ++ made
  /\ anyFailure qloo log (removelast made) = false
  /\ match firstError (searchReplies qloo searches log) with
     | Some (k, e) =>
         fst run = Err e
         /\ made = map searchCall (firstn (S k) searches)
         /\ exists failed,
              nth_error searches k = Some failed
              /\ callFails qloo (log ++ map searchCall (firstn k searches))
                   (searchCall failed) = true
     | None => True
     end
  /\ match fst run with
     | Ok discovery =>
         (exists q, made = map searchCall searches ++ [GetInsights q])
         /\ anyFailure qloo log made = false
         /\ List.length (surpriseConnections discovery) <= 15
         /\ (exists bridge,
               domainBridges discovery = [bridge] /\ bridgeEntities bridge = [])
         /\ trendingCrossOvers discovery = []
     | Err _ => True
     end.
Proof.
  cbv zeta. rewrite discoverUnexpectedConnections_run. unfold resolution.
  pose proof (searches_fail_iff qloo (map (interestSearch 3) userInterests) log) as F.
  unfold searchesInOrder in *.
  destruct (firstError (searchReplies qloo (map (interestSearch 3) userInterests) log))
    as [[k e] | ] eqn:E; cbn [fst snd isErr] in *.
  - rewrite newCalls_app. split; [reflexivity | ].
    destruct (first_failed_search _ _ _ _ _ E) as (Hbefore & s & Hs & Hfail).
    split; [ | split; [ | exact I]].
    + rewrite Hs, map_app. cbn [map]. rewrite removelast_last. exact Hbefore.
    + split; [reflexivity | ]. split; [reflexivity | ].
      exists s. split; [ | exact Hfail].
      assert (L : List.length (firstn k (map (interestSearch 3) userInterests)) = k).
      { apply (f_equal (@List.length _)) in Hs. rewrite length_app in Hs.
        cbn [List.length] in Hs. rewrite !length_firstn in *. lia. }
      rewrite <- (firstn_skipn (S k) (map (interestSearch 3) userInterests)), Hs.
      rewrite <- app_assoc, nth_error_app2 by lia. rewrite L, Nat.sub_diag. reflexivity.
  - set (searches := map (interestSearch 3) userInterests) in *.
    set (entities := List.concat (successes (searchReplies qloo searches log))).
    set (q := tierQuery (textOf (tableLookup domainTypeMapping targetDomain PLACE)) entities).
    assert (R : removelast (map searchCall searches ++ [GetInsights q])
                = map searchCall searches).
    { apply removelast_last. }
    destruct (insightsReply qloo (log ++ map searchCall searches) q) as [response | e] eqn:Reply;
      cbn [fst snd isErr]; rewrite <- app_assoc, newCalls_app, R.
    + split; [reflexivity | ]. split; [symmetry; exact F | ]. split; [exact I | ].
      split; [exists q; reflexivity | ].
      rewrite anyFailure_app. cbn [anyFailure callFails]. rewrite Reply, <- F.
      split; [reflexivity | ].
      split; [ | split; [eexists; split; reflexivity | reflexivity]].
      cbn [surpriseConnections].
      rewrite (Permutation_length (sort_permutation byStrength _)).
      apply keptPairs_length.
    + split; [reflexivity | ]. split; [symmetry; exact F | ]. split; exact I.
Qed.

(** On the sample service a discovery succeeds: one search, then the
    plain query. *)
Example discovery_on_the_sample_service :
  match discoverUnexpectedConnections Examples.healthy ["jazz"%string] "music"
          Examples.fitnessContext [] with
  | (Ok discovery, calls) =>
      calls = [ SearchEntities "jazz" None (takeOnly 3); GetInsights (plainQuery ARTIST 20) ]
      /\ List.length (surpriseConnections discovery) = 1
  | (Err _, _) => False
  end.
Proof. vm_compute. split; reflexivity. Qed.

(** ** The tools *)

(** A loop that pushes one item per element. *)
Lemma push_loop {A B : Type} (f : A -> B) (l : list A) :
  forall acc : list B,
    fold_left (fun acc a => acc ++ [f a]) l acc = acc ++ map f l.
Proof.
  induction l as [ | a rest IH]; intros acc; cbn [fold_left map].
  - rewrite app_nil_r. reflexivity.
  - rewrite IH, <- app_assoc. reflexivity.
Qed.

Lemma nonempty_length {A : Type} (l : list A) :
  Nat.ltb 0 (List.length l) = match l with [] => false | _ :: _ => true end.
Proof. destruct l; reflexivity. Qed.

Lemma opportunities_count (mathRound : float -> float)
    (numberToString : float -> string) (discoveries : Discovery)
    (input : Integration.DiscoveryInput) :
  List.length
    (Integration.identifyInnovationOpportunities mathRound numberToString discoveries input)
  = Nat.min 3 (List.length (surpriseConnections discoveries))
    + match domainBridges discoveries with [] => 0 | _ :: _ => 1 end.
Proof.
  unfold Integration.identifyInnovationOpportunities.
  rewrite push_loop, nonempty_length. cbn [app]. unfold slice0.
  destruct (domainBridges discoveries) as [ | bridge bridges];
    [ | rewrite length_app];
    rewrite length_map, length_firstn; cbn [List.length]; lia.
Qed.

(** X2.  [identifyInnovationOpportunities], for every discovery: one
    opportunity for each of the first three surprise connections, in
    their order and citing their explanations, then one partnership
    opportunity when there is a bridge; so never more than four,
    however many connections were found. *)
Theorem innovation_opportunities (mathRound : float -> float)
    (numberToString : float -> string) (discoveries : Discovery)
    (input : Integration.DiscoveryInput) :
  let opportunities :=
    Integration.identifyInnovationOpportunities mathRound numberToString discoveries input in
  let bridged := match domainBridges discoveries with [] => 0 | _ :: _ => 1 end in
  List.length opportunities
  = Nat.min 3 (List.length (surpriseConnections discoveries)) + bridged
  /\ List.length opportunities <= 4
  /\ firstn (List.length opportunities - bridged) (map Integration.culturalBasis opportunities)
     = map explanation (firstn 3 (surpriseConnections discoveries)).
Proof.
  cbv zeta. unfold Integration.identifyInnovationOpportunities.
  rewrite push_loop, nonempty_length. cbn [app]. unfold slice0.
  set (made := map _ (firstn 3 (surpriseConnections discoveries))).
  assert (L : List.length made = Nat.min 3 (List.length (surpriseConnections discoveries))).
  { unfold made. rewrite length_map, length_firstn. reflexivity. }
  assert (B : map Integration.culturalBasis made
              = map explanation (firstn 3 (surpriseConnections discoveries))).
  { unfold made. rewrite map_map. reflexivity. }
  destruct (domainBridges discoveries) as [ | bridge bridges].
  - rewrite L, Nat.add_0_r, Nat.sub_0_r. split; [reflexivity | ]. split; [lia | ].
    rewrite <- L, <- (length_map Integration.culturalBasis), firstn_all. exact B.
  - rewrite length_app, L. cbn [List.length]. split; [reflexivity | ]. split; [lia | ].
    rewrite Nat.add_sub, map_app, <- L, <- (length_map Integration.culturalBasis made).
    rewrite firstn_app, Nat.sub_diag, firstn_all. cbn [firstn]. rewrite app_nil_r. exact B.
Qed.

Lemma discovery_tool_run (mathRound : float -> float)
    (numberToString : float -> string) (qloo : Upstream)
    (input : Integration.DiscoveryInput) (log : Log) :
  Integration.discoverCrossDomainConnections mathRound numberToString qloo input log
  = match discoverUnexpectedConnections qloo (Integration.inputInterests input)
            (Integration.targetDomain input)
            {| projectType := "discovery";
               goalCategory := Integration.targetDomain input;
               userLocation := Integration.inputLocation input;
               timeframe := None; budget := None |} log with
    | (Err e, log') => (Err e, log')
    | (Ok discoveries, log') =>
        (Ok {| Integration.outSurpriseConnections :=
                 map (fun conn =>
                        {| Integration.outFromInterest := fromInterest conn;
                           Integration.outToRecommendation := name (toRecommendation conn);
                           Integration.outConnectionStrength := connectionStrength conn;
                           Integration.outExplanation := explanation conn |})
                     (surpriseConnections discoveries);
               Integration.outDomainBridges :=
                 map (fun bridge =>
                        {| Integration.outDomain1 := domain1 bridge;
                           Integration.outDomain2 := domain2 bridge;
                           Integration.outBridgeEntities := map name (bridgeEntities bridge);
                           Integration.outInsights := insights bridge |})
                     (domainBridges discoveries);
               Integration.outTrendingCrossOvers :=
                 map (fun trend =>
                        {| Integration.trendName := name trend;
                           Integration.trendType := type trend;
                           Integration.trendingScore := affinity trend |})
                     (trendingCrossOvers discoveries);
               Integration.actionableInsights :=
                 Integration.generateActionableInsights discoveries
                   (Integration.targetDomain input);
               Integration.innovationOpportunities :=
                 Integration.identifyInnovationOpportunities mathRound numberToString
                   discoveries input |},
         log')
    end.
Proof.
  unfold Integration.discoverCrossDomainConnections.
  rewrite tryCatch_rethrow. cbv zeta. rewrite run_bind.
  unfold Profiles.createProjectContext. cbn [projectType goalCategory userLocation timeframe budget].
  destruct (discoverUnexpectedConnections _ _ _ _ _) as [[discoveries | e] log']; reflexivity.
Qed.

(** X3.  The function of the discovery tool, for every service, input
    and earlier log: it makes the calls of the engine and nothing else,
    and when the engine fails it fails with the engine's error.  What
    it returns has no trending crossover, one bridge without entities
    and at most 15 surprise connections; the actionable insights are
    the line on surprise connections (only when there is one), then
    always the line counting 1 bridge and the two closing lines, never
    the line on trends; and there are between one and four innovation
    opportunities. *)
Theorem discovery_tool_report (mathRound : float -> float)
    (numberToString : float -> string) (qloo : Upstream)
    (input : Integration.DiscoveryInput) (log : Log) :
  let target := Integration.targetDomain input in
  let run :=
    Integration.discoverCrossDomainConnections mathRound numberToString qloo input log in
  let engine :=
    discoverUnexpectedConnections qloo (Integration.inputInterests input) target
      {| projectType := "discovery"; goalCategory := target;
         userLocation := Integration.inputLocation input;
         timeframe := None; budget := None |} log in
  snd run = snd engine
  /\ match fst engine with
     | Err e => fst run = Err e
     | Ok _ => True
     end
  /\ match fst run with
     | Ok out =>
         Integration.outTrendingCrossOvers out = []
         /\ (exists bridge,
               Integration.outDomainBridges out = [bridge]
               /\ Integration.outBridgeEntities bridge = [])
         /\ List.length (Integration.outSurpriseConnections out) <= 15
         /\ Integration.actionableInsights out
            = match Integration.outSurpriseConnections out with
              | [] => []
              | connections =>
                  [ ("Your interests reveal " ++ Text.showCount (List.length connections)
                       ++ " unexpected connections to " ++ target
                       ++ " - leverage these for unique approaches")%string ]
              end
              ++ [ ("1 bridge opportunities identified between your interests and "
                      ++ target ++ " domain")%string;
                   ("Consider approaching " ++ target
                      ++ " through the lens of your existing interests for better engagement")%string;
                   ("Look for communities and brands that bridge your interests with "
                      ++ target ++ " objectives")%string ]
         /\ 1 <= List.length (Integration.innovationOpportunities out) <= 4
     | Err _ => True
     end.
Proof.
  cbv zeta. rewrite discovery_tool_run, discoverUnexpectedConnections_run.
  destruct (resolution qloo 3 (Integration.inputInterests input) log)
    as [[userEntities | e] log'] eqn:R; [ | repeat split].
  cbv zeta. destruct (insightsReply qloo log' _) as [response | e]; [ | repeat split].
  cbn [fst snd isErr].
  split; [reflexivity | ]. split; [exact I | ].
  cbn [Integration.outTrendingCrossOvers Integration.outDomainBridges
       Integration.outSurpriseConnections Integration.actionableInsights
       Integration.innovationOpportunities
       surpriseConnections domainBridges trendingCrossOvers bridgeEntities map].
  split; [reflexivity | ].
  split; [eexists; split; reflexivity | ].
  rewrite length_map, (Permutation_length (sort_permutation byStrength _)).
  split; [apply keptPairs_length | ].
  split.
  - unfold Integration.generateActionableInsights.
    cbn [surpriseConnections domainBridges trendingCrossOvers].
    rewrite nonempty_length. cbn [List.length Nat.ltb Nat.leb].
    destruct (sort byStrength _) as [ | c cs]; cbn [map app].
    + reflexivity.
    + rewrite length_map. reflexivity.
  - rewrite opportunities_count. cbn [surpriseConnections domainBridges]. lia.
Qed.

Lemma component_tool_run (toLowerCase : string -> string) (qloo : Upstream)
    (input : Integration.ComponentInput) (log : Log) :
  Integration.generateSmartProjectComponents toLowerCase qloo input log
  = match generateComponentRecommendations qloo (Integration.inputProjectType input)
            (toolProfile input) (toolContext toLowerCase input) log with
    | (Ok recommendations, log') => (Ok (toolOutput input recommendations), log')
    | (Err e, log') => (Err e, log')
    end.
Proof.
  unfold Integration.generateSmartProjectComponents.
  rewrite tryCatch_rethrow. cbv zeta. rewrite run_bind.
  unfold Profiles.createUserTasteProfile, Profiles.createProjectContext, toolProfile,
         toolContext.
  cbn [Profiles.dataInterests Profiles.dataAge Profiles.dataGender Profiles.dataLocation
       Profiles.dataCoordinates Profiles.dataPriceRange
       projectType goalCategory userLocation timeframe budget].
  destruct (generateComponentRecommendations _ _ _ _ _) as [[recommendations | e] log'];
    reflexivity.
Qed.

(** X4.  The calls of the component tool, for every service, input and
    earlier log: six insight queries and nothing else, issued in the
    order venues, books, tools, communities, podcasts, movies, whatever
    the replies; each carries the first five interest strings, as
    given, as its entity signals, and none carries a popularity
    filter. *)
Theorem component_tool_queries (toLowerCase : string -> string) (qloo : Upstream)
    (input : Integration.ComponentInput) (log : Log) :
  let run := Integration.generateSmartProjectComponents toLowerCase qloo input log in
  let made := newCalls log (snd run) in
  snd run = log ++ made
  /\ map (fun call => match call with
                      | GetInsights options => Some (filterType options, take options)
                      | _ => None
                      end) made
     = [ Some (PLACE, Some 15%float); Some (BOOK, Some 5%float);
         Some (BRAND, Some 10%float); Some (DESTINATION, Some 10%float);
         Some (PODCAST, Some 5%float); Some (MOVIE, Some 5%float) ]
  /\ Forall
       (fun call =>
          exists options,
            call = GetInsights options
            /\ optField signalEntities (signals options)
               = Some (firstn 5 (Integration.componentInterests input))
            /\ optField popularity (filters options) = None)
       made.
Proof.
  cbv zeta. rewrite component_tool_run.
  pose proof (generateComponentRecommendations_run qloo (Integration.inputProjectType input)
                (toolProfile input) (toolContext toLowerCase input) log) as R.
  cbv zeta in R. rewrite R. cbn [fst snd isErr]. rewrite newCalls_app.
  split; [reflexivity | ]. split; [reflexivity | ].
  repeat constructor; eexists; (split; [reflexivity | split; reflexivity]).
Qed.

(** X5.  The recommendations and suggestions of the component tool, and
    the calls it makes, depend only on the project name, the interests,
    the demographics, the location and the price range of its input:
    the project type (and so its category), the project description and
    the popularity level have no effect. *)
Theorem component_tool_ignored_inputs (toLowerCase toLowerCase' : string -> string)
    (qloo : Upstream) (input input' : Integration.ComponentInput) (log : Log) :
  Integration.inputProjectName input = Integration.inputProjectName input' ->
  Integration.componentInterests input = Integration.componentInterests input' ->
  Integration.inputDemographics input = Integration.inputDemographics input' ->
  Integration.componentLocation input = Integration.componentLocation input' ->
  optField Integration.priceRange (Integration.inputPreferences input)
  = optField Integration.priceRange (Integration.inputPreferences input') ->
  Integration.generateSmartProjectComponents toLowerCase qloo input log
  = Integration.generateSmartProjectComponents toLowerCase' qloo input' log.
Proof.
  intros Hname Hinterests Hdemographics Hlocation Hprice.
  rewrite !component_tool_run.
  pose proof (generateComponentRecommendations_run qloo (Integration.inputProjectType input)
                (toolProfile input) (toolContext toLowerCase input) log) as R.
  pose proof (generateComponentRecommendations_run qloo (Integration.inputProjectType input')
                (toolProfile input') (toolContext toLowerCase' input') log) as R'.
  cbv zeta in R, R'. rewrite R, R'. clear R R'.
  assert (P : toolProfile input = toolProfile input').
  { unfold toolProfile. rewrite Hinterests, Hdemographics, Hlocation, Hprice. reflexivity. }
  assert (V : venueQuery (toolProfile input) (toolContext toLowerCase input)
              = venueQuery (toolProfile input') (toolContext toLowerCase' input')).
  { unfold venueQuery. rewrite P. unfold toolContext. cbn [userLocation].
    rewrite Hlocation. reflexivity. }
  rewrite V, P. unfold toolOutput, Integration.generateComponentSuggestions.
  rewrite Hname. reflexivity.
Qed.

Lemma component_tool_ignored_inputs_witness :
  Integration.generateSmartProjectComponents (fun s => s) Examples.healthy Samples.wellnessInput []
  = Integration.generateSmartProjectComponents (fun _ => "art"%string) Examples.healthy
      Samples.wellnessInputPopular [].
Proof.
  apply (component_tool_ignored_inputs (fun s => s) (fun _ => "art"%string) Examples.healthy
           Samples.wellnessInput Samples.wellnessInputPopular []); reflexivity.
Defined.

(** X6.  When every insight query fails, the component tool still
    succeeds: it has made its six queries and reports four empty
    categories and no suggestion. *)
Theorem component_tool_outage (toLowerCase : string -> string) (qloo : Upstream)
    (input : Integration.ComponentInput) (log : Log) :
  (forall before options, isErr (insightsReply qloo before options) = true) ->
  exists made,
    List.length made = 6
    /\ Integration.generateSmartProjectComponents toLowerCase qloo input log
       = (Ok {| Integration.outVenues := []; Integration.outContent := [];
                Integration.outTools := []; Integration.outCommunities := [];
                Integration.componentSuggestions := [] |},
          log ++ made).
Proof.
  intros Down. rewrite component_tool_run.
  pose proof (generateComponentRecommendations_run qloo (Integration.inputProjectType input)
                (toolProfile input) (toolContext toLowerCase input) log) as R.
  cbv zeta in R. rewrite R. clear R.
  assert (E : forall before options, resultsOrEmpty (insightsReply qloo before options) = []).
  { intros before options. specialize (Down before options). unfold resultsOrEmpty.
    destruct (insightsReply qloo before options); [discriminate | reflexivity]. }
  rewrite !E. eexists. split; [ | reflexivity]. reflexivity.
Qed.

Lemma component_tool_outage_witness :
  exists made,
    List.length made = 6
    /\ Integration.generateSmartProjectComponents (fun s => s) Examples.insightsDown
         Samples.wellnessInput []
       = (Ok {| Integration.outVenues := []; Integration.outContent := [];
                Integration.outTools := []; Integration.outCommunities := [];
                Integration.componentSuggestions := [] |},
          [] ++ made).
Proof.
  apply (component_tool_outage (fun s => s) Examples.insightsDown Samples.wellnessInput []).
  intros before options. reflexivity.
Defined.


(** ** The helpers of the examples *)

Lemma seen_spec (x : string) (seen : list string) :
  existsb (String.eqb x) seen = true <-> In x seen.
Proof.
  rewrite existsb_exists. split.
  - intros (y & Hy & E). apply String.eqb_eq in E. subst y. exact Hy.
  - intros H. exists x. split; [exact H | apply String.eqb_refl].
Qed.

Lemma in_distinctFrom (xs : list string) :
  forall (seen : list string) (x : string),
    In x (Text.distinctFrom seen xs) <-> In x xs /\ ~ In x seen.
Proof.
  induction xs as [ | y rest IH]; intros seen x; cbn [Text.distinctFrom].
  - simpl. tauto.
  - destruct (existsb (String.eqb y) seen) eqn:E.
    + apply seen_spec in E. rewrite IH. simpl. split; [tauto | ].
      intros [[-> | H] N]; [contradiction | tauto].
    + assert (N : ~ In y seen) by (rewrite <- seen_spec, E; discriminate).
      cbn [In]. rewrite IH. cbn [In]. split.
      * intros [-> | [H M]]; [tauto | ]. split; [tauto | ]. intros S. apply M. right. exact S.
      * intros [[-> | H] M]; [left; reflexivity | ].
        destruct (string_dec y x) as [-> | D]; [left; reflexivity | right].
        split; [exact H | ]. intros [-> | S]; [apply D; reflexivity | contradiction].
Qed.

Lemma distinctFrom_NoDup (xs : list string) :
  forall seen : list string, NoDup (Text.distinctFrom seen xs).
Proof.
  induction xs as [ | y rest IH]; intros seen; cbn [Text.distinctFrom]; [constructor | ].
  destruct (existsb (String.eqb y) seen); [apply IH | ].
  constructor; [ | apply IH].
  rewrite in_distinctFrom. intros [_ N]. apply N. left. reflexivity.
Qed.

(** Every run is made of word characters only. *)
Lemma wordRuns_chars (s : string) :
  forall (run : list ascii) (w : string),
    Forall (fun c => Text.isWordChar c = true) run ->
    In w (Text.wordRuns s run) ->
    Forall (fun c => Text.isWordChar c = true) (list_ascii_of_string w).
Proof.
  induction s as [ | c rest IH]; intros run w Hrun H; cbn [Text.wordRuns] in H.
  - destruct run as [ | r run']; [contradiction | ].
    destruct H as [<- | []]. rewrite list_ascii_of_string_of_list_ascii.
    apply Forall_rev. exact Hrun.
  - destruct (Text.isWordChar c) eqn:W.
    + apply (IH (c :: run)); [constructor; assumption | exact H].
    + destruct run as [ | r run']; [apply (IH []); [constructor | exact H] | ].
      destruct H as [<- | H]; [ | apply (IH []); [constructor | exact H]].
      rewrite list_ascii_of_string_of_list_ascii. apply Forall_rev. exact Hrun.
Qed.

Lemma in_longWords (s w : string) :
  In w (Text.longWords s) ->
  4 <= String.length w
  /\ Forall (fun c => Text.isWordChar c = true) (list_ascii_of_string w).
Proof.
  unfold Text.longWords. rewrite filter_In. intros [H L].
  apply Nat.leb_le in L. split; [exact L | ].
  apply (wordRuns_chars s [] w); [constructor | exact H].
Qed.

(** X8.  [extractInterestsFromGoal], for every goal and context: at
    most ten interests, none twice; each is a context interest or a
    keyword of the lower-cased goal, a keyword being made of at least
    four letters, digits or underscores; and when the keywords and the
    context interests are no more than ten, each of them is returned. *)
Theorem extracted_interests (toLowerCase : string -> string) (goal : string)
    (contextInterests : option (list string)) :
  let extracted := Helpers.extractInterestsFromGoal toLowerCase goal contextInterests in
  let given := match contextInterests with Some interests => interests | None => [] end in
  let keywords := Text.longWords (toLowerCase goal) in
  List.length extracted <= 10
  /\ NoDup extracted
  /\ (forall interest,
        In interest extracted ->
        In interest given
        \/ (In interest keywords
            /\ 4 <= String.length interest
            /\ Forall (fun c => Text.isWordChar c = true) (list_ascii_of_string interest)))
  /\ (List.length (keywords ++ given) <= 10 ->
      forall interest, In interest (keywords ++ given) -> In interest extracted).
Proof.
  cbv zeta. unfold Helpers.extractInterestsFromGoal, slice0, Text.distinct.
  set (given := match contextInterests with Some interests => interests | None => [] end).
  set (keywords := Text.longWords (toLowerCase goal)).
  pose proof (distinctFrom_NoDup (keywords ++ given) []) as D.
  split; [ | split; [ | split]].
  - rewrite length_firstn. apply Nat.le_min_l.
  - rewrite <- (firstn_skipn 10) in D. apply NoDup_app_remove_r in D. exact D.
  - intros interest H.
    assert (H' : In interest (Text.distinctFrom [] (keywords ++ given))).
    { rewrite <- (firstn_skipn 10). apply in_or_app. left. exact H. }
    apply in_distinctFrom in H'. destruct H' as [H' _].
    apply in_app_or in H'. destruct H' as [K | G]; [right | left; exact G].
    split; [exact K | ]. apply (in_longWords (toLowerCase goal)). exact K.
  - intros L interest H.
    assert (S : List.length (Text.distinctFrom [] (keywords ++ given)) <= 10).
    { eapply Nat.le_trans; [ | exact L].
      apply NoDup_incl_length; [exact D | ].
      intros x Hx. apply in_distinctFrom in Hx. tauto. }
    rewrite firstn_all2 by exact S.
    apply in_distinctFrom. split; [exact H | intros []].
Qed.

Ltac split_conditions :=
  repeat match goal with
         | |- context [if ?c then _ else _] =>
             lazymatch c with context [Text.includes] => destruct c end
         end.

(** X9.  [categorizeGoal], in both copies and for every goal, returns
    one of seven categories.  So when the category is the target domain
    of the discovery engine, as in the integration example, the domain
    table answers with a place, a destination or a book: its rows for
    food, entertainment and music are never selected.  And when it is
    the goal category of the architect, the type table answers with
    three entity types, or with places alone when the category is
    [general]. *)
Theorem goal_categories (toLowerCase : string -> string) (goal : string) :
  let categories :=
    [ "fitness"; "business"; "travel"; "learning"; "creative"; "social"; "general" ]%string in
  let targetType (category : string) := tableLookup domainTypeMapping category PLACE in
  let searched (category : string) := tableLookup goalEntityMapping category [PLACE] in
  Forall
    (fun category =>
       In category categories
       /\ In (targetType category) [Found PLACE; Found DESTINATION; Found BOOK]
       /\ (if String.eqb category "general"
           then searched category = Found [PLACE]
           else exists types, searched category = Found types /\ List.length types = 3))
    [ Helpers.categorizeGoal toLowerCase goal; Helpers.categorizeGoalCli toLowerCase goal ].
Proof.
  cbv zeta. unfold Helpers.categorizeGoal, Helpers.categorizeGoalCli.
  apply Forall_cons; [ | apply Forall_cons; [ | apply Forall_nil]];
    split_conditions; (split; [ | split]);
    first [ reflexivity
          | eexists; split; reflexivity
          | repeat (first [left; reflexivity | right]) ].
Qed.

(** X10.  The two copies of [categorizeGoal] agree on every goal that,
    lower-cased, contains neither [shape] nor [career]. *)
Theorem goal_category_copies_agree (toLowerCase : string -> string) (goal : string) :
  Text.includes (toLowerCase goal) "shape" = false ->
  Text.includes (toLowerCase goal) "career" = false ->
  Helpers.categorizeGoalCli toLowerCase goal = Helpers.categorizeGoal toLowerCase goal.
Proof.
  intros S C. unfold Helpers.categorizeGoalCli, Helpers.categorizeGoal.
  rewrite S, C, !orb_false_r. reflexivity.
Qed.

Lemma goal_category_copies_agree_witness :
  Helpers.categorizeGoalCli (fun s => s) "learn to cook"
  = Helpers.categorizeGoal (fun s => s) "learn to cook".
Proof.
  apply (goal_category_copies_agree (fun s => s) "learn to cook"); reflexivity.
Defined.

(** On a goal with one of the two words they can differ. *)
Remark goal_category_copies_differ :
  Helpers.categorizeGoalCli (fun s => s) "get in shape" = "fitness"%string
  /\ Helpers.categorizeGoal (fun s => s) "get in shape" = "general"%string.
Proof. split; reflexivity. Qed.

(** X11.  [categorizeProject] answers with one of seven categories, or,
    for a project type that lower-cased is the name of a property every
    object inherits, with that property.  Whenever it recognises a
    project type (its answer is a category other than [general]), both
    copies of [categorizeGoal], given the same text, name the same
    category. *)
Theorem exact_names_categorized_alike (toLowerCase : string -> string) (projectType : string) :
  match Integration.categorizeProject toLowerCase projectType with
  | Found category =>
      In category
         [ "fitness"; "business"; "travel"; "learning"; "creative"; "social";
           "general" ]%string
      /\ (category <> "general"%string ->
          In (toLowerCase projectType) (map fst Integration.categoryMap)
          /\ Helpers.categorizeGoal toLowerCase projectType = category
          /\ Helpers.categorizeGoalCli toLowerCase projectType = category)
  | Inherited member =>
      toLowerCase projectType = member /\ In member objectPrototypeMembers
  end.
Proof.
  unfold Integration.categorizeProject, Helpers.categorizeGoal, Helpers.categorizeGoalCli.
  cbv zeta. generalize (toLowerCase projectType). intros s.
  unfold tableLookup, Integration.categoryMap. cbn [ownProperty].
  repeat (destruct (String.eqb _ s) eqn:E;
          [ apply String.eqb_eq in E; subst s; vm_compute; intuition congruence | clear E ]).
  destruct (existsb (String.eqb s) objectPrototypeMembers) eqn:M.
  - split; [reflexivity | ]. apply existsb_exists in M. destruct M as (member & Hin & E).
    apply String.eqb_eq in E. subst member. exact Hin.
  - split; [repeat (first [left; reflexivity | right]) | ].
    intros H. contradiction H. reflexivity.
Qed.

(** [networking] is recognised; [constructor] is answered with the
    function every object inherits under that name. *)
Example exact_names_categorized_alike_example :
  Integration.categorizeProject (fun s => s) "networking" = Found "social"%string
  /\ Helpers.categorizeGoal (fun s => s) "networking" = "social"%string
  /\ Integration.categorizeProject (fun s => s) "constructor" = Inherited "constructor"%string.
Proof. repeat split. Qed.

(** ** The parameter maps of the client *)

Lemma key_absent (key : string) (params : Gateway.Params) :
  existsb (fun kv => String.eqb (fst kv) key) params = false <-> ~ In key (map fst params).
Proof.
  split.
  - intros E H. apply in_map_iff in H. destruct H as ([k v] & Hk & H).
    cbn [fst] in Hk. subst key.
    assert (T : existsb (fun kv => String.eqb (fst kv) k) params = true).
    { apply existsb_exists. exists (k, v). split; [exact H | apply String.eqb_refl]. }
    rewrite T in E. discriminate.
  - intros N. destruct (existsb _ params) eqn:E; [ | reflexivity].
    apply existsb_exists in E. destruct E as ([k v] & H & E). apply String.eqb_eq in E.
    cbn [fst] in E. subst k. exfalso. apply N. apply in_map_iff. exists (key, v). tauto.
Qed.

(** Replacing the value of [key] keeps the keys. *)
Lemma replaced_keys (key : string) (value : JSValue) (params : Gateway.Params) :
  map fst (map (fun kv => if String.eqb (fst kv) key then (key, value) else kv) params)
  = map fst params.
Proof.
  rewrite map_map. apply map_ext. intros [k v]. cbn [fst].
  destruct (String.eqb k key) eqn:E; [ | reflexivity].
  apply String.eqb_eq in E. subst k. reflexivity.
Qed.

Lemma replaced_absent (key : string) (value : JSValue) (params : Gateway.Params) :
  existsb (fun kv => String.eqb (fst kv) key) params = false ->
  map (fun kv => if String.eqb (fst kv) key then (key, value) else kv) params = params.
Proof.
  induction params as [ | [k v] rest IH]; intros E; [reflexivity | ].
  cbn [existsb fst] in E. apply orb_false_iff in E. destruct E as [E1 E2].
  cbn [map fst]. rewrite E1, (IH E2). reflexivity.
Qed.

Lemma assign_wellFormed (first : Gateway.Params) (key : string) (value : JSValue)
    (params : Gateway.Params) :
  existsb (fun kv => String.eqb (fst kv) key) first = false ->
  isNullish value = false ->
  wellFormed first params ->
  wellFormed first (Gateway.assign key value params).
Proof.
  intros Hkey Hvalue (rest & -> & Hdistinct & Hvalues). unfold Gateway.assign.
  destruct (existsb _ (first ++ rest)) eqn:E.
  - exists (map (fun kv => if String.eqb (fst kv) key then (key, value) else kv) rest).
    rewrite map_app, (replaced_absent key value first Hkey).
    split; [reflexivity | ]. split.
    + rewrite map_app, replaced_keys, <- map_app. exact Hdistinct.
    + apply Forall_app in Hvalues. destruct Hvalues as [Hfirst Hrest].
      apply Forall_app. split; [exact Hfirst | ].
      apply Forall_forall. intros entry H. apply in_map_iff in H.
      destruct H as (kv & <- & H). destruct (String.eqb (fst kv) key); [exact Hvalue | ].
      rewrite Forall_forall in Hrest. apply Hrest. exact H.
  - exists (rest ++ [(key, value)]). rewrite app_assoc. split; [reflexivity | ]. split.
    + rewrite map_app. cbn [map fst]. apply NoDup_app; [exact Hdistinct | repeat constructor; intros [] | ].
      intros k Hk [<- | []]. apply key_absent in E. contradiction.
    + apply Forall_app. split; [exact Hvalues | ]. repeat constructor. exact Hvalue.
Qed.

Lemma assignIf_wellFormed (first : Gateway.Params) (cond : bool) (key : string)
    (value : JSValue) (params : Gateway.Params) :
  existsb (fun kv => String.eqb (fst kv) key) first = false ->
  isNullish value = false ->
  wellFormed first params ->
  wellFormed first (Gateway.assignIf cond key value params).
Proof.
  intros Hkey Hvalue H. unfold Gateway.assignIf.
  destruct cond; [apply assign_wellFormed; assumption | exact H].
Qed.

Lemma rangeParams_wellFormed (first : Gateway.Params) (prefix : string) (r : option Range)
    (params : Gateway.Params) :
  existsb (fun kv => String.eqb (fst kv) (prefix ++ ".min")) first = false ->
  existsb (fun kv => String.eqb (fst kv) (prefix ++ ".max")) first = false ->
  wellFormed first params ->
  wellFormed first (Gateway.rangeParams prefix r params).
Proof.
  intros Hmin Hmax H. unfold Gateway.rangeParams.
  destruct r as [[low high] | ]; [ | exact H]. cbn [min max].
  destruct high as [h | ]; [apply assign_wellFormed; [exact Hmax | reflexivity | ] | ];
    (destruct low as [l | ]; [apply assign_wellFormed; [exact Hmin | reflexivity | ] | ]);
    exact H.
Qed.

Lemma wellFormed_let (first e : Gateway.Params) (b : Gateway.Params -> Gateway.Params) :
  wellFormed first e ->
  (forall params, wellFormed first params -> wellFormed first (b params)) ->
  wellFormed first (let params := e in b params).
Proof. intros He Hb. apply Hb. exact He. Qed.

Lemma wellFormed_start (first : Gateway.Params) :
  NoDup (map fst first) ->
  Forall (fun entry => isNullish (snd entry) = false) first ->
  wellFormed first first.
Proof. intros D V. exists []. rewrite app_nil_r. tauto. Qed.

(** One step through the construction of a parameter map. *)
Ltac well_formed :=
  cbv beta;
  lazymatch goal with
  | |- wellFormed ?f (let params := ?e in @?b params) =>
      apply (wellFormed_let f e b); [well_formed | intros ? ?; well_formed]
  | |- wellFormed _ (match ?x with _ => _ end) => destruct x; well_formed
  | |- wellFormed _ (Gateway.assign _ _ _) =>
      apply assign_wellFormed; [reflexivity | reflexivity | well_formed]
  | |- wellFormed _ (Gateway.assignIf _ _ _ _) =>
      apply assignIf_wellFormed; [reflexivity | reflexivity | well_formed]
  | |- wellFormed _ (Gateway.rangeParams _ _ _) =>
      apply rangeParams_wellFormed; [reflexivity | reflexivity | well_formed]
  | |- wellFormed ?f ?f =>
      apply wellFormed_start;
      [ repeat constructor; cbn [In map fst]; intuition discriminate
      | repeat constructor ]
  | |- wellFormed _ ?p => is_var p; assumption
  end.

Lemma insightParams_wellFormed (options : InsightOptions) :
  wellFormed
    [ ("filter.type"%string, JStr (filterType options));
      ("take"%string, JNum (numberOr (take options) 20));
      ("page"%string, JNum (numberOr (page options) 1)) ]
    (Gateway.insightParams options).
Proof. cbv delta [Gateway.insightParams]. well_formed. Qed.

Lemma searchRequestParams_wellFormed (query : string) (types : option (list string))
    (options : SearchOptions) :
  wellFormed
    [ ("query"%string, JStr query);
      ("take"%string, JNum (numberOr (searchTake options) 20));
      ("page"%string, JNum (numberOr (searchPage options) 1)) ]
    (Gateway.searchRequestParams query types options).
Proof. cbv delta [Gateway.searchRequestParams]. well_formed. Qed.

Lemma numberOr_kept (n : option float) (d : float) :
  truthyNumber d = true -> truthyNumber (numberOr n d) = true.
Proof.
  intros H. unfold numberOr. destruct n as [x | ]; [ | exact H].
  destruct (truthyNumber x) eqn:T; assumption.
Qed.

(** A map without [undefined] or [null] values is sent key by key. *)
Lemma sent_keys (numberToString : float -> string) (params : Gateway.Params) :
  Forall (fun entry => isNullish (snd entry) = false) params ->
  map fst (flat_map (entryPairs numberToString) params) = map fst params.
Proof.
  induction 1 as [ | entry rest Hentry Hrest IH]; [reflexivity | ].
  cbn [flat_map map]. rewrite map_app, IH.
  destruct (entryPairs_cases numberToString entry) as [[N _] | [_ [value ->]]];
    [rewrite N in Hentry; discriminate | reflexivity].
Qed.

Lemma wellFormed_sent (numberToString : float -> string) (endpoint : string)
    (first params : Gateway.Params) :
  wellFormed first params ->
  let sent := Gateway.searchParams (Gateway.buildUrl numberToString endpoint params) in
  NoDup (map fst params)
  /\ Forall (fun entry => isNullish (snd entry) = false) params
  /\ map fst sent = map fst params
  /\ exists rest, sent = flat_map (entryPairs numberToString) first ++ rest.
Proof.
  intros (rest & -> & D & V). cbv zeta. rewrite sent_pairs.
  split; [exact D | ]. split; [exact V | ]. split; [apply sent_keys; exact V | ].
  exists (flat_map (entryPairs numberToString) rest). apply flat_map_app.
Qed.


(** X13.  The parameters of a search, for every search: no key twice
    and no [undefined] or [null] value; the request starts with
    [query], [take] and [page], with [take] and [page] never [0] or
    [NaN]; and it carries a location filter exactly when the location
    given is a coordinate pair, the filter being that text.  Any other
    location is dropped. *)
Theorem search_request_well_formed (numberToString : float -> string)
    (query : string) (types : option (list string)) (options : SearchOptions) :
  let params := Gateway.searchRequestParams query types options in
  let sent := Gateway.searchParams (Gateway.buildUrl numberToString "/search" params) in
  let size := numberOr (searchTake options) 20 in
  let number := numberOr (searchPage options) 1 in
  NoDup (map fst params)
  /\ Forall (fun entry => isNullish (snd entry) = false) params
  /\ map fst sent = map fst params
  /\ firstn 3 sent
     = [ ("query", query); ("take", numberToString size);
         ("page", numberToString number) ]%string
  /\ truthyNumber size = true
  /\ truthyNumber number = true
  /\ forall value,
       In ("filter.location"%string, value) sent
       <-> searchLocation options = Some value /\ Gateway.isCoordinates value = true.
Proof.
  cbv zeta.
  destruct (wellFormed_sent numberToString "/search" _ _
              (searchRequestParams_wellFormed query types options))
    as (D & V & K & rest & S).
  split; [exact D | ]. split; [exact V | ]. split; [exact K | ].
  split; [rewrite S; reflexivity | ].
  split; [apply numberOr_kept; reflexivity | ].
  split; [apply numberOr_kept; reflexivity | ].
  intros value. clear D V K rest S. rewrite sent_pairs.
  unfold Gateway.searchRequestParams.
  destruct types as [[ | t ts] | ];
    (destruct (searchLocation options) as [l | ];
     [destruct l as [ | c l']; [ | destruct (Gateway.isCoordinates (String c l')) eqn:C] | ]);
    (destruct (searchRadius options) as [r | ]; [destruct (truthyNumber r) | ]);
    cbn; intuition (try discriminate; try congruence).
  all: exfalso; match goal with H : Some ""%string = Some _ |- _ => injection H as <- end;
    discriminate.
Qed.

(** ** Coordinates *)

Lemma leading_minus (s : string) :
  match s with
  | String "-" rest => rest
  | _ => s
  end
  = match s with
    | String c rest => if Ascii.eqb c "-" then rest else s
    | EmptyString => s
    end.
Proof.
  destruct s as [ | c rest]; [reflexivity | ].
  destruct c as [[] [] [] [] [] [] [] []]; reflexivity.
Qed.

Lemma leading_dot (s : string) :
  match s with
  | String "." rest => rest
  | _ => s
  end
  = match s with
    | String c rest => if Ascii.eqb c "." then rest else s
    | EmptyString => s
    end.
Proof.
  destruct s as [ | c rest]; [reflexivity | ].
  destruct c as [[] [] [] [] [] [] [] []]; reflexivity.
Qed.

Lemma leading_comma (s : string) (A : Type) (yes : string -> A) (no : A) :
  match s with
  | String "," rest => yes rest
  | _ => no
  end
  = match s with
    | String c rest => if Ascii.eqb c "," then yes rest else no
    | EmptyString => no
    end.
Proof.
  destruct s as [ | c rest]; [reflexivity | ].
  destruct c as [[] [] [] [] [] [] [] []]; reflexivity.
Qed.

Lemma append_assoc (a b c : string) : ((a ++ b) ++ c = a ++ (b ++ c))%string.
Proof. induction a as [ | x a IH]; [reflexivity | ]. cbn [String.append]. rewrite IH. reflexivity. Qed.

Lemma append_empty (a : string) : (a ++ "" = a)%string.
Proof. induction a as [ | x a IH]; [reflexivity | ]. cbn [String.append]. rewrite IH. reflexivity. Qed.

Lemma skipDigits_split (s : string) :
  exists digits,
    s = (digits ++ Gateway.skipDigits s)%string /\ coordinateText digits.
Proof.
  induction s as [ | c rest IH].
  - exists ""%string. split; [reflexivity | constructor].
  - cbn [Gateway.skipDigits]. destruct (Gateway.isDigit c) eqn:D.
    + destruct IH as (digits & E & F). exists (String c digits). split.
      * cbn [String.append]. rewrite <- E. reflexivity.
      * constructor; [ | exact F]. unfold coordinateChar. rewrite D. reflexivity.
    + exists ""%string. split; [reflexivity | constructor].
Qed.

Lemma coordinateText_app (a b : string) :
  coordinateText a -> coordinateText b -> coordinateText (a ++ b).
Proof.
  unfold coordinateText. intros Ha Hb. induction a as [ | c rest IH]; [exact Hb | ].
  cbn [String.append list_ascii_of_string]. inversion Ha; subst.
  constructor; [assumption | apply IH; assumption].
Qed.

Lemma skipNumber_split (s rest : string) :
  Gateway.skipNumber s = Some rest ->
  exists number,
    s = (number ++ rest)%string /\ number <> ""%string /\ coordinateText number.
Proof.
  unfold Gateway.skipNumber. rewrite leading_minus.
  assert (G : forall t,
             match t with
             | String c r =>
                 if Gateway.isDigit c
                 then
                   let s0 := Gateway.skipDigits r in
                   let s1 := match s0 with
                             | String "." r' => r'
                             | _ => s0
                             end in
                   Some (Gateway.skipDigits s1)
                 else None
             | EmptyString => None
             end = Some rest ->
             exists number,
               t = (number ++ rest)%string /\ number <> ""%string /\ coordinateText number).
  { intros [ | c r]; [discriminate | ]. destruct (Gateway.isDigit c) eqn:D; [ | discriminate].
    cbv zeta. rewrite leading_dot. intros H. injection H as H.
    destruct (skipDigits_split r) as (whole & Ewhole & Fwhole).
    assert (Fc : coordinateText (String c ""%string)).
    { repeat constructor. unfold coordinateChar. rewrite D. reflexivity. }
    destruct (Gateway.skipDigits r) as [ | d r'] eqn:S.
    - subst rest. cbn [Gateway.skipDigits]. exists (String c whole).
      split; [cbn [String.append]; rewrite <- Ewhole; reflexivity | ].
      split; [discriminate | ]. apply (coordinateText_app (String c "")); assumption.
    - destruct (Ascii.eqb d ".") eqn:Dot.
      + apply Ascii.eqb_eq in Dot. subst d.
        destruct (skipDigits_split r') as (fraction & Efraction & Ffraction).
        rewrite H in Efraction.
        exists (String c (whole ++ String "." fraction)). split.
        * cbn [String.append]. f_equal. rewrite Ewhole at 1.
          rewrite append_assoc. cbn [String.append]. rewrite <- Efraction.
          reflexivity.
        * split; [discriminate | ].
          apply (coordinateText_app (String c "")); [exact Fc | ].
          apply coordinateText_app; [exact Fwhole | ].
          apply (coordinateText_app (String "." "")); [repeat constructor | exact Ffraction].
      + cbn [Gateway.skipDigits] in H.
        destruct (Gateway.isDigit d) eqn:Dd.
        * (* the digits were all skipped: [d] is no digit *)
          exfalso. clear - S Dd.
          induction r as [ | x r IH]; [discriminate | ].
          cbn [Gateway.skipDigits] in S. destruct (Gateway.isDigit x) eqn:Dx.
          -- apply IH. exact S.
          -- injection S as -> _. rewrite Dd in Dx. discriminate.
        * subst rest. exists (String c whole).
          split; [cbn [String.append]; rewrite <- Ewhole; reflexivity | ].
          split; [discriminate | ]. apply (coordinateText_app (String c "")); assumption. }
  destruct s as [ | c r]; [discriminate | ].
  destruct (Ascii.eqb c "-") eqn:M.
  - apply Ascii.eqb_eq in M. subst c. intros H. destruct (G r H) as (number & E & _ & F).
    exists (String "-" number). split; [cbn [String.append]; rewrite <- E; reflexivity | ].
    split; [discriminate | ].
    apply (coordinateText_app (String "-" "")); [repeat constructor | exact F].
  - intros H. exact (G (String c r) H).
Qed.

(** X14.  [isCoordinates] accepts a text only if it is two non-empty
    parts joined by a single comma, each part made of digits, [-] and
    [.] alone: a text with a letter or a space is never taken for
    coordinates. *)
Theorem coordinates_shape (location : string) :
  Gateway.isCoordinates location = true ->
  exists latitude longitude,
    location = (latitude ++ "," ++ longitude)%string
    /\ latitude <> ""%string /\ longitude <> ""%string
    /\ Forall (fun c => coordinateChar c = true) (list_ascii_of_string latitude)
    /\ Forall (fun c => coordinateChar c = true) (list_ascii_of_string longitude).
Proof.
  unfold Gateway.isCoordinates. intros H.
  destruct (Gateway.skipNumber location) as [after | ] eqn:First; [ | discriminate].
  rewrite leading_comma in H. destruct after as [ | c rest]; [discriminate | ].
  destruct (Ascii.eqb c ",") eqn:Comma; [ | discriminate].
  apply Ascii.eqb_eq in Comma. subst c.
  destruct (Gateway.skipNumber rest) as [[ | ? ?] | ] eqn:Second; try discriminate.
  destruct (skipNumber_split _ _ First) as (latitude & E1 & N1 & F1).
  destruct (skipNumber_split _ _ Second) as (longitude & E2 & N2 & F2).
  rewrite append_empty in E2. subst rest.
  exists latitude, longitude. split; [exact E1 | ].
  unfold coordinateText in F1, F2. tauto.
Qed.

Lemma coordinates_shape_witness :
  exists latitude longitude,
    "40.7,-74"%string = (latitude ++ "," ++ longitude)%string
    /\ latitude <> ""%string /\ longitude <> ""%string
    /\ Forall (fun c => coordinateChar c = true) (list_ascii_of_string latitude)
    /\ Forall (fun c => coordinateChar c = true) (list_ascii_of_string longitude).
Proof. apply (coordinates_shape "40.7,-74"). reflexivity. Defined.

(** A place name, and a pair written with a space, are not coordinates. *)
Remark place_names_are_not_coordinates :
  Gateway.isCoordinates "Brooklyn, NY" = false
  /\ Gateway.isCoordinates "40.7, -74" = false.
Proof. split; reflexivity. Qed.

(** ** Search results *)

Lemma orElse_truthy (a b : JSValue) : truthy b = true -> truthy (orElse a b) = true.
Proof. intros H. unfold orElse. destruct (truthy a) eqn:T; assumption. Qed.

(** X15.  [searchEntities] on a 2xx response with a JSON body: without
    [results] (or with a falsy one) it returns no entity; with an array
    of items none of which is [null] it returns one entity per item, in
    order, with the item's [entity_id] as id and the first of its
    [types] (else 'unknown') as type, so every entity has a type; a
    [null] body, a [null] item, and [results] that are truthy without
    being an array make it throw a [TypeError]. *)
Theorem search_normalization (numberToString : float -> string)
    (fetch : Gateway.Url -> Result Gateway.Response) (query : string)
    (types : option (list string)) (options : SearchOptions)
    (response : Gateway.Response) (body : JSValue) :
  fetch (Gateway.buildUrl numberToString "/search"
           (Gateway.searchRequestParams query types options)) = Ok response ->
  Gateway.ok response = true ->
  Gateway.json response = Ok body ->
  let found := Gateway.searchEntities numberToString fetch query types options in
  let entityOf (item : JSValue) :=
    JObj [ ("id", prop item "entity_id"); ("name", prop item "name");
           ("type", orElse (optFirst (prop item "types")) (JStr "unknown"));
           ("affinity", prop item "affinity");
           ("properties", prop item "properties") ]%string in
  (isNullish body = false -> truthy (prop body "results") = false -> found = Ok [])
  /\ (forall items,
        prop body "results" = JArr items ->
        Forall (fun item => isNullish item = false) items ->
        found = Ok (map entityOf items)
        /\ Forall (fun entity => truthy (prop entity "type") = true) (map entityOf items))
  /\ (isNullish body = true -> exists msg, found = Err (TypeError msg))
  /\ (forall before item after,
        prop body "results" = JArr (before ++ item :: after) ->
        isNullish item = true ->
        exists msg, found = Err (TypeError msg))
  /\ (truthy (prop body "results") = true -> isArray (prop body "results") = false ->
      exists msg, found = Err (TypeError msg)).
Proof.
  intros Hfetch Hok Hjson found entityOf.
  assert (E : found
              = match getProp body "results" with
                | Err e => Err e
                | Ok results =>
                    match orElse results (JArr []) with
                    | JArr items => mapResult Gateway.searchEntity items
                    | _ => Err (TypeError "(response.results || []).map is not a function")
                    end
                end).
  { unfold found, Gateway.searchEntities, Gateway.makeRequest.
    rewrite Hfetch, Hok, Hjson. reflexivity. }
  rewrite E. clear E found Hfetch Hok Hjson. unfold getProp, cannotRead.
  assert (M : forall items,
             Forall (fun item => isNullish item = false) items ->
             mapResult Gateway.searchEntity items = Ok (map entityOf items)).
  { induction 1 as [ | item rest N _ IH]; [reflexivity | ].
    cbn [mapResult map]. unfold Gateway.searchEntity at 1. rewrite N, IH. reflexivity. }
  assert (T : forall before item after,
             isNullish item = true ->
             exists msg,
               mapResult Gateway.searchEntity (before ++ item :: after) = Err (TypeError msg)).
  { intros before item after N. induction before as [ | first rest IH].
    - cbn [app mapResult]. unfold Gateway.searchEntity at 1, cannotRead. rewrite N. eauto.
    - cbn [app mapResult]. destruct IH as [msg IH]. rewrite IH.
      unfold Gateway.searchEntity at 1, cannotRead. destruct (isNullish first); eauto. }
  split; [ | split; [ | split; [ | split]]].
  - intros N F. rewrite N. unfold orElse. rewrite F. reflexivity.
  - intros items R Hitems.
    assert (N : isNullish body = false) by (destruct body; try reflexivity; discriminate).
    rewrite N, R. cbn [orElse truthy]. split; [apply M; exact Hitems | ].
    apply Forall_forall. intros entity H. apply in_map_iff in H. destruct H as (item & <- & _).
    unfold entityOf. cbn. apply orElse_truthy. reflexivity.
  - intros N. rewrite N. eauto.
  - intros before item after R N.
    assert (B : isNullish body = false) by (destruct body; try reflexivity; discriminate).
    rewrite B, R. cbn [orElse truthy]. apply T. exact N.
  - intros F A.
    assert (B : isNullish body = false) by (destruct body; try reflexivity; discriminate).
    rewrite B. unfold orElse. rewrite F.
    destruct (prop body "results"); try discriminate; eauto.
Qed.

Lemma search_normalization_witness :
  let item := JObj [ ("entity_id", JStr "E1"); ("name", JStr "Blue Note");
                     ("types", JArr [JStr "urn:entity:place"]) ]%string in
  Gateway.searchEntities Gateway.showWhole
    (Examples.replying (JObj [("results"%string, JArr [item])])) "jazz" None (takeOnly 3)
  = Ok [ JObj [ ("id", JStr "E1"); ("name", JStr "Blue Note");
                ("type", JStr "urn:entity:place"); ("affinity", JUndefined);
                ("properties", JUndefined) ]%string ].
Proof.
  intros item.
  destruct (search_normalization Gateway.showWhole
              (Examples.replying (JObj [("results"%string, JArr [item])]))
              "jazz" None (takeOnly 3) _ _ eq_refl eq_refl eq_refl) as (_ & H & _).
  apply (H [item]); [reflexivity | repeat constructor].
Defined.

(** ** The other endpoints *)

Lemma join_strings (numberToString : float -> string) (xs : list string) :
  String.concat "," (map (elementText numberToString) (map JStr xs)) = String.concat "," xs.
Proof.
  f_equal. rewrite map_map. cbn [elementText Gateway.toString]. apply map_id.
Qed.

Lemma tagParams_wellFormed (query : option string) (options : Endpoints.TagOptions) :
  wellFormed
    [ ("take"%string, JNum (numberOr (Endpoints.tagTake options) 20));
      ("page"%string, JNum (numberOr (Endpoints.tagPage options) 1)) ]
    (Endpoints.tagParams query options).
Proof. cbv delta [Endpoints.tagParams]. well_formed. Qed.

Lemma audienceParams_wellFormed (options : Endpoints.AudienceOptions) :
  wellFormed
    [ ("take"%string, JNum (numberOr (Endpoints.audienceTake options) 20));
      ("page"%string, JNum (numberOr (Endpoints.audiencePage options) 1)) ]
    (Endpoints.audienceParams options).
Proof. cbv delta [Endpoints.audienceParams]. well_formed. Qed.

Lemma compareParams_wellFormed (groupA groupB : list string)
    (options : Endpoints.CompareOptions) :
  wellFormed
    [ ("a.signal.interests.entities"%string, Gateway.strings groupA);
      ("b.signal.interests.entities"%string, Gateway.strings groupB);
      ("take"%string, JNum (numberOr (Endpoints.compareTake options) 20));
      ("page"%string, JNum (numberOr (Endpoints.comparePage options) 1)) ]
    (Endpoints.compareParams groupA groupB options).
Proof. cbv delta [Endpoints.compareParams]. well_formed. Qed.

(** X16.  The request of [compareEntities], for every two groups: it
    starts with both groups, each as one comma-joined text, then [take]
    and [page]; a group is sent even when it is empty (as an empty
    text), unlike the signals of an insight query; no key is sent
    twice. *)
Theorem compare_request (numberToString : float -> string) (groupA groupB : list string)
    (options : Endpoints.CompareOptions) :
  let params := Endpoints.compareParams groupA groupB options in
  let sent :=
    Gateway.searchParams (Gateway.buildUrl numberToString "/v2/insights/compare" params) in
  firstn 4 sent
  = [ ("a.signal.interests.entities", String.concat "," groupA);
      ("b.signal.interests.entities", String.concat "," groupB);
      ("take", numberToString (numberOr (Endpoints.compareTake options) 20));
      ("page", numberToString (numberOr (Endpoints.comparePage options) 1)) ]%string
  /\ NoDup (map fst sent)
  /\ In ("a.signal.interests.entities"%string, ""%string)
        (Gateway.searchParams
           (Gateway.buildUrl numberToString "/v2/insights/compare"
              (Endpoints.compareParams [] groupB options))).
Proof.
  cbv zeta.
  destruct (wellFormed_sent numberToString "/v2/insights/compare" _ _
              (compareParams_wellFormed groupA groupB options)) as (D & V & K & rest & S).
  split; [ | split].
  - rewrite S. cbn [flat_map app entryPairs Spec.entryPairs snd fst Gateway.strings firstn].
    rewrite !join_strings. reflexivity.
  - rewrite K. exact D.
  - destruct (wellFormed_sent numberToString "/v2/insights/compare" _ _
                (compareParams_wellFormed [] groupB options)) as (_ & _ & _ & rest' & S').
    rewrite S'. left. reflexivity.
Qed.

(** An insight query with an empty list of entity signals sends none. *)
Remark empty_signal_is_not_sent (numberToString : float -> string) (filterType : string) :
  ~ In "signal.interests.entities"%string
      (map fst (Gateway.searchParams
                  (Gateway.buildUrl numberToString "/v2/insights"
                     (Gateway.insightParams
                        {| filterType := filterType;
                           signals := Some {| signalEntities := Some [];
                                              signalTags := None;
                                              signalDemographics := None;
                                              signalLocation := None |};
                           filters := None; take := None; page := None;
                           explainability := None |})))).
Proof. cbn. intuition discriminate. Qed.

Lemma trendParams_wellFormed (entityType : string) (options : Endpoints.TrendOptions) :
  wellFormed
    [ ("type"%string, JStr entityType);
      ("take"%string, JNum (numberOr (Endpoints.trendTake options) 20));
      ("page"%string, JNum (numberOr (Endpoints.trendPage options) 1)) ]
    (Endpoints.trendParams entityType options).
Proof.
  exists []. split; [reflexivity | ]. split.
  - cbn. repeat constructor; cbn; intuition discriminate.
  - repeat constructor.
Qed.

Lemma lookup_first (first params : Gateway.Params) (key : string) (value : float) :
  wellFormed first params -> lookup key first = JNum value -> lookup key params = JNum value.
Proof.
  intros (rest & -> & _ & _). clear.
  induction first as [ | [k v] first IH]; [discriminate | ].
  cbn [app lookup]. destruct (String.eqb k key); [tauto | exact IH].
Qed.

Ltac paginated show endpoint W :=
  let D := fresh "D" in
  let K := fresh "K" in
  let rest := fresh "rest" in
  let S := fresh "S" in
  split; [ | split; [ | split; [ | split; [ | split; [ | split]]]]];
  [ apply (lookup_first _ _ _ _ W); reflexivity
  | apply (lookup_first _ _ _ _ W); reflexivity
  | destruct (wellFormed_sent show endpoint _ _ W) as (_ & _ & _ & rest & S); rewrite S;
    apply in_or_app; left;
    cbn [flat_map app entryPairs Spec.entryPairs snd fst Gateway.toString Gateway.strings In];
    repeat (first [left; reflexivity | right])
  | destruct (wellFormed_sent show endpoint _ _ W) as (_ & _ & _ & rest & S); rewrite S;
    apply in_or_app; left;
    cbn [flat_map app entryPairs Spec.entryPairs snd fst Gateway.toString Gateway.strings In];
    repeat (first [left; reflexivity | right])
  | erewrite lookup_first; [ | exact W | reflexivity]; cbn [keptNumber];
    apply numberOr_kept; reflexivity
  | erewrite lookup_first; [ | exact W | reflexivity]; cbn [keptNumber];
    apply numberOr_kept; reflexivity
  | destruct (wellFormed_sent show endpoint _ _ W) as (D & _ & K & _); rewrite K; exact D ].

(** X17.  The [take] and [page] of the requests for tags, audiences,
    comparisons and trends: the option given, unless it is missing,
    zero or [NaN]; then 20, respectively 1.  So neither is ever [0] or
    [NaN].  Both travel as the text of that number, and no key of these
    requests is sent twice. *)
Theorem pagination_defaults (numberToString : float -> string) (endpoint : string)
    (query : option string) (tagOptions : Endpoints.TagOptions)
    (audienceOptions : Endpoints.AudienceOptions)
    (groupA groupB : list string) (compareOptions : Endpoints.CompareOptions)
    (entityType : string) (trendOptions : Endpoints.TrendOptions) :
  let replaced (given : option float) (default : float) :=
    match given with
    | Some n => if (negb (n =? 0) && (n =? n))%float then n else default
    | None => default
    end in
  Forall
    (fun request : Gateway.Params * option float * option float =>
       let params := fst (fst request) in
       let takeGiven := snd (fst request) in
       let pageGiven := snd request in
       let sent := Gateway.searchParams (Gateway.buildUrl numberToString endpoint params) in
       lookup "take" params = JNum (replaced takeGiven 20%float)
       /\ lookup "page" params = JNum (replaced pageGiven 1%float)
       /\ In ("take"%string, numberToString (replaced takeGiven 20%float)) sent
       /\ In ("page"%string, numberToString (replaced pageGiven 1%float)) sent
       /\ keptNumber (lookup "take" params) = true
       /\ keptNumber (lookup "page" params) = true
       /\ NoDup (map fst sent))
    [ (Endpoints.tagParams query tagOptions,
       Endpoints.tagTake tagOptions, Endpoints.tagPage tagOptions);
      (Endpoints.audienceParams audienceOptions,
       Endpoints.audienceTake audienceOptions, Endpoints.audiencePage audienceOptions);
      (Endpoints.compareParams groupA groupB compareOptions,
       Endpoints.compareTake compareOptions, Endpoints.comparePage compareOptions);
      (Endpoints.trendParams entityType trendOptions,
       Endpoints.trendTake trendOptions, Endpoints.trendPage trendOptions) ].
Proof.
  cbv zeta.
  pose proof (tagParams_wellFormed query tagOptions) as Tags.
  pose proof (audienceParams_wellFormed audienceOptions) as Audiences.
  pose proof (compareParams_wellFormed groupA groupB compareOptions) as Compare.
  pose proof (trendParams_wellFormed entityType trendOptions) as Trends.
  apply Forall_cons; [ | apply Forall_cons; [ | apply Forall_cons; [ | apply Forall_cons]]];
    cbn [fst snd].
  - paginated numberToString endpoint Tags.
  - paginated numberToString endpoint Audiences.
  - paginated numberToString endpoint Compare.
  - paginated numberToString endpoint Trends.
  - apply Forall_nil.
Qed.

(** X25.  The results of the other endpoints, when every request is
    answered 2xx with the JSON body [body]: [compareEntities] returns
    the body as it is, [null] included; [searchTags], [findAudiences]
    and [getTrendingEntities] return its [results] when that is truthy
    and an empty array otherwise, and throw a [TypeError] when the body
    is [null]. *)
Theorem endpoint_results (numberToString : float -> string)
    (fetch : Gateway.Url -> Result Gateway.Response) (response : Gateway.Response)
    (body : JSValue) (query : option string) (tagOptions : Endpoints.TagOptions)
    (audienceOptions : Endpoints.AudienceOptions) (groupA groupB : list string)
    (compareOptions : Endpoints.CompareOptions) (entityType : string)
    (trendOptions : Endpoints.TrendOptions) :
  (forall url, fetch url = Ok response) ->
  Gateway.ok response = true ->
  Gateway.json response = Ok body ->
  let listed :=
    [ Endpoints.searchTags numberToString fetch query tagOptions;
      Endpoints.findAudiences numberToString fetch audienceOptions;
      Endpoints.getTrendingEntities numberToString fetch entityType trendOptions ] in
  Endpoints.compareEntities numberToString fetch groupA groupB compareOptions = Ok body
  /\ (isNullish body = true ->
      Forall (fun result => exists msg, result = Err (TypeError msg)) listed)
  /\ (isNullish body = false ->
      Forall (fun result =>
                result = Ok (if truthy (prop body "results") then prop body "results"
                             else JArr []))
             listed).
Proof.
  intros Hfetch Hok Hjson. cbv zeta.
  unfold Endpoints.compareEntities, Endpoints.searchTags, Endpoints.findAudiences,
    Endpoints.getTrendingEntities, Gateway.makeRequest.
  rewrite !Hfetch, Hok, Hjson. cbn [negb].
  unfold Endpoints.resultsOrNone, getProp, cannotRead, orElse.
  split; [reflexivity | split]; intros N; rewrite N; repeat constructor; eauto.
Qed.

Lemma endpoint_results_witness :
  Endpoints.compareEntities Gateway.showWhole (Examples.replying JNull) ["a"%string] []
    {| Endpoints.compareFilterType := None; Endpoints.compareTake := None;
       Endpoints.comparePage := None |}
  = Ok JNull
  /\ exists msg,
       Endpoints.searchTags Gateway.showWhole (Examples.replying JNull) (Some "yoga"%string)
         {| Endpoints.tagTypes := None; Endpoints.tagTake := None;
            Endpoints.tagPage := None |}
       = Err (TypeError msg).
Proof.
  destruct (endpoint_results Gateway.showWhole (Examples.replying JNull) _ JNull
              (Some "yoga"%string)
              {| Endpoints.tagTypes := None; Endpoints.tagTake := None;
                 Endpoints.tagPage := None |}
              {| Endpoints.audienceTypes := None; Endpoints.audienceTake := None;
                 Endpoints.audiencePage := None |}
              ["a"%string] []
              {| Endpoints.compareFilterType := None; Endpoints.compareTake := None;
                 Endpoints.comparePage := None |}
              "" {| Endpoints.trendTake := None; Endpoints.trendPage := None |}
              (fun _ => eq_refl) eq_refl eq_refl) as (C & N & _).
  split; [exact C | ].
  specialize (N eq_refl). inversion N as [ | ? ? H _]. exact H.
Defined.

(** ** The projects of the architect *)

(** X18.  [generateCulturallyAwareProjects] sends the same query for
    each of its four project types, so with a service whose replies do
    not depend on the calls made before, the projects are all or
    nothing: when the query fails there is no project, otherwise there
    are four, named Discovery, Execution, Community and Learning
    Project, all with the same entities and the same score.  In both
    cases the call succeeds after four queries. *)
Theorem projects_all_or_nothing (qloo : Upstream) (goal : string)
    (userEntities goalEntities : list QlooEntity) (context : ProjectContext) (log : Log) :
  (forall before before' options,
      insightsReply qloo before options = insightsReply qloo before' options) ->
  let query := projectQuery userEntities context in
  generateCulturallyAwareProjects qloo goal userEntities goalEntities context log
  = (Ok match insightsReply qloo log query with
        | Ok response =>
            map (fun projectName =>
                   {| projectName := projectName;
                      culturalAlignment := results response;
                      affinityScore := calculateAverageAffinity (results response) |})
                [ "Discovery Project"; "Execution Project"; "Community Project";
                  "Learning Project" ]%string
        | Err _ => []
        end,
     log ++ repeat (GetInsights query) 4).
Proof.
  intros Stateless query. rewrite projects_never_throw. fold query. f_equal. f_equal.
  unfold projectTypes. cbn [projectsOf].
  repeat match goal with
         | |- context [insightsReply qloo (?l ++ ?c) query] =>
             rewrite (Stateless (l ++ c) log query)
         end.
  destruct (insightsReply qloo log query) as [response | e]; reflexivity.
Qed.

Lemma projects_all_or_nothing_witness :
  generateCulturallyAwareProjects Examples.healthy "run a marathon" [] []
    Examples.fitnessContext []
  = (Ok (map (fun projectName =>
                {| projectName := projectName;
                   culturalAlignment :=
                     [Examples.entity "Prospect Park" PLACE (Some 0.9%float)];
                   affinityScore := 0.9%float |})
             [ "Discovery Project"; "Execution Project"; "Community Project";
               "Learning Project" ]%string),
     repeat (GetInsights (projectQuery [] Examples.fitnessContext)) 4).
Proof.
  apply (projects_all_or_nothing Examples.healthy "run a marathon" [] []
           Examples.fitnessContext []).
  intros before before' options. reflexivity.
Defined.

(** ** The layout of an insight request *)

Lemma assign_fresh (key : string) (value : JSValue) (params : Gateway.Params) :
  fresh key params -> Gateway.assign key value params = params ++ [(key, value)].
Proof. unfold fresh, Gateway.assign. intros ->. reflexivity. Qed.

Lemma fresh_app (key : string) (p q : Gateway.Params) :
  fresh key p -> fresh key q -> fresh key (p ++ q).
Proof. unfold fresh. intros Hp Hq. rewrite existsb_app, Hp, Hq. reflexivity. Qed.

Lemma fresh_single (key other : string) (value : JSValue) :
  String.eqb other key = false -> fresh key [(other, value)].
Proof. unfold fresh. cbn [existsb fst]. intros ->. reflexivity. Qed.

Lemma fresh_nil (key : string) : fresh key [].
Proof. reflexivity. Qed.

Lemma fresh_listEntry (key other : string) (xs : option (list string)) :
  String.eqb other key = false -> fresh key (listEntry other xs).
Proof. intros H. destruct xs as [[ | x rest] | ]; try reflexivity. apply fresh_single, H. Qed.

Lemma fresh_textEntry (key other : string) (s : option string) :
  String.eqb other key = false -> fresh key (textEntry other s).
Proof.
  intros H. destruct s as [t | ]; [ | reflexivity]. unfold textEntry.
  destruct (truthyString t); [apply fresh_single, H | reflexivity].
Qed.

Lemma fresh_numberEntry (key other : string) (n : option float) :
  String.eqb other key = false -> fresh key (numberEntry other n).
Proof.
  intros H. destruct n as [x | ]; [ | reflexivity]. unfold numberEntry.
  destruct (truthyNumber x); [apply fresh_single, H | reflexivity].
Qed.

Lemma fresh_boundEntry (key other : string) (n : option float) :
  String.eqb other key = false -> fresh key (boundEntry other n).
Proof. intros H. destruct n as [x | ]; [apply fresh_single, H | reflexivity]. Qed.

Lemma fresh_rangeEntries (key prefix : string) (r : option Range) :
  String.eqb (prefix ++ ".min") key = false -> String.eqb (prefix ++ ".max") key = false ->
  fresh key (rangeEntries prefix r).
Proof.
  intros Hmin Hmax. destruct r as [range | ]; [ | reflexivity].
  apply fresh_app; apply fresh_boundEntry; assumption.
Qed.

Ltac freshness :=
  repeat first
    [ apply fresh_nil
    | apply fresh_app
    | assumption
    | apply fresh_listEntry; first [reflexivity | assumption]
    | apply fresh_textEntry; first [reflexivity | assumption]
    | apply fresh_numberEntry; first [reflexivity | assumption]
    | apply fresh_rangeEntries; first [reflexivity | assumption]
    | lazymatch goal with
      | |- fresh _ (match ?x with _ => _ end) => destruct x
      | |- fresh _ (_ :: _) => reflexivity
      end ].

Lemma list_step (key : string) (xs : option (list string)) (params : Gateway.Params) :
  fresh key params ->
  match xs with
  | Some (x :: rest) => Gateway.assign key (Gateway.strings (x :: rest)) params
  | _ => params
  end
  = params ++ listEntry key xs.
Proof.
  intros H. destruct xs as [[ | x rest] | ]; cbn [listEntry]; rewrite ?app_nil_r;
    try reflexivity.
  apply assign_fresh, H.
Qed.

Lemma text_step (key : string) (s : option string) (params : Gateway.Params) :
  fresh key params ->
  match s with
  | Some t => Gateway.assignIf (truthyString t) key (JStr t) params
  | None => params
  end
  = params ++ textEntry key s.
Proof.
  intros H. destruct s as [t | ]; cbn [textEntry]; [ | rewrite app_nil_r; reflexivity].
  unfold Gateway.assignIf. destruct (truthyString t); [apply assign_fresh, H | ].
  rewrite app_nil_r. reflexivity.
Qed.

Lemma number_step (key : string) (n : option float) (params : Gateway.Params) :
  fresh key params ->
  match n with
  | Some x => Gateway.assignIf (truthyNumber x) key (JNum x) params
  | None => params
  end
  = params ++ numberEntry key n.
Proof.
  intros H. destruct n as [x | ]; cbn [numberEntry]; [ | rewrite app_nil_r; reflexivity].
  unfold Gateway.assignIf. destruct (truthyNumber x); [apply assign_fresh, H | ].
  rewrite app_nil_r. reflexivity.
Qed.

Lemma range_step (prefix : string) (r : option Range) (params : Gateway.Params) :
  fresh (prefix ++ ".min") params -> fresh (prefix ++ ".max") params ->
  String.eqb (prefix ++ ".min") (prefix ++ ".max") = false ->
  Gateway.rangeParams prefix r params = params ++ rangeEntries prefix r.
Proof.
  intros Hmin Hmax D. unfold Gateway.rangeParams, rangeEntries.
  destruct r as [[low high] | ]; [ | rewrite app_nil_r; reflexivity]. cbn [min max].
  destruct low as [l | ], high as [h | ]; cbn [boundEntry app]; rewrite ?app_nil_r;
    try reflexivity.
  - rewrite (assign_fresh _ _ params Hmin), assign_fresh, <- app_assoc; [reflexivity | ].
    apply fresh_app; [exact Hmax | apply fresh_single, D].
  - apply assign_fresh, Hmin.
  - apply assign_fresh, Hmax.
Qed.

Lemma location_step (q c : option string) (params : Gateway.Params) :
  fresh "signal.location.query" params -> fresh "signal.location" params ->
  (if truthyText q then
     match q with
     | Some text => Gateway.assign "signal.location.query" (JStr text) params
     | None => params
     end
   else if truthyText c then
     match c with
     | Some text => Gateway.assign "signal.location" (JStr text) params
     | None => params
     end
   else params)
  = params ++ (if truthyText q then textEntry "signal.location.query" q
               else textEntry "signal.location" c).
Proof.
  intros Hq Hc. destruct q as [q | ], c as [c | ]; cbn [truthyText textEntry];
    repeat match goal with
           | |- context [truthyString ?t] => destruct (truthyString t)
           end;
    rewrite ?app_nil_r; try reflexivity; apply assign_fresh; assumption.
Qed.

(** Replace the expression bound by the first [let] and unfold that [let]. *)
Ltac head_let :=
  lazymatch goal with
  | |- (let params := ?e in @?b params) = ?R => change (b e = R); cbv beta
  end.

Lemma signals_layout (s : Signals) (params : Gateway.Params) :
  (forall key, In key [ "signal.interests.entities"; "signal.interests.tags";
                        "signal.demographics.age"; "signal.demographics.gender";
                        "signal.demographics.audiences"; "signal.location.query";
                        "signal.location"; "signal.location.radius" ]%string ->
               fresh key params) ->
  (let params :=
     match signalEntities s with
     | Some (e :: es) =>
         Gateway.assign "signal.interests.entities" (Gateway.strings (e :: es)) params
     | _ => params
     end in
   let params :=
     match signalTags s with
     | Some (t :: ts) => Gateway.assign "signal.interests.tags" (Gateway.strings (t :: ts)) params
     | _ => params
     end in
   let params :=
     match signalDemographics s with
     | None => params
     | Some d =>
         let params :=
           match signalAge d with
           | Some a =>
               Gateway.assignIf (truthyString a) "signal.demographics.age" (JStr a) params
           | None => params
           end in
         let params :=
           match signalGender d with
           | Some g =>
               Gateway.assignIf (truthyString g) "signal.demographics.gender" (JStr g) params
           | None => params
           end in
         match audiences d with
         | Some (a :: l) =>
             Gateway.assign "signal.demographics.audiences" (Gateway.strings (a :: l)) params
         | _ => params
         end
     end in
   match signalLocation s with
   | None => params
   | Some l =>
       let params :=
         if truthyText (signalQuery l) then
           match signalQuery l with
           | Some q => Gateway.assign "signal.location.query" (JStr q) params
           | None => params
           end
         else if truthyText (signalCoordinates l) then
           match signalCoordinates l with
           | Some c => Gateway.assign "signal.location" (JStr c) params
           | None => params
           end
         else params in
       match signalRadius l with
       | Some r => Gateway.assignIf (truthyNumber r) "signal.location.radius" (JNum r) params
       | None => params
       end
   end)
  = params ++ signalEntries s.
Proof.
  intros F. cbv delta [signalEntries]. cbv beta.
  assert (F1 := F _ (or_introl eq_refl)).
  assert (F2 := F _ (or_intror (or_introl eq_refl))).
  assert (F3 := F _ (or_intror (or_intror (or_introl eq_refl)))).
  assert (F4 := F _ (or_intror (or_intror (or_intror (or_introl eq_refl))))).
  assert (F5 := F _ (or_intror (or_intror (or_intror (or_intror (or_introl eq_refl)))))).
  assert (F6 := F _ (or_intror (or_intror (or_intror (or_intror (or_intror
                       (or_introl eq_refl))))))).
  assert (F7 := F _ (or_intror (or_intror (or_intror (or_intror (or_intror (or_intror
                       (or_introl eq_refl)))))))).
  assert (F8 := F _ (or_intror (or_intror (or_intror (or_intror (or_intror (or_intror
                       (or_intror (or_introl eq_refl))))))))).
  clear F.
  rewrite list_step by exact F1. head_let.
  rewrite list_step by (freshness; assumption). head_let.
  remember ((params ++ listEntry "signal.interests.entities" (signalEntities s))
              ++ listEntry "signal.interests.tags" (signalTags s)) as p2 eqn:E2.
  assert (P2 : forall key, fresh key params ->
                           String.eqb "signal.interests.entities" key = false ->
                           String.eqb "signal.interests.tags" key = false ->
                           fresh key p2).
  { intros key H K1 K2. subst p2. freshness. }
  assert (D : match signalDemographics s with
              | None => p2
              | Some d =>
                  let params :=
                    match signalAge d with
                    | Some a =>
                        Gateway.assignIf (truthyString a) "signal.demographics.age" (JStr a) p2
                    | None => p2
                    end in
                  let params :=
                    match signalGender d with
                    | Some g =>
                        Gateway.assignIf (truthyString g) "signal.demographics.gender"
                          (JStr g) params
                    | None => params
                    end in
                  match audiences d with
                  | Some (a :: l) =>
                      Gateway.assign "signal.demographics.audiences"
                        (Gateway.strings (a :: l)) params
                  | _ => params
                  end
              end
              = p2 ++ match signalDemographics s with
                      | None => []
                      | Some d =>
                          textEntry "signal.demographics.age" (signalAge d)
                          ++ textEntry "signal.demographics.gender" (signalGender d)
                          ++ listEntry "signal.demographics.audiences" (audiences d)
                      end).
  { destruct (signalDemographics s) as [d | ]; [ | rewrite app_nil_r; reflexivity].
    rewrite text_step by (apply P2; [assumption | reflexivity | reflexivity]). head_let.
    rewrite text_step
      by (apply fresh_app; [apply P2; [assumption | reflexivity | reflexivity] | freshness]).
    head_let.
    rewrite list_step
      by (apply fresh_app;
          [apply fresh_app; [apply P2; [assumption | reflexivity | reflexivity] | ] | ];
          freshness).
    rewrite <- !app_assoc. reflexivity. }
  rewrite D. clear D. head_let.
  remember (p2 ++ match signalDemographics s with
                   | None => []
                   | Some d =>
                       textEntry "signal.demographics.age" (signalAge d)
                       ++ textEntry "signal.demographics.gender" (signalGender d)
                       ++ listEntry "signal.demographics.audiences" (audiences d)
                   end) as p3 eqn:E3.
  assert (P3 : forall key, fresh key p2 ->
                           String.eqb "signal.demographics.age" key = false ->
                           String.eqb "signal.demographics.gender" key = false ->
                           String.eqb "signal.demographics.audiences" key = false ->
                           fresh key p3).
  { intros key H K1 K2 K3. subst p3. apply fresh_app; [exact H | ].
    destruct (signalDemographics s); freshness. }
  assert (Q6 : fresh "signal.location.query" p3)
    by (apply P3; [apply P2; [assumption | reflexivity | reflexivity] | reflexivity ..]).
  assert (Q7 : fresh "signal.location" p3)
    by (apply P3; [apply P2; [assumption | reflexivity | reflexivity] | reflexivity ..]).
  assert (Q8 : fresh "signal.location.radius" p3)
    by (apply P3; [apply P2; [assumption | reflexivity | reflexivity] | reflexivity ..]).
  destruct (signalLocation s) as [l | ].
  - rewrite location_step by assumption. head_let.
    rewrite number_step.
    + subst p3 p2. rewrite <- !app_assoc. reflexivity.
    + apply fresh_app; [exact Q8 | ].
      destruct (truthyText (signalQuery l)); freshness.
  - subst p3 p2. rewrite app_nil_r, <- !app_assoc. reflexivity.
Qed.

Lemma filters_layout (f : Filters) (params : Gateway.Params) :
  (forall key, In key [ "filter.location.query"; "filter.tags";
                        "filter.price_level.min"; "filter.price_level.max";
                        "filter.popularity.min"; "filter.popularity.max";
                        "filter.rating.min"; "filter.rating.max" ]%string ->
               fresh key params) ->
  (let params :=
     match filterLocation f with
     | Some l => Gateway.assignIf (truthyString l) "filter.location.query" (JStr l) params
     | None => params
     end in
   let params :=
     match filterTags f with
     | Some (t :: ts) => Gateway.assign "filter.tags" (Gateway.strings (t :: ts)) params
     | _ => params
     end in
   let params := Gateway.rangeParams "filter.price_level" (priceLevel f) params in
   let params := Gateway.rangeParams "filter.popularity" (popularity f) params in
   Gateway.rangeParams "filter.rating" (rating f) params)
  = params ++ filterEntries f.
Proof.
  intros F. cbv delta [filterEntries]. cbv beta.
  assert (F1 := F _ (or_introl eq_refl)).
  assert (F2 := F _ (or_intror (or_introl eq_refl))).
  assert (F3 := F _ (or_intror (or_intror (or_introl eq_refl)))).
  assert (F4 := F _ (or_intror (or_intror (or_intror (or_introl eq_refl))))).
  assert (F5 := F _ (or_intror (or_intror (or_intror (or_intror (or_introl eq_refl)))))).
  assert (F6 := F _ (or_intror (or_intror (or_intror (or_intror (or_intror
                       (or_introl eq_refl))))))).
  assert (F7 := F _ (or_intror (or_intror (or_intror (or_intror (or_intror (or_intror
                       (or_introl eq_refl)))))))).
  assert (F8 := F _ (or_intror (or_intror (or_intror (or_intror (or_intror (or_intror
                       (or_intror (or_introl eq_refl))))))))).
  clear F.
  rewrite text_step by exact F1. head_let.
  rewrite list_step by freshness. head_let.
  rewrite (range_step "filter.price_level") by (first [reflexivity | freshness]). head_let.
  rewrite (range_step "filter.popularity") by (first [reflexivity | freshness]). head_let.
  rewrite (range_step "filter.rating") by (first [reflexivity | freshness]).
  rewrite <- !app_assoc. reflexivity.
Qed.

Lemma insightParams_layout (options : InsightOptions) :
  Gateway.insightParams options = insightEntries options.
Proof.
  cbv delta [Gateway.insightParams insightEntries]. cbv beta. head_let.
  set (base := [ ("filter.type"%string, JStr (filterType options));
                 ("take"%string, JNum (numberOr (take options) 20));
                 ("page"%string, JNum (numberOr (page options) 1)) ]).
  lazymatch goal with
  | |- (let params := ?e in _) = _ =>
      assert (S : e = base ++ match signals options with
                              | Some s => signalEntries s
                              | None => []
                              end)
  end.
  { destruct (signals options) as [s | ]; [ | rewrite app_nil_r; reflexivity].
    apply signals_layout. intros key H. cbn [In] in H.
    repeat (destruct H as [<- | H]; [reflexivity | ]). contradiction. }
  rewrite S. clear S. head_let.
  remember (base ++ match signals options with
                    | Some s => signalEntries s
                    | None => []
                    end) as p1 eqn:E1.
  assert (P1 : forall key,
             fresh key base ->
             (forall s, fresh key (signalEntries s)) ->
             fresh key p1).
  { intros key Hb Hs. subst p1. apply fresh_app; [exact Hb | ].
    destruct (signals options); [apply Hs | reflexivity]. }
  assert (G : forall key s,
             String.eqb "signal." (String.substring 0 7 key) = false ->
             fresh key (signalEntries s)).
  { intros key s H. cbv delta [signalEntries]. cbv beta.
    assert (N : forall other,
               String.eqb "signal." (String.substring 0 7 other) = true ->
               String.eqb other key = false).
    { intros other Ho. destruct (String.eqb other key) eqn:E; [ | reflexivity].
      apply String.eqb_eq in E. subst other. rewrite Ho in H. discriminate. }
    repeat first
      [ apply fresh_nil
      | apply fresh_app
      | apply fresh_listEntry; apply N; reflexivity
      | apply fresh_textEntry; apply N; reflexivity
      | apply fresh_numberEntry; apply N; reflexivity
      | lazymatch goal with
        | |- fresh _ (match ?x with _ => _ end) => destruct x
        end ]. }
  lazymatch goal with
  | |- (let params := ?e in _) = _ =>
      assert (S : e = p1 ++ match filters options with
                            | Some f => filterEntries f
                            | None => []
                            end)
  end.
  { destruct (filters options) as [f | ]; [ | rewrite app_nil_r; reflexivity].
    apply filters_layout. intros key H. cbn [In] in H.
    repeat (destruct H as [<- | H];
            [apply P1; [reflexivity | intros s; apply G; reflexivity] | ]).
    contradiction. }
  rewrite S. clear S. head_let.
  assert (X : fresh "feature.explainability"
                (p1 ++ match filters options with
                       | Some f => filterEntries f
                       | None => []
                       end)).
  { apply fresh_app.
    - apply P1; [reflexivity | intros s; apply G; reflexivity].
    - destruct (filters options) as [f | ]; [ | reflexivity].
      cbv delta [filterEntries]. cbv beta. freshness. }
  subst p1.
  destruct (explainability options) as [[ | ] | ];
    rewrite ?assign_fresh by exact X; rewrite ?app_nil_r, <- ?app_assoc; reflexivity.
Qed.

(** X20.  The parameter map of an insight query is, for every query,
    the list of its entries in a fixed order: the type, [take] and
    [page]; then the signals given (entities, tags, age, gender,
    audiences, location query or else coordinates, radius); then the
    filters given (location, tags, and the bounds of price level,
    popularity and rating); then the explainability flag.  Each
    assignment adds a new entry, none replaces one; and the request
    carries these entries in this order. *)
Theorem insight_request_layout (numberToString : float -> string) (options : InsightOptions) :
  Gateway.insightParams options = insightEntries options
  /\ Gateway.searchParams
       (Gateway.buildUrl numberToString "/v2/insights" (Gateway.insightParams options))
     = flat_map (entryPairs numberToString) (insightEntries options).
Proof.
  split; [apply insightParams_layout | ].
  rewrite sent_pairs, insightParams_layout. reflexivity.
Qed.

(** ** The requests of the component tool *)

Lemma component_tool_calls (toLowerCase : string -> string) (qloo : Upstream)
    (input : Integration.ComponentInput) (log : Log) :
  newCalls log (snd (Integration.generateSmartProjectComponents toLowerCase qloo input log))
  = map GetInsights
      [ venueQuery (toolProfile input) (toolContext toLowerCase input);
        contentQuery BOOK (toolProfile input);
        toolQuery (toolProfile input);
        communityQuery (toolProfile input);
        contentQuery PODCAST (toolProfile input);
        contentQuery MOVIE (toolProfile input) ].
Proof.
  rewrite component_tool_run.
  pose proof (generateComponentRecommendations_run qloo (Integration.inputProjectType input)
                (toolProfile input) (toolContext toLowerCase input) log) as R.
  cbv zeta in R. rewrite R. cbn [snd]. apply newCalls_app.
Qed.

(** A key that is not in the map is not sent. *)
Lemma fresh_not_sent (numberToString : float -> string) (options : InsightOptions)
    (key : string) :
  fresh key (insightEntries options) ->
  ~ In key (map fst (Gateway.searchParams
                       (Gateway.buildUrl numberToString "/v2/insights"
                          (Gateway.insightParams options)))).
Proof.
  intros F.
  destruct (wellFormed_sent numberToString "/v2/insights" _ _ (insightParams_wellFormed options))
    as (_ & _ & K & _).
  rewrite K, insightParams_layout. apply key_absent. exact F.
Qed.

Lemma entry_sent (numberToString : float -> string) (options : InsightOptions)
    (entry : string * JSValue) (pair : string * string) :
  In entry (insightEntries options) ->
  entryPairs numberToString entry = [pair] ->
  In pair (Gateway.searchParams
             (Gateway.buildUrl numberToString "/v2/insights" (Gateway.insightParams options))).
Proof.
  intros H E. rewrite sent_pairs, insightParams_layout. apply in_flat_map.
  exists entry. split; [exact H | rewrite E; left; reflexivity].
Qed.

Ltac find_entry :=
  first
    [ left; reflexivity
    | apply in_or_app; left; find_entry
    | apply in_or_app; right; find_entry ].

(** X19.  What the six queries of the component tool put on the wire,
    for every input: the first five interests as one comma-joined
    [signal.interests.entities] (nothing when there is no interest);
    never coordinates and never a popularity filter; and in the venue
    query, the first one, a non-empty location both as
    [signal.location.query] and as [filter.location.query]. *)
Theorem component_requests_on_the_wire (numberToString : float -> string)
    (toLowerCase : string -> string) (qloo : Upstream)
    (input : Integration.ComponentInput) (log : Log) :
  let made :=
    newCalls log
      (snd (Integration.generateSmartProjectComponents toLowerCase qloo input log)) in
  let sent (options : InsightOptions) :=
    Gateway.searchParams
      (Gateway.buildUrl numberToString "/v2/insights" (Gateway.insightParams options)) in
  (forall options,
      In (GetInsights options) made ->
      match Integration.componentInterests input with
      | [] => ~ In "signal.interests.entities"%string (map fst (sent options))
      | interests =>
          In ("signal.interests.entities"%string, String.concat "," (firstn 5 interests))
             (sent options)
      end
      /\ ~ In "signal.location"%string (map fst (sent options))
      /\ ~ In "filter.popularity.min"%string (map fst (sent options))
      /\ ~ In "filter.popularity.max"%string (map fst (sent options)))
  /\ exists venues rest,
       made = GetInsights venues :: rest
       /\ forall location,
            Integration.componentLocation input = Some location -> location <> ""%string ->
            In ("signal.location.query"%string, location) (sent venues)
            /\ In ("filter.location.query"%string, location) (sent venues).
Proof.
  cbv zeta. rewrite component_tool_calls. split.
  - intros options H. cbn [map In] in H.
    repeat (destruct H as [H | H]; [injection H as <- | ]); try contradiction.
    all: split; [ | repeat split; apply fresh_not_sent;
                    cbv delta [insightEntries signalEntries filterEntries]; cbv beta;
                    cbn [venueQuery contentQuery toolQuery communityQuery toolProfile
                         signals filters explainability signalEntities signalTags
                         signalDemographics signalLocation filterLocation filterTags
                         priceLevel popularity rating option_map asSignalDemographics
                         asSignalLocation location demographics preferences optField
                         prefPopularity prefPriceLevel signalQuery signalCoordinates
                         signalRadius query coordinates truthyText];
                    freshness ].
    all: destruct (Integration.componentInterests input) as [ | first others] eqn:I.
    all: try (apply fresh_not_sent;
              cbv delta [insightEntries signalEntries filterEntries]; cbv beta;
              cbn [venueQuery contentQuery toolQuery communityQuery toolProfile
                   signals signalEntities slice0 interests];
              rewrite I; cbn [firstn listEntry app]; freshness).
    all: apply (entry_sent numberToString _
                  ("signal.interests.entities"%string,
                   Gateway.strings (firstn 5 (first :: others))));
      [ | cbn [entryPairs Spec.entryPairs snd fst Gateway.strings];
          rewrite join_strings; reflexivity ].
    all: cbv delta [insightEntries signalEntries]; cbv beta;
      cbn [venueQuery contentQuery toolQuery communityQuery toolProfile
           signals signalEntities slice0 interests];
      rewrite I; cbn [firstn listEntry]; find_entry.
  - eexists _, _. split; [reflexivity | ].
    intros place L N. split.
    + apply (entry_sent numberToString _ ("signal.location.query"%string, JStr place));
        [ | reflexivity].
      cbv delta [insightEntries signalEntries]. cbv beta.
      cbn [venueQuery toolProfile signals signalLocation option_map location
           asSignalLocation signalQuery query].
      rewrite L. cbn [truthyText textEntry].
      destruct place as [ | c rest]; [contradiction N; reflexivity | ].
      cbn [truthyString]. find_entry.
    + apply (entry_sent numberToString _ ("filter.location.query"%string, JStr place));
        [ | reflexivity].
      cbv delta [insightEntries filterEntries]. cbv beta.
      cbn [venueQuery toolContext filters filterLocation userLocation].
      rewrite L. cbn [textEntry].
      destruct place as [ | c rest]; [contradiction N; reflexivity | ].
      cbn [truthyString]. find_entry.
Qed.

(** ** Averages *)
Module Averages.

Local Open Scope Z_scope.

(** A positive number below [2 ^ k] has at most [k] digits. *)
Lemma digits_bound (x : positive) (k : Z) :
  0 <= k -> Zpos x < 2 ^ k -> Zpos (digits2_pos x) <= k.
Proof.
  intros Hk Hx. pose proof (digits2_pos_lower x) as L.
  destruct (Z_le_gt_dec (Zpos (digits2_pos x)) k) as [ | G]; [assumption | exfalso].
  assert (2 ^ k <= 2 ^ (Zpos (digits2_pos x) - 1)) by (apply Z.pow_le_mono_r; lia).
  lia.
Qed.

(** [q] steps of the rounding shift divide the mantissa by [2 ^ q]. *)
Lemma iter_shr_upper (q : positive) :
  forall (r : shr_record) (k : Z),
    0 <= k -> 0 <= shr_m r < 2 ^ (Zpos q + k) ->
    0 <= shr_m (iter_pos shr_1 q r) < 2 ^ k.
Proof.
  assert (step : forall r k, 0 <= k -> 0 <= shr_m r < 2 ^ (1 + k) ->
                             0 <= shr_m (shr_1 r) < 2 ^ k).
  { intros r k Hk Hr. rewrite shr_1_m by lia. rewrite Z.div2_div.
    split; [apply Z.div_pos; lia | ].
    apply Z.div_lt_upper_bound; [lia | ].
    rewrite <- Z.pow_succ_r by lia. replace (Z.succ k) with (1 + k) by lia. lia. }
  induction q as [q IH | q IH | ]; intros r k Hk Hr; simpl iter_pos.
  - apply IH; [assumption | ]. apply IH; [lia | ]. apply step; [lia | ].
    replace (1 + (Zpos q + (Zpos q + k))) with (Zpos q~1 + k) by lia. assumption.
  - apply IH; [assumption | ]. apply IH; [lia | ].
    replace (Zpos q + (Zpos q + k)) with (Zpos q~0 + k) by lia. assumption.
  - apply step; assumption.
Qed.

(** Shifting a mantissa to the format's exponent leaves fewer than 54
    digits, and an exponent that is the old one or the format's. *)
Lemma shr_fexp_bounds (m e : Z) (l : SpecFloat.location) :
  0 <= m -> emin <= e ->
  0 <= shr_m (fst (shr_fexp prec emax m e l)) < 2 ^ 53
  /\ snd (shr_fexp prec emax m e l) = Z.max e (fexp prec emax (Zdigits2 m + e)).
Proof.
  intros Hm He. unfold shr_fexp, shr.
  destruct m as [ | p | p]; try lia.
  - simpl Zdigits2.
    destruct (fexp prec emax (0 + e) - e) as [ | q | q] eqn:Hn; simpl fst; simpl snd.
    + rewrite shr_record_of_loc_m. lia.
    + split; [ | lia].
      pose proof (iter_shr_upper q (shr_record_of_loc 0 l) 0 ltac:(lia)) as U.
      rewrite shr_record_of_loc_m in U.
      assert (0 < 2 ^ (Zpos q + 0)) by (apply Z.pow_pos_nonneg; lia).
      specialize (U ltac:(lia)). change (2 ^ 0) with 1 in U.
      assert (0 < 2 ^ 53) by (apply Z.pow_pos_nonneg; lia). lia.
    + rewrite shr_record_of_loc_m. lia.
  - simpl Zdigits2. pose proof (digits2_pos_upper p) as U.
    destruct (fexp prec emax (Zpos (digits2_pos p) + e) - e) as [ | q | q] eqn:Hn;
      simpl fst; simpl snd.
    + rewrite shr_record_of_loc_m. split; [ | lia].
      unfold fexp, SpecFloat.emin, prec, emax in *.
      assert (Zpos (digits2_pos p) <= 53) by lia.
      assert (2 ^ Zpos (digits2_pos p) <= 2 ^ 53) by (apply Z.pow_le_mono_r; lia). lia.
    + split; [ | lia].
      unfold fexp, SpecFloat.emin, prec, emax in *.
      set (d := Zpos (digits2_pos p)) in *.
      assert (K : 0 <= d - Zpos q <= 53) by lia.
      pose proof (iter_shr_upper q (shr_record_of_loc (Zpos p) l) (d - Zpos q) ltac:(lia)) as B.
      rewrite shr_record_of_loc_m in B.
      replace (Zpos q + (d - Zpos q)) with d in B by lia.
      specialize (B ltac:(lia)).
      assert (2 ^ (d - Zpos q) <= 2 ^ 53) by (apply Z.pow_le_mono_r; lia). lia.
    + rewrite shr_record_of_loc_m. split; [ | lia].
      unfold fexp, SpecFloat.emin, prec, emax in *.
      assert (Zpos (digits2_pos p) <= 53) by lia.
      assert (2 ^ Zpos (digits2_pos p) <= 2 ^ 53) by (apply Z.pow_le_mono_r; lia). lia.
Qed.

Lemma round_nearest_even_upper (m : Z) (l : SpecFloat.location) :
  round_nearest_even m l <= m + 1.
Proof. destruct l as [ | [ | | ]]; simpl; try lia. destruct (Z.even m); lia. Qed.

Lemma iter_shr_nonneg (q : positive) :
  forall r : shr_record, 0 <= shr_m r -> 0 <= shr_m (iter_pos shr_1 q r).
Proof.
  assert (step : forall r, 0 <= shr_m r -> 0 <= shr_m (shr_1 r)).
  { intros r Hr. rewrite shr_1_m by assumption. rewrite Z.div2_div. apply Z.div_pos; lia. }
  induction q as [q IH | q IH | ]; intros r Hr; simpl iter_pos; auto.
Qed.

Lemma shr_fexp_nonneg (m e : Z) (l : SpecFloat.location) :
  0 <= m -> 0 <= shr_m (fst (shr_fexp prec emax m e l)).
Proof.
  intros Hm. unfold shr_fexp, shr.
  destruct (fexp prec emax (Zdigits2 m + e) - e) as [ | q | q]; simpl fst;
    [ | apply iter_shr_nonneg | ]; rewrite shr_record_of_loc_m; exact Hm.
Qed.

(** Rounding a mantissa that is not negative never gives a negative
    number or [NaN]. *)
Lemma binary_round_aux_sign (m e : Z) (l : SpecFloat.location) :
  0 <= m -> nonnegative (binary_round_aux prec emax false m e l).
Proof.
  intros Hm. unfold binary_round_aux.
  pose proof (shr_fexp_nonneg m e l Hm) as H1.
  destruct (shr_fexp prec emax m e l) as [mrs' e']. simpl fst in H1.
  pose proof (round_nearest_even_lower (shr_m mrs') (loc_of_shr_record mrs')) as Hl.
  pose proof (shr_fexp_nonneg (round_nearest_even (shr_m mrs') (loc_of_shr_record mrs')) e'
                loc_Exact ltac:(lia)) as H3.
  destruct (shr_fexp prec emax (round_nearest_even (shr_m mrs') (loc_of_shr_record mrs')) e'
              loc_Exact) as [mrs'' e'']. simpl fst in H3.
  destruct (shr_m mrs'') as [ | p | p]; try lia; [exact I | ].
  destruct (e'' <=? emax - prec); reflexivity.
Qed.

(** It gives no infinity when the exponent stays in range. *)
Lemma binary_round_aux_in_range (m e : Z) (l : SpecFloat.location) :
  0 <= m -> emin <= e ->
  Z.max e (fexp prec emax (Zdigits2 m + e)) <= 970 ->
  binary_round_aux prec emax false m e l <> S754_infinity false.
Proof.
  intros Hm He B. unfold binary_round_aux.
  pose proof (shr_fexp_bounds m e l Hm He) as [H1 H2].
  destruct (shr_fexp prec emax m e l) as [mrs' e'] eqn:E1. simpl fst in H1; simpl snd in H2.
  pose proof (round_nearest_even_lower (shr_m mrs') (loc_of_shr_record mrs')) as Hl.
  pose proof (round_nearest_even_upper (shr_m mrs') (loc_of_shr_record mrs')) as Hu.
  set (m1 := round_nearest_even (shr_m mrs') (loc_of_shr_record mrs')) in *.
  assert (He' : emin <= e') by (rewrite H2; lia).
  pose proof (shr_fexp_bounds m1 e' loc_Exact ltac:(lia) He') as [H3 H4].
  destruct (shr_fexp prec emax m1 e' loc_Exact) as [mrs'' e''] eqn:E2.
  simpl fst in H3; simpl snd in H4.
  destruct (shr_m mrs'') as [ | p | p]; try discriminate.
  assert (D : Zdigits2 m1 <= 54).
  { destruct m1 as [ | x | x]; simpl Zdigits2; try lia.
    apply digits_bound; [lia | ].
    assert (2 ^ 54 = 2 * 2 ^ 53) by reflexivity. lia. }
  assert (e'' <= emax - prec).
  { rewrite H4. unfold fexp, SpecFloat.emin, prec, emax in *. lia. }
  apply Z.leb_le in H. rewrite H. discriminate.
Qed.

(** The length of a list of fewer than [2 ^ 63] elements, as a number:
    positive and finite as soon as the list is not empty. *)
Lemma lengthOf_positive {A : Type} (xs : list A) :
  xs <> [] -> Z.of_nat (List.length xs) < 2 ^ 63 ->
  exists m e, Prim2SF (lengthOf xs) = S754_finite false m e.
Proof.
  intros N B. unfold lengthOf. rewrite FloatAxioms.of_uint63_spec, Uint63.of_Z_spec.
  assert (P : 0 < Z.of_nat (List.length xs)) by (destruct xs; [contradiction | simpl; lia]).
  rewrite Z.mod_small by (change wB with (2 ^ 63); lia).
  destruct (Z.of_nat (List.length xs)) as [ | p | p]; try lia.
  unfold binary_normalize.
  pose proof (binary_round_shape false p 0 ltac:(unfold SpecFloat.emin, prec, emax; lia)) as S.
  assert (F : binary_round prec emax false p 0 <> S754_infinity false).
  { unfold binary_round.
    destruct (shl_align p 0 (fexp prec emax (Zpos (digits2_pos p) + 0))) as [mz ez] eqn:E.
    pose proof (digits2_pos_upper p) as U.
    assert (Dp : Zpos (digits2_pos p) <= 63) by (apply digits_bound; lia).
    assert (Hfexp : fexp prec emax (Zpos (digits2_pos p) + 0) = Zpos (digits2_pos p) - 53).
    { unfold fexp, SpecFloat.emin, prec, emax. lia. }
    assert (Hez : ez <= 0 /\ emin <= ez /\ Zpos mz = Zpos p * 2 ^ (0 - ez)
                  /\ (ez = 0 \/ ez = Zpos (digits2_pos p) - 53)).
    { unfold shl_align in E. rewrite Hfexp in E.
      destruct (Zpos (digits2_pos p) - 53 - 0) as [ | d | d] eqn:Hd;
        apply pair_equal_spec in E; destruct E as [E1 E2]; subst mz ez.
      - unfold SpecFloat.emin, prec, emax. repeat split; try lia.
      - unfold SpecFloat.emin, prec, emax. repeat split; try lia.
      - unfold SpecFloat.emin, prec, emax. repeat split; try lia.
        change (Pos.iter xO p d) with (shift_pos d p).
        rewrite shift_pos_correct, Z.pow_pos_fold.
        replace (0 - (Zpos (digits2_pos p) - 53)) with (Zpos d) by lia. lia. }
    destruct Hez as (Hez1 & Hez2 & Hmz & Hcase).
    apply (binary_round_aux_in_range (Zpos mz) ez loc_Exact); [lia | exact Hez2 | ].
    simpl Zdigits2.
    assert (Dmz : Zpos (digits2_pos mz) <= Zpos (digits2_pos p) - ez).
    { apply digits_bound; [lia | ]. rewrite Hmz.
      replace (Zpos (digits2_pos p) - ez) with (Zpos (digits2_pos p) + (0 - ez)) by lia.
      rewrite Z.pow_add_r by lia.
      assert (0 < 2 ^ (0 - ez)) by (apply Z.pow_pos_nonneg; lia). nia. }
    unfold fexp, SpecFloat.emin, prec, emax in *. lia. }
  destruct (binary_round prec emax false p 0) as [ | s | | s m e];
    simpl in S; try contradiction; subst s; [contradiction F; reflexivity | eauto].
Qed.

Lemma signedNonzero_nonnegative (x : spec_float) : signedNonzero false x -> nonnegative x.
Proof. destruct x; simpl; tauto. Qed.

(** The sum of two numbers that are not negative is not negative. *)
Lemma SFadd_nonnegative (x y : spec_float) :
  valid_binary x = true -> valid_binary y = true ->
  nonnegative x -> nonnegative y -> nonnegative (SFadd prec emax x y).
Proof.
  intros Vx Vy Px Py.
  destruct x as [sx | sx | | sx mx ex]; destruct y as [sy | sy | | sy my ey];
    simpl in Px, Py; try contradiction; subst; simpl; try exact I; try reflexivity.
  - destruct sx, sy; exact I.
  - destruct (valid_finite_bounds _ _ _ Vx) as (Hex & _).
    destruct (valid_finite_bounds _ _ _ Vy) as (Hey & _).
    apply signedNonzero_nonnegative, binary_round_shape. lia.
Qed.

(** A number that is not negative, divided by a positive finite number,
    is not negative. *)
Lemma SFdiv_nonnegative (x : spec_float) (m : positive) (e : Z) :
  nonnegative x -> nonnegative (SFdiv prec emax x (S754_finite false m e)).
Proof.
  intros Px. destruct x as [sx | sx | | sx mx ex]; simpl in Px; try contradiction;
    subst; simpl; try exact I; try reflexivity.
  unfold SFdiv_core_binary.
  match goal with
  | |- context [Z.div_eucl ?a ?b] =>
      assert (Ha : 0 <= a);
      [ | pose proof (Z_div_mod a b ltac:(lia)) as D; destruct (Z.div_eucl a b) as [q r] ]
  end.
  { match goal with |- 0 <= match ?s with _ => _ end => destruct s end;
      [lia | apply Z.shiftl_nonneg; lia | lia]. }
  apply binary_round_aux_sign. nia.
Qed.

Lemma leq_nonnegative (a : float) : (0 <=? a)%float = true -> nonnegative (Prim2SF a).
Proof.
  rewrite FloatAxioms.leb_spec. change (Prim2SF 0) with (S754_zero false).
  unfold SFleb, SFcompare. destruct (Prim2SF a) as [s | s | | s m e]; simpl;
    try discriminate; try (destruct s; [discriminate | reflexivity]). exact (fun _ => I).
Qed.

Lemma nonnegative_leq (a : float) : nonnegative (Prim2SF a) -> (0 <=? a)%float = true.
Proof.
  rewrite FloatAxioms.leb_spec. change (Prim2SF 0) with (S754_zero false).
  unfold SFleb, SFcompare. destruct (Prim2SF a) as [s | s | | s m e]; simpl;
    try contradiction; try (intros ->); reflexivity.
Qed.

(** The running sum of affinities that are not negative is not negative. *)
Lemma total_nonnegative (entities : list QlooEntity) :
  forall sum : float,
    nonnegative (Prim2SF sum) -> affinitiesNonNegative entities = true ->
    nonnegative
      (Prim2SF (fold_left (fun sum entity => (sum + numberOr (affinity entity) 0)%float)
                          entities sum)).
Proof.
  induction entities as [ | e rest IH]; intros sum Hs H; [exact Hs | ].
  cbn [affinitiesNonNegative forallb] in H. apply andb_true_iff in H. destruct H as [He Hrest].
  cbn [fold_left]. apply IH; [ | exact Hrest].
  rewrite FloatAxioms.add_spec.
  apply SFadd_nonnegative; auto using Prim2SF_valid.
  unfold numberOr. destruct (affinity e) as [a | ]; [ | exact I].
  destruct (truthyNumber a); [apply leq_nonnegative; exact He | exact I].
Qed.

End Averages.

(** X21.  For every list of entities (of fewer than [2 ^ 32], as every
    array) whose affinities, where present, are numbers that are not
    negative, the average affinity is a number that is not negative:
    never [NaN], whatever the affinities add up to. *)
Theorem average_is_not_negative (entities : list QlooEntity) :
  (Z.of_nat (List.length entities) < 2 ^ 32)%Z ->
  affinitiesNonNegative entities = true ->
  (0 <=? calculateAverageAffinity entities)%float = true.
Proof.
  intros B H. unfold calculateAverageAffinity.
  destruct entities as [ | e rest]; [reflexivity | ].
  cbn [List.length Nat.eqb]. cbv zeta.
  apply Averages.nonnegative_leq. rewrite FloatAxioms.div_spec.
  destruct (Averages.lengthOf_positive (e :: rest)) as (m & x & L); [discriminate | lia | ].
  rewrite L. apply Averages.SFdiv_nonnegative.
  apply Averages.total_nonnegative; [exact I | exact H].
Qed.

Lemma average_is_not_negative_witness :
  (0 <=? calculateAverageAffinity Examples.threeEntities)%float = true.
Proof. apply (average_is_not_negative Examples.threeEntities); reflexivity. Defined.

(** ** The integration example *)

(** Component generation looks at the location of its context only. *)
Lemma components_by_location (qloo : Upstream) (projectType projectType' : string)
    (userProfile : UserTasteProfile) (context context' : ProjectContext) (log : Log) :
  userLocation context = userLocation context' ->
  generateComponentRecommendations qloo projectType userProfile context log
  = generateComponentRecommendations qloo projectType' userProfile context' log.
Proof.
  intros L.
  pose proof (generateComponentRecommendations_run qloo projectType userProfile context log)
    as R.
  pose proof (generateComponentRecommendations_run qloo projectType' userProfile context' log)
    as R'.
  cbv zeta in R, R'. rewrite R, R'.
  assert (V : venueQuery userProfile context = venueQuery userProfile context').
  { unfold venueQuery. rewrite L. reflexivity. }
  rewrite V. reflexivity.
Qed.

Lemma components_calls (qloo : Upstream) (projectType : string)
    (userProfile : UserTasteProfile) (context : ProjectContext) (log : Log) :
  exists components,
    generateComponentRecommendations qloo projectType userProfile context log
    = (Ok components, log ++ componentQueries userProfile context).
Proof.
  pose proof (generateComponentRecommendations_run qloo projectType userProfile context log)
    as R.
  cbv zeta in R. rewrite R. eexists. reflexivity.
Qed.

(** The loop over the projects: it never fails and makes the same six
    queries for each project. *)
Lemma enhanced_projects_loop (qloo : Upstream) (userProfile : UserTasteProfile)
    (context : ProjectContext) (contextOf : CulturalGoalArchitect.Project -> ProjectContext)
    (typeOf : CulturalGoalArchitect.Project -> string)
    (projects : list CulturalGoalArchitect.Project) :
  (forall project, userLocation (contextOf project) = userLocation context) ->
  forall (acc : list GoalSystem.EnhancedProject) (log : Log),
    forOf projects
      (fun enhancedProjects project =>
         bind (generateComponentRecommendations qloo (typeOf project) userProfile
                 (contextOf project))
              (fun componentRecommendations =>
                 ret (enhancedProjects
                        ++ [ {| GoalSystem.enhanced := project;
                                GoalSystem.smartComponents := componentRecommendations |} ])))
      acc log
    = (Ok (acc ++ withComponents qloo userProfile context projects log),
       log ++ List.concat (repeat (componentQueries userProfile context)
                                  (List.length projects))).
Proof.
  intros L. induction projects as [ | project rest IH]; intros acc log.
  - cbn [forOf withComponents List.length repeat List.concat]. unfold ret.
    rewrite !app_nil_r. reflexivity.
  - cbn [forOf withComponents List.length repeat List.concat].
    rewrite run_bind, run_bind.
    rewrite (components_by_location qloo (typeOf project) "" userProfile
               (contextOf project) context log (L project)).
    destruct (components_calls qloo "" userProfile context log) as [components ->].
    unfold ret at 1. rewrite IH, <- !app_assoc. reflexivity.
Qed.

Lemma goal_system_run (toLowerCase underscored : string -> string)
    (mathRound : float -> float) (mathMin : float -> float -> float) (qloo : Upstream)
    (userGoal : string) (userContext : GoalSystem.UserContext) (log : Log) :
  let interests :=
    Helpers.extractInterestsFromGoal toLowerCase userGoal
      (GoalSystem.contextInterests userContext) in
  let userProfile :=
    {| interests := interests;
       demographics :=
         Some {| age := optField age (GoalSystem.contextDemographics userContext);
                 gender := optField gender (GoalSystem.contextDemographics userContext) |};
       location := Some {| query := GoalSystem.contextLocation userContext;
                           coordinates := None |};
       preferences := Some {| prefPriceLevel := None; prefPopularity := None |} |} in
  let context (projectType : string) :=
    {| projectType := projectType;
       goalCategory := Helpers.categorizeGoal toLowerCase userGoal;
       userLocation := GoalSystem.contextLocation userContext;
       timeframe := None; budget := None |} in
  GoalSystem.exampleGoalSystemIntegration toLowerCase underscored mathRound mathMin qloo
    userGoal userContext log
  = match enhanceGoalWithCulturalInsights qloo userGoal userProfile
            (context "user_defined_goal"%string) log with
    | (Err e, log1) => (Err e, log1)
    | (Ok insights, log1) =>
        match discoverUnexpectedConnections qloo interests
                (Helpers.categorizeGoal toLowerCase userGoal) (context "discovery"%string)
                (log1 ++ List.concat
                           (repeat (componentQueries userProfile (context "discovery"%string))
                                   (List.length (personalizedProjects insights)))) with
        | (Err e, log3) => (Err e, log3)
        | (Ok discoveries, log3) =>
            (Ok {| GoalSystem.originalGoal := userGoal;
                   GoalSystem.culturalEnhancement := insights;
                   GoalSystem.enhancedProjects :=
                     withComponents qloo userProfile (context "discovery"%string)
                       (personalizedProjects insights) log1;
                   GoalSystem.crossDomainOpportunities := discoveries;
                   GoalSystem.culturalFitScore :=
                     GoalSystem.calculateOverallFitScore mathRound mathMin insights
                       discoveries |},
             log3)
        end
    end.
Proof.
  cbv zeta. unfold GoalSystem.exampleGoalSystemIntegration, GoalSystem.goalContext,
    Profiles.createUserTasteProfile, Profiles.createProjectContext.
  cbn [Profiles.dataInterests Profiles.dataAge Profiles.dataGender Profiles.dataLocation
       Profiles.dataCoordinates Profiles.dataPriceRange
       projectType goalCategory userLocation timeframe budget].
  rewrite run_bind.
  destruct (enhanceGoalWithCulturalInsights qloo userGoal _ _ log)
    as [[insights | e] log1]; [ | reflexivity].
  rewrite run_bind.
  rewrite (enhanced_projects_loop qloo _
             {| projectType := "discovery"%string;
                goalCategory := Helpers.categorizeGoal toLowerCase userGoal;
                userLocation := GoalSystem.contextLocation userContext;
                timeframe := None; budget := None |}
             (fun project =>
                {| projectType := underscored (toLowerCase (projectName project));
                   goalCategory := Helpers.categorizeGoal toLowerCase userGoal;
                   userLocation := GoalSystem.contextLocation userContext;
                   timeframe := None; budget := None |})
             (fun project => underscored (toLowerCase (projectName project))))
    by reflexivity.
  cbn [app]. rewrite run_bind.
  destruct (discoverUnexpectedConnections qloo _ _ _ _) as [[discoveries | e] log3];
    reflexivity.
Qed.

Lemma withComponents_projects (qloo : Upstream) (userProfile : UserTasteProfile)
    (context : ProjectContext) (projects : list CulturalGoalArchitect.Project) :
  forall log : Log,
    map GoalSystem.enhanced (withComponents qloo userProfile context projects log) = projects.
Proof.
  induction projects as [ | project rest IH]; intros log; [reflexivity | ].
  cbn [withComponents].
  destruct (components_calls qloo "" userProfile context log) as [components ->].
  cbn [map GoalSystem.enhanced]. rewrite IH. reflexivity.
Qed.

(** X22.  The integration example, for every service, goal and user
    context: it fails exactly when goal enhancement fails or, after it,
    discovery fails, with that error.  Between the two it generates the
    components of each project, which never fails and sends the same
    six queries once per project (in the order in which [Promise.all]
    issues them), whatever the project; every project of the
    enhancement is returned, in order, with its components. *)
Theorem goal_system_outcomes (toLowerCase underscored : string -> string)
    (mathRound : float -> float) (mathMin : float -> float -> float) (qloo : Upstream)
    (userGoal : string) (userContext : GoalSystem.UserContext) (log : Log) :
  let interests :=
    Helpers.extractInterestsFromGoal toLowerCase userGoal
      (GoalSystem.contextInterests userContext) in
  let userProfile :=
    Profiles.createUserTasteProfile
      {| Profiles.dataInterests := interests;
         Profiles.dataAge := optField age (GoalSystem.contextDemographics userContext);
         Profiles.dataGender := optField gender (GoalSystem.contextDemographics userContext);
         Profiles.dataLocation := GoalSystem.contextLocation userContext;
         Profiles.dataCoordinates := None;
         Profiles.dataPriceRange := None |} in
  let context := GoalSystem.goalContext toLowerCase in
  let category := Helpers.categorizeGoal toLowerCase userGoal in
  let run :=
    GoalSystem.exampleGoalSystemIntegration toLowerCase underscored mathRound mathMin qloo
      userGoal userContext log in
  match enhanceGoalWithCulturalInsights qloo userGoal userProfile
          (context "user_defined_goal"%string userGoal userContext) log with
  | (Err e, log1) => run = (Err e, log1)
  | (Ok insights, log1) =>
      let projects := personalizedProjects insights in
      let log2 :=
        log1 ++ List.concat
                  (repeat (componentQueries userProfile
                             (context "discovery"%string userGoal userContext))
                          (List.length projects)) in
      match discoverUnexpectedConnections qloo interests category
              (context "discovery"%string userGoal userContext) log2 with
      | (Err e, log3) => run = (Err e, log3)
      | (Ok discoveries, log3) =>
          snd run = log3
          /\ match fst run with
             | Ok result =>
                 GoalSystem.culturalEnhancement result = insights
                 /\ GoalSystem.crossDomainOpportunities result = discoveries
                 /\ map GoalSystem.enhanced (GoalSystem.enhancedProjects result) = projects
             | Err _ => False
             end
      end
  end.
Proof.
  cbv zeta.
  pose proof (goal_system_run toLowerCase underscored mathRound mathMin qloo userGoal
                userContext log) as R.
  cbv zeta in R. rewrite R. clear R.
  unfold GoalSystem.goalContext, Profiles.createUserTasteProfile,
    Profiles.createProjectContext.
  cbn [Profiles.dataInterests Profiles.dataAge Profiles.dataGender Profiles.dataLocation
       Profiles.dataCoordinates Profiles.dataPriceRange
       projectType goalCategory userLocation timeframe budget].
  destruct (enhanceGoalWithCulturalInsights qloo userGoal _ _ log)
    as [[insights | e] log1]; [ | reflexivity].
  destruct (discoverUnexpectedConnections qloo _ _ _ _) as [[discoveries | e] log3];
    [ | reflexivity].
  cbn [fst snd GoalSystem.culturalEnhancement GoalSystem.crossDomainOpportunities
       GoalSystem.enhancedProjects].
  repeat split. apply withComponents_projects.
Qed.

Lemma withComponents_stateless (qloo : Upstream) (userProfile : UserTasteProfile)
    (context : ProjectContext) :
  (forall before before' options,
      insightsReply qloo before options = insightsReply qloo before' options) ->
  forall (projects : list CulturalGoalArchitect.Project) (log : Log),
    withComponents qloo userProfile context projects log
    = map (fun project =>
             {| GoalSystem.enhanced := project;
                GoalSystem.smartComponents :=
                  {| venues :=
                       resultsOrEmpty (insightsReply qloo [] (venueQuery userProfile context));
                     content :=
                       resultsOrEmpty (insightsReply qloo [] (contentQuery BOOK userProfile))
                       ++ resultsOrEmpty
                            (insightsReply qloo [] (contentQuery PODCAST userProfile))
                       ++ resultsOrEmpty
                            (insightsReply qloo [] (contentQuery MOVIE userProfile));
                     tools := resultsOrEmpty (insightsReply qloo [] (toolQuery userProfile));
                     communities :=
                       resultsOrEmpty (insightsReply qloo [] (communityQuery userProfile))
                  |} |})
          projects.
Proof.
  intros Stateless. induction projects as [ | project rest IH]; intros log; [reflexivity | ].
  cbn [withComponents map].
  pose proof (generateComponentRecommendations_run qloo "" userProfile context log) as R.
  cbv zeta in R. rewrite R. clear R. rewrite IH. f_equal. f_equal.
  repeat match goal with
         | |- context [insightsReply qloo (?l ++ ?c) ?o] =>
             rewrite (Stateless (l ++ c) [] o)
         end.
  rewrite (Stateless log [] _). reflexivity.
Qed.

(** X23.  With a service whose insight replies do not depend on the
    calls made before, the integration example gives every project the
    same components: the six queries it repeats for each project get
    the same answers. *)
Theorem goal_system_repeats_components (toLowerCase underscored : string -> string)
    (mathRound : float -> float) (mathMin : float -> float -> float) (qloo : Upstream)
    (userGoal : string) (userContext : GoalSystem.UserContext) (log : Log) :
  (forall before before' options,
      insightsReply qloo before options = insightsReply qloo before' options) ->
  match fst (GoalSystem.exampleGoalSystemIntegration toLowerCase underscored mathRound
               mathMin qloo userGoal userContext log) with
  | Ok result =>
      forall first second,
        In first (GoalSystem.enhancedProjects result) ->
        In second (GoalSystem.enhancedProjects result) ->
        GoalSystem.smartComponents first = GoalSystem.smartComponents second
  | Err _ => True
  end.
Proof.
  intros Stateless.
  pose proof (goal_system_run toLowerCase underscored mathRound mathMin qloo userGoal
                userContext log) as R.
  cbv zeta in R. rewrite R. clear R.
  destruct (enhanceGoalWithCulturalInsights qloo userGoal _ _ log)
    as [[insights | e] log1]; [ | exact I].
  destruct (discoverUnexpectedConnections qloo _ _ _ _) as [[discoveries | e] log3];
    [ | exact I].
  cbn [fst GoalSystem.enhancedProjects].
  rewrite withComponents_stateless by exact Stateless.
  intros first second Hf Hs. apply in_map_iff in Hf, Hs.
  destruct Hf as (p & <- & _), Hs as (q & <- & _). reflexivity.
Qed.

Lemma goal_system_repeats_components_witness :
  match fst (GoalSystem.exampleGoalSystemIntegration (fun s => s) (fun s => s)
               (fun x => x) (fun x y => x) Examples.healthy "learn jazz guitar"
               {| GoalSystem.contextInterests := None;
                  GoalSystem.contextDemographics := None;
                  GoalSystem.contextLocation := None |} []) with
  | Ok result =>
      forall first second,
        In first (GoalSystem.enhancedProjects result) ->
        In second (GoalSystem.enhancedProjects result) ->
        GoalSystem.smartComponents first = GoalSystem.smartComponents second
  | Err _ => True
  end.
Proof.
  apply (goal_system_repeats_components (fun s => s) (fun s => s) (fun x => x)
           (fun x y => x) Examples.healthy).
  intros before before' options. reflexivity.
Defined.

(** On the sample service: three interests are extracted, the four
    projects get their components, and 38 calls are made (10 by the
    enhancement, 6 for each project, 4 by the discovery). *)
Example goal_system_on_the_sample_service :
  match GoalSystem.exampleGoalSystemIntegration (fun s => s) (fun s => s)
          (fun x => x) (fun x y => x) Examples.healthy "learn jazz guitar"
          {| GoalSystem.contextInterests := None;
             GoalSystem.contextDemographics := None;
             GoalSystem.contextLocation := None |} [] with
  | (Ok result, calls) =>
      List.length (GoalSystem.enhancedProjects result) = 4
      /\ List.length calls = 38
  | (Err _, _) => False
  end.
Proof. vm_compute. split; reflexivity. Qed.

